(** * Path-Set-Find: marker search, path resolution and folder navigation

    A shallow embedding of the Python scripts of the repository
    (autoPath_v1.0.py, autoSet_path.py, path_setter.py and
    simple_path_manager.py) and the properties of their marker scanner,
    path resolver, drive enumeration, recent list and folder browser.

    Strings are ASCII strings; Python's [int] is [Z]; the scalars pandas
    hands out for the cells of a table are [value]s; a function that can
    raise returns an [outcome]; what a script prints is returned as a list
    of [output] lines next to its result. *)

From Stdlib Require Import String Ascii List ZArith Lia Bool Arith.
From Stdlib Require Decimal DecimalString DecimalNat.
From Stdlib Require Import Permutation.
Import ListNotations.

Local Open Scope list_scope.
Local Open Scope string_scope.

(** ** Exceptions and results *)

(** The exception classes the scripts name in their [except] clauses, and
    three that can reach them uncaught. *)
Inductive exn : Type :=
| PermissionError
| FileNotFoundError
| NotADirectoryError
| ValueError
| IndexError
| OverflowError
| EOFError.

Inductive outcome (A : Type) : Type :=
| Ok (a : A)
| Raise (e : exn).

Arguments Ok {A} a.
Arguments Raise {A} e.

Definition bind {A B : Type} (m : outcome A) (k : A -> outcome B) : outcome B :=
  match m with
  | Ok a => k a
  | Raise e => Raise e
  end.

Notation "x <- m ;; k" := (bind m (fun x => k))
  (at level 61, m at next level, right associativity).

(** ** Python string operations *)

Module PyStr.

Definition ord (c : ascii) : Z := Z.of_nat (nat_of_ascii c).

Definition in_range (lo hi : nat) (c : ascii) : bool :=
  (lo <=? nat_of_ascii c)%nat && (nat_of_ascii c <=? hi)%nat.

Definition is_upper (c : ascii) : bool := in_range 65 90 c.
Definition is_lower (c : ascii) : bool := in_range 97 122 c.
Definition is_letter (c : ascii) : bool := is_upper c || is_lower c.
Definition is_digit (c : ascii) : bool := in_range 48 57 c.

(** [str.isspace] on ASCII: tab to carriage return, the four separators
    0x1c..0x1f and the space. *)
Definition is_space (c : ascii) : bool :=
  in_range 9 13 c || in_range 28 32 c.

Definition lower_char (c : ascii) : ascii :=
  if is_upper c then ascii_of_nat (nat_of_ascii c + 32) else c.

Definition upper_char (c : ascii) : ascii :=
  if is_lower c then ascii_of_nat (nat_of_ascii c - 32) else c.

Fixpoint map_chars (f : ascii -> ascii) (s : string) : string :=
  match s with
  | EmptyString => EmptyString
  | String c s' => String (f c) (map_chars f s')
  end.

(** [s.lower()] and [s.upper()] *)
Definition lower (s : string) : string := map_chars lower_char s.
Definition upper (s : string) : string := map_chars upper_char s.

(** [s.startswith(p)] *)
Definition startswith (p s : string) : bool := String.prefix p s.

(** [t in s] *)
Fixpoint contains (t s : string) : bool :=
  String.prefix t s ||
  match s with
  | EmptyString => false
  | String _ s' => contains t s'
  end.

(** [s[n:]] for [0 <= n] *)
Fixpoint drop (n : nat) (s : string) : string :=
  match n, s with
  | O, _ => s
  | S _, EmptyString => EmptyString
  | S n', String _ s' => drop n' s'
  end.

(** [s.count(c)] for a one-character [c] *)
Fixpoint count (c : ascii) (s : string) : nat :=
  match s with
  | EmptyString => O
  | String a s' => (if Ascii.eqb a c then 1 else 0) + count c s'
  end.

(** [s.split(c)] for a one-character separator: the list is never
    empty, and [n] separators give [n + 1] fields. *)
Fixpoint split (c : ascii) (s : string) : list string :=
  match s with
  | EmptyString => [EmptyString]
  | String a s' =>
      if Ascii.eqb a c then EmptyString :: split c s'
      else match split c s' with
           | [] => [String a EmptyString]
           | w :: ws => String a w :: ws
           end
  end.

Fixpoint all_chars (p : ascii -> bool) (s : string) : bool :=
  match s with
  | EmptyString => true
  | String c s' => p c && all_chars p s'
  end.

(** [s.isdigit()]: at least one character, and all of them digits *)
Definition isdigit (s : string) : bool :=
  match s with
  | EmptyString => false
  | String _ _ => all_chars is_digit s
  end.

(** [s.lstrip()], [s.rstrip()] and [s.strip()] *)
Fixpoint lstrip (s : string) : string :=
  match s with
  | EmptyString => EmptyString
  | String c s' => if is_space c then lstrip s' else s
  end.

Fixpoint rstrip (s : string) : string :=
  match s with
  | EmptyString => EmptyString
  | String c s' =>
      match rstrip s' with
      | EmptyString => if is_space c then EmptyString else String c EmptyString
      | r => String c r
      end
  end.

Definition strip (s : string) : string := rstrip (lstrip s).

(** The digits of a decimal literal, most significant first, with the
    single underscores Python allows between two digits.  [acc] is the
    value read so far and [after_digit] tells whether the previous
    character was a digit. *)
Fixpoint int_digits (acc : Z) (after_digit : bool) (s : string) : option Z :=
  match s with
  | EmptyString => if after_digit then Some acc else None
  | String c s' =>
      if is_digit c then int_digits (10 * acc + (ord c - 48)) true s'
      else if Ascii.eqb c "_" then
             if after_digit then
               match s' with
               | EmptyString => None
               | String d _ => if is_digit d then int_digits acc false s' else None
               end
             else None
           else None
  end.

(** The white space [int] passes over at both ends of an ASCII string:
    that of C's [isspace], tab to carriage return and the space.  The
    separators 0x1c..0x1f, which [str.isspace] and [str.strip] count as
    white space, are none for [int]. *)
Definition is_c_space (c : ascii) : bool :=
  in_range 9 13 c || Ascii.eqb c " ".

Fixpoint lstrip_c (s : string) : string :=
  match s with
  | EmptyString => EmptyString
  | String c s' => if is_c_space c then lstrip_c s' else s
  end.

Fixpoint rstrip_c (s : string) : string :=
  match s with
  | EmptyString => EmptyString
  | String c s' =>
      match rstrip_c s' with
      | EmptyString => if is_c_space c then EmptyString else String c EmptyString
      | r => String c r
      end
  end.

(** [int(s)] in base ten: surrounding white space, an optional sign,
    then the digits; anything else is a [ValueError]. *)
Definition int (s : string) : outcome Z :=
  let body := rstrip_c (lstrip_c s) in
  let parsed :=
    match body with
    | String "+" r => int_digits 0 false r
    | String "-" r => option_map Z.opp (int_digits 0 false r)
    | _ => int_digits 0 false body
    end in
  match parsed with
  | Some z => Ok z
  | None => Raise ValueError
  end.

(** Python truth value of a string or [None] *)
Definition truthy (v : option string) : bool :=
  match v with
  | Some (String _ _) => true
  | _ => false
  end.

(** [s.split(sep)] for a separator of one character or more: the
    occurrences of [sep] are taken from the left and do not overlap.
    [skip] counts the characters of an occurrence still to pass. *)
Fixpoint split_str (sep : string) (skip : nat) (s : string) : list string :=
  match s with
  | EmptyString => [""]
  | String c rest =>
      match skip with
      | S skip' => split_str sep skip' rest
      | O =>
          if String.prefix sep s
          then "" :: split_str sep (String.length sep - 1) rest
          else match split_str sep 0 rest with
               | field :: fields => String c field :: fields
               | [] => [String c ""]
               end
      end
  end.

Definition split_on (sep s : string) : list string := split_str sep 0 s.

(** [s.endswith(suffix)] *)
Fixpoint endswith (suffix s : string) : bool :=
  if String.eqb s suffix then true
  else match s with
       | EmptyString => false
       | String _ rest => endswith suffix rest
       end.

End PyStr.

(** ** [os.path] on the two families of platforms *)

Module OsPath.

Definition slash : ascii := "/"%char.
Definition backslash : ascii := "\"%char.
Definition colon : ascii := ":"%char.

(** whether the last character of [s] satisfies [p] *)
Fixpoint ends_with (p : ascii -> bool) (s : string) : bool :=
  match s with
  | EmptyString => false
  | String c EmptyString => p c
  | String _ s' => ends_with p s'
  end.

(** The part of [s] up to and including its last separator: [s[:i]]
    for [i = rfind(sep) + 1]. *)
Fixpoint head_to_last_sep (is_sep : ascii -> bool) (s : string) : string :=
  match s with
  | EmptyString => EmptyString
  | String c s' =>
      match head_to_last_sep is_sep s' with
      | EmptyString => if is_sep c then String c EmptyString else EmptyString
      | h => String c h
      end
  end.

(** [s.rstrip(seps)] *)
Fixpoint rstrip_seps (is_sep : ascii -> bool) (s : string) : string :=
  match s with
  | EmptyString => EmptyString
  | String c s' =>
      match rstrip_seps is_sep s' with
      | EmptyString => if is_sep c then EmptyString else String c EmptyString
      | r => String c r
      end
  end.

(** *** posixpath *)

Definition posix_is_sep (c : ascii) : bool := Ascii.eqb c slash.

(** [posixpath.join(a, b)] *)
Definition posix_join (a b : string) : string :=
  if PyStr.startswith "/" b then b
  else if (String.eqb a "" || ends_with posix_is_sep a)%bool then a ++ b
       else a ++ "/" ++ b.

(** [posixpath.dirname(p)] *)
Definition posix_dirname (p : string) : string :=
  let head := head_to_last_sep posix_is_sep p in
  if PyStr.all_chars posix_is_sep head then head
  else rstrip_seps posix_is_sep head.

(** *** ntpath, for paths with a drive letter or none (UNC and device
    paths are left out: the scripts build none) *)

Definition nt_is_sep (c : ascii) : bool :=
  (Ascii.eqb c backslash || Ascii.eqb c slash)%bool.

(** [ntpath.splitroot(p)]: drive, root and the rest *)
Definition nt_splitroot (p : string) : string * string * string :=
  match p with
  | String c0 rest0 =>
      if nt_is_sep c0 then (EmptyString, String c0 EmptyString, rest0)
      else match rest0 with
           | String c1 rest1 =>
               if Ascii.eqb c1 colon then
                 match rest1 with
                 | String c2 rest2 =>
                     if nt_is_sep c2
                     then (String c0 (String c1 EmptyString),
                           String c2 EmptyString, rest2)
                     else (String c0 (String c1 EmptyString), EmptyString, rest1)
                 | EmptyString =>
                     (String c0 (String c1 EmptyString), EmptyString, EmptyString)
                 end
               else (EmptyString, EmptyString, p)
           | EmptyString => (EmptyString, EmptyString, p)
           end
  | EmptyString => (EmptyString, EmptyString, EmptyString)
  end.

(** [ntpath.join(a, b)] *)
Definition nt_join (a b : string) : string :=
  let '(a_drive, a_root, a_path) := nt_splitroot a in
  let '(b_drive, b_root, b_path) := nt_splitroot b in
  let relative (drive : string) :=
    let path :=
      if (negb (String.eqb a_path "") && negb (ends_with nt_is_sep a_path))%bool
      then a_path ++ "\" else a_path in
    drive ++ a_root ++ path ++ b_path in
  if negb (String.eqb b_root "") then
    if (negb (String.eqb b_drive "") || String.eqb a_drive "")%bool
    then b_drive ++ b_root ++ b_path
    else a_drive ++ b_root ++ b_path
  else if (negb (String.eqb b_drive "") && negb (String.eqb b_drive a_drive))%bool then
         if negb (String.eqb (PyStr.lower b_drive) (PyStr.lower a_drive))
         then b_drive ++ b_root ++ b_path
         else relative b_drive
       else relative a_drive.

(** [ntpath.dirname(p)] *)
Definition nt_dirname (p : string) : string :=
  let '(drive, root, path) := nt_splitroot p in
  drive ++ root ++ rstrip_seps nt_is_sep (head_to_last_sep nt_is_sep path).

End OsPath.

(** ** The values a path can be resolved to *)

(** A [numpy.float64]. *)
Inductive float64 : Type :=
| NaN
| Infinity (negative : bool)
| Finite (mantissa exponent : Z).   (** [mantissa * 2 ** exponent] *)

(** What the resolver hands back: a Python [str] (a drive, a directory,
    or a cell of a column of text), or the scalar pandas gives for a
    cell of another column: an integer ([numpy.int64]), a
    [numpy.float64], which is [NaN] for an empty cell, or a
    [numpy.bool_]. *)
Inductive value : Type :=
| Str (s : string)
| Int (z : Z)
| Float (x : float64)
| Bool (b : bool).

(** [bool(v)] *)
Definition truth (v : value) : bool :=
  match v with
  | Str s => negb (String.eqb s "")
  | Int z => negb (z =? 0)%Z
  | Float NaN => true
  | Float (Infinity _) => true
  | Float (Finite mantissa _) => negb (mantissa =? 0)%Z
  | Bool b => b
  end.

(** [if v:] for a value or [None] *)
Definition truthy (v : option value) : bool :=
  match v with
  | Some v => truth v
  | None => false
  end.

(** ** The world the scripts run in *)

Unset Elimination Schemes.

(** A directory as [os.walk] meets it: either [os.scandir] lists it, giving
    the plain files and the sub-directories in the order the system
    reports them, or the call raises an [OSError] such as
    [PermissionError]. *)
Inductive dir : Type :=
| Listing (files : list string) (subdirs : list (string * dir))
| Unreadable (e : exn).

Set Elimination Schemes.

(** Induction on a tree, with the property at hand for every
    sub-directory of a listed directory. *)
Section DirInduction.

Variable P : dir -> Prop.
Hypothesis unreadable_case : forall e, P (Unreadable e).
Hypothesis listing_case :
  forall files subdirs,
    Forall (fun entry => P (snd entry)) subdirs -> P (Listing files subdirs).

Fixpoint dir_ind (t : dir) : P t :=
  match t with
  | Unreadable e => unreadable_case e
  | Listing files subdirs =>
      listing_case files subdirs
        ((fix each (l : list (string * dir)) : Forall (fun entry => P (snd entry)) l :=
            match l with
            | [] => Forall_nil _
            | entry :: rest => Forall_cons entry (dir_ind (snd entry)) (each rest)
            end) subdirs)
  end.

End DirInduction.

(** A table as [pandas.read_csv(..., header=None)] returns it: its
    shape and its cells, each the scalar of its column's type. *)
Record DataFrame : Type := {
  n_rows : nat;
  n_cols : nat;
  cell : nat -> nat -> value
}.

(** The place [i] on an axis of [n] places, as numpy reads a Python
    [int] used as an index: an [int] that does not fit a C [long] is an
    [OverflowError]; a negative one counts from the end; a place the
    axis does not have is an [IndexError]. *)
Definition axis_index (n : nat) (i : Z) : outcome nat :=
  if ((i <? - 2 ^ 63) || (2 ^ 63 <=? i))%Z%bool then Raise OverflowError
  else
    let j := (if i <? 0 then i + Z.of_nat n else i)%Z in
    if ((0 <=? j) && (j <? Z.of_nat n))%Z%bool then Ok (Z.to_nat j)
    else Raise IndexError.

(** [df.iat[row, col]]: pandas takes the column, then the place [row]
    of its values. *)
Definition iat (df : DataFrame) (row col : Z) : outcome value :=
  c <- axis_index (n_cols df) col ;;
  r <- axis_index (n_rows df) row ;;
  Ok (cell df r c).

(** A JSON document as [json.load] returns it; only lists are looked
    into, and in a list only strings are of use. *)
Inductive json_item : Type :=
| JString (s : string)
| JOther.

Inductive json : Type :=
| JList (items : list json_item)
| JNotList.

Record Env : Type := {
  (** [platform.system()] *)
  platform_system : string;
  (** [os.path.exists] *)
  path_exists : string -> bool;
  (** [os.path.isdir] *)
  path_isdir : string -> bool;
  (** [os.listdir] *)
  os_listdir : string -> outcome (list string);
  (** the tree [os.walk] finds below a path *)
  tree_at : string -> dir;
  (** [pd.read_csv(csv_file, header=None)] *)
  read_csv : string -> outcome DataFrame;
  (** [os.path.normpath(os.path.expanduser(os.path.expandvars(path)))] *)
  expand_path : string -> string
}.


Definition is_windows (env : Env) : bool :=
  String.eqb (platform_system env) "Windows".

(** [os.sep] *)
Definition os_sep (env : Env) : ascii :=
  if is_windows env then OsPath.backslash else OsPath.slash.

(** [os.path.join] and [os.path.dirname] *)
Definition os_path_join (env : Env) (a b : string) : string :=
  if is_windows env then OsPath.nt_join a b else OsPath.posix_join a b.

Definition os_path_dirname (env : Env) (p : string) : string :=
  if is_windows env then OsPath.nt_dirname p else OsPath.posix_dirname p.

(** ** [os.walk(top)], top down, with the defaults [onerror=None] and
    [followlinks=False] *)

(** What one turn of the caller's [for root, dirs, files in os.walk(..)]
    loop does before the generator is resumed. *)
Inductive turn (R : Type) : Type :=
| Descend               (** the body ran to its end, [dirs] untouched *)
| Prune                 (** [dirs[:] = []] followed by [continue] *)
| Return (r : R).       (** [return r] from inside the loop *)

Arguments Descend {R}.
Arguments Prune {R}.
Arguments Return {R} r.

(** How the loop left a directory the walk handed to it. *)
Inductive visit_kind : Type :=
| Examined              (** its file names were looked at *)
| Cut.                  (** it was pruned without a look at its files *)

Record walk_result (R : Type) : Type := {
  visited : list (string * visit_kind);
  returned : option R
}.

Arguments visited {R} w.
Arguments returned {R} w.

Section Walk.

Variable env : Env.
Variable R : Type.
(** the loop body, given [root], [dirs] and [files] *)
Variable body : string -> list string -> list string -> turn R.

(** The generator lists [top]; an error of [os.scandir] is ignored and
    the directory skipped, since no [onerror] is given.  It then hands
    [(top, dirs, files)] to the loop and, unless the loop emptied [dirs]
    or returned, walks the sub-directories in order, depth first. *)
Fixpoint os_walk (top : string) (t : dir) {struct t} : walk_result R :=
  match t with
  | Unreadable _ => {| visited := []; returned := None |}
  | Listing files subdirs =>
      match body top (map fst subdirs) files with
      | Return r => {| visited := [(top, Examined)]; returned := Some r |}
      | Prune => {| visited := [(top, Cut)]; returned := None |}
      | Descend =>
          let fix children (l : list (string * dir)) : walk_result R :=
            match l with
            | [] => {| visited := []; returned := None |}
            | (name, sub) :: rest =>
                let w := os_walk (os_path_join env top name) sub in
                match returned w with
                | Some r => w
                | None =>
                    let w' := children rest in
                    {| visited := (visited w ++ visited w')%list;
                       returned := returned w' |}
                end
            end in
          let w := children subdirs in
          {| visited := (top, Examined) :: visited w;
             returned := returned w |}
      end
  end.

End Walk.

Arguments os_walk env {R} body top t.

(** ** The regular expression of the table marker *)

Module Re.

(** The longest run of digits at the front of [s], and what follows. *)
Fixpoint span_digits (s : string) : string * string :=
  match s with
  | EmptyString => (EmptyString, EmptyString)
  | String c s' =>
      if PyStr.is_digit c
      then let '(ds, rest) := span_digits s' in (String c ds, rest)
      else (EmptyString, s)
  end.

(** [s] without the prefix [p], when it starts with it. *)
Fixpoint strip_prefix (p s : string) : option string :=
  match p, s with
  | EmptyString, _ => Some s
  | String a p', String b s' =>
      if Ascii.eqb a b then strip_prefix p' s' else None
  | String _ _, EmptyString => None
  end.

(** [re.match(r'_setfromcsv_([a-zA-Z]\d+)_', s)], giving [group(1)].
    [\d+] is greedy and the character after it must be an underscore,
    which is no digit: giving digits back can never help, so the only
    candidate is the longest run of digits. *)
Definition match_setfromcsv (s : string) : option string :=
  match strip_prefix "_setfromcsv_" s with
  | Some (String letter rest) =>
      if PyStr.is_letter letter then
        match span_digits rest with
        | (String d ds, String u _) =>
            if Ascii.eqb u "_" then Some (String letter (String d ds)) else None
        | _ => None
        end
      else None
  | _ => None
  end.

(** [re.search(r'_setfromcsv_([a-zA-Z]\d+)_', s)]: the leftmost place
    where the pattern matches. *)
Fixpoint search_setfromcsv (s : string) : option string :=
  match match_setfromcsv s with
  | Some g => Some g
  | None =>
      match s with
      | EmptyString => None
      | String _ s' => search_setfromcsv s'
      end
  end.

End Re.

(** ** What the scripts print *)

Inductive output : Type :=
| PermissionDeniedMsg (drive : string)
    (** [Permission denied to access {drive}] *)
| CsvErrorMsg (csv_file cell_reference : string)
    (** [Error reading from {csv_file} or invalid cell {cell_reference}] *)
| SearchingMsg (drive : string)
    (** [Searching in {drive}...] *)
| SearchingSystemMsg (drive : string)
    (** [Searching in system drive {drive}...] *)
| FoundMsg (target_file file_path : string)
    (** [Found {target_file} in {file_path}] *)
| ErrorDeterminingMsg (file_path target_file : string).
    (** [Error determining path from {file_path} with {target_file}] *)

(** The drives a run of [choose_path] announced a search of, in order. *)
Fixpoint scanned (log : list output) : list string :=
  match log with
  | [] => []
  | SearchingMsg d :: log' => d :: scanned log'
  | SearchingSystemMsg d :: log' => d :: scanned log'
  | _ :: log' => scanned log'
  end.

(** The drive roots [X:\] for the letters with codes [first], [first + 1],
    ... ([count] of them). *)
Definition drive_roots (first count : nat) : list string :=
  map (fun code => String (ascii_of_nat code) ":\") (seq first count).

(** ** autoPath_v1.0.py *)

Module AutoPathV10.

(** [row, col = int(cell_reference[1:]) - 1,
                ord(cell_reference[0].upper()) - ord('A')] *)
Definition cell_address (cell_reference : string) : outcome (Z * Z) :=
  n <- PyStr.int (PyStr.drop 1 cell_reference) ;;
  c <- match cell_reference with
       | String c _ => Ok c
       | EmptyString => Raise IndexError
       end ;;
  Ok (n - 1, PyStr.ord (PyStr.upper_char c) - PyStr.ord "A")%Z.

Definition read_path_from_csv (env : Env) (csv_file cell_reference : string)
  : list output * outcome (option value) :=
  let attempt : outcome value :=
    df <- read_csv env csv_file ;;
    address <- cell_address cell_reference ;;
    iat df (fst address) (snd address) in
  match attempt with
  | Ok value => ([], Ok (Some value))
  | Raise FileNotFoundError | Raise ValueError | Raise IndexError =>
      ([CsvErrorMsg csv_file cell_reference], Ok None)
  | Raise e => ([], Raise e)
  end.

Definition get_available_drives (env : Env) : list string :=
  let system := platform_system env in
  let drives :=
    if String.eqb system "Windows"
    then filter (path_exists env) (drive_roots 65 26)
    else if String.eqb system "Linux" then ["/media"; "/mnt"]
    else if String.eqb system "Darwin" then ["/Volumes"]
    else [] in
  if (String.eqb system "Linux" || String.eqb system "Darwin")%bool
  then (drives ++ ["/"])%list
  else drives.

Definition is_system_drive (env : Env) (drive : string) : bool :=
  let system := platform_system env in
  if String.eqb system "Windows" then String.eqb (PyStr.lower drive) "c:\"
  else if (String.eqb system "Linux" || String.eqb system "Darwin")%bool
  then String.eqb drive "/"
  else false.

(** [for target_file in target_files: ...] for one [file] *)
Fixpoint try_targets (env : Env) (root file : string)
    (target_files : list string) : option (string * string) :=
  match target_files with
  | [] => None
  | target_file :: others =>
      if String.eqb target_file "_setfromcsv_" then
        match Re.search_setfromcsv file with
        | Some group1 =>
            Some (os_path_join env root file, "_setfromcsv_" ++ group1 ++ "_")
        | None => try_targets env root file others
        end
      else if PyStr.contains target_file file
      then Some (os_path_join env root file, target_file)
      else try_targets env root file others
  end.

(** [for file in files: ...] *)
Fixpoint try_files (env : Env) (root : string) (files target_files : list string)
  : option (string * string) :=
  match files with
  | [] => None
  | file :: others =>
      match try_targets env root file target_files with
      | Some found => Some found
      | None => try_files env root others target_files
      end
  end.

(** [depth = root[len(drive):].count(os.sep)] *)
Definition depth_of (env : Env) (drive root : string) : Z :=
  Z.of_nat (PyStr.count (os_sep env) (PyStr.drop (String.length drive) root)).

(** The body of the loop over [os.walk(drive)]. *)
Definition walk_body (env : Env) (drive : string) (target_files : list string)
    (max_system_depth : Z) (root : string) (dirs files : list string)
  : turn (string * string) :=
  if (is_system_drive env drive && (max_system_depth <=? depth_of env drive root)%Z)%bool
  then Prune
  else match try_files env root files target_files with
       | Some found => Return found
       | None => Descend
       end.

(** The walk inside the [try]: nothing in it raises. *)
Definition walk_drive (env : Env) (drive : string) (target_files : list string)
    (max_system_depth : Z) : outcome (walk_result (string * string)) :=
  Ok (os_walk env (walk_body env drive target_files max_system_depth)
        drive (tree_at env drive)).

(** The first component is what the call prints; [None] stands for the
    pair [(None, None)].  The second branch is the handler
    [except PermissionError]; as [walk_drive] is [Ok] whatever the tree,
    no exception of any class reaches it. *)
Definition search_for_setpath_file (env : Env) (drive : string)
    (target_files : list string) (max_system_depth : Z)
  : list output * option (string * string) :=
  match walk_drive env drive target_files max_system_depth with
  | Ok w => ([], returned w)
  | Raise _ => ([PermissionDeniedMsg drive], None)
  end.

(** The directories the walk of [drive] handed to the loop. *)
Definition walked (env : Env) (drive : string) (target_files : list string)
    (max_system_depth : Z) : list (string * visit_kind) :=
  visited (os_walk env (walk_body env drive target_files max_system_depth)
             drive (tree_at env drive)).

Definition set_path_based_on_file (env : Env)
    (drive file_path target_file csv_file : string)
  : list output * outcome (option value) :=
  if String.eqb target_file "_setpath_" then ([], Ok (Some (Str drive)))
  else if String.eqb target_file "_setthispath_"
  then ([], Ok (Some (Str (os_path_dirname env file_path))))
  else if PyStr.startswith "_setfromcsv_" target_file then
    (* a string that starts with [_setfromcsv_] has at least three fields *)
    let cell := PyStr.upper (nth 2 (PyStr.split "_" target_file) "") in
    read_path_from_csv env csv_file cell
  else ([], Ok None).

Definition target_files : list string :=
  ["_setpath_"; "_setthispath_"; "_setfromcsv_"].

(** One drive of [choose_path]: the search and, on a hit, the
    conversion.  [Ok (Some p)] is [return p]; [Ok None] lets
    [choose_path] go on. *)
Definition try_drive (env : Env) (csv_file : string) (announce : output)
    (drive : string) : list output * outcome (option value) :=
  let '(log1, found) := search_for_setpath_file env drive target_files 2 in
  match found with
  | Some (file_path, target_file) =>
      if PyStr.truthy (Some file_path) then
        let '(log2, chosen) :=
          set_path_based_on_file env drive file_path target_file csv_file in
        let log := (announce :: log1 ++ FoundMsg target_file file_path :: log2)%list in
        match chosen with
        | Ok chosen_path =>
            if truthy chosen_path then (log, Ok chosen_path)
            else ((log ++ [ErrorDeterminingMsg file_path target_file])%list, Ok None)
        | Raise e => (log, Raise e)
        end
      else (announce :: log1, Ok None)
  | None => (announce :: log1, Ok None)
  end.

(** [for drive in non_system_drives: ...] *)
Fixpoint search_drives (env : Env) (csv_file : string) (drives : list string)
  : list output * outcome (option value) :=
  match drives with
  | [] => ([], Ok None)
  | drive :: others =>
      let '(log, r) := try_drive env csv_file (SearchingMsg drive) drive in
      match r with
      | Ok None =>
          let '(log', r') := search_drives env csv_file others in
          ((log ++ log')%list, r')
      | _ => (log, r)
      end
  end.

(** The first loop of [choose_path]: the last system drive met, and the
    other drives in order. *)
Fixpoint separate (env : Env) (all_drives : list string)
    (system_drive : option string) (non_system_drives : list string)
  : option string * list string :=
  match all_drives with
  | [] => (system_drive, non_system_drives)
  | drive :: others =>
      if is_system_drive env drive
      then separate env others (Some drive) non_system_drives
      else separate env others system_drive (non_system_drives ++ [drive])%list
  end.

Definition choose_path (env : Env) (csv_file : string)
  : list output * outcome (option value) :=
  let all_drives := get_available_drives env in
  let '(system_drive, non_system_drives) := separate env all_drives None [] in
  let '(log, r) := search_drives env csv_file non_system_drives in
  match r with
  | Ok None =>
      match system_drive with
      | Some drive =>
          if PyStr.truthy system_drive then
            let '(log', r') :=
              try_drive env csv_file (SearchingSystemMsg drive) drive in
            ((log ++ log')%list, r')
          else (log, Ok None)
      | None => (log, Ok None)
      end
  | _ => (log, r)
  end.

End AutoPathV10.

(** ** autoPath_v1.py *)

(** The earlier version of the resolver: the same functions, but
    [choose_path] takes the drives in the order of the enumeration,
    the system drive among them. *)
Module AutoPathV1.

Definition choose_path (env : Env) (csv_file : string)
  : list output * outcome (option value) :=
  AutoPathV10.search_drives env csv_file (AutoPathV10.get_available_drives env).

End AutoPathV1.

(** ** autoSet_path.py *)

Module AutoSetPath.

Definition target_files : list string :=
  ["_setpath_"; "_setthispath_"; "_setfromcsv_b"].

(** [for target_file in target_files: ...] for one [file] *)
Fixpoint try_targets (env : Env) (root file : string)
    (target_files : list string) : option (string * string) :=
  match target_files with
  | [] => None
  | target_file :: others =>
      if PyStr.contains target_file file
      then Some (os_path_join env root file, target_file)
      else try_targets env root file others
  end.

(** [for file in files: ...] *)
Fixpoint try_files (env : Env) (root : string) (files target_files : list string)
  : option (string * string) :=
  match files with
  | [] => None
  | file :: others =>
      match try_targets env root file target_files with
      | Some found => Some found
      | None => try_files env root others target_files
      end
  end.

(** [depth = root[len(drive):].count(os.sep)] *)
Definition depth_of (env : Env) (drive root : string) : Z :=
  Z.of_nat (PyStr.count (os_sep env) (PyStr.drop (String.length drive) root)).

(** The body of the loop over [os.walk(drive)]. *)
Definition walk_body (env : Env) (drive : string) (target_files : list string)
    (max_depth : Z) (root : string) (dirs files : list string)
  : turn (string * string) :=
  if (max_depth <? depth_of env drive root)%Z
  then Prune
  else match try_files env root files target_files with
       | Some found => Return found
       | None => Descend
       end.

Definition walk_drive (env : Env) (drive : string) (target_files : list string)
    (max_depth : Z) : outcome (walk_result (string * string)) :=
  Ok (os_walk env (walk_body env drive target_files max_depth)
        drive (tree_at env drive)).

(** As in autoPath_v1.0.py: what is printed, and the pair found or
    [None]; the handler [except PermissionError] is the second branch. *)
Definition search_for_setpath_file (env : Env) (drive : string)
    (target_files : list string) (max_depth : Z)
  : list output * option (string * string) :=
  match walk_drive env drive target_files max_depth with
  | Ok w => ([], returned w)
  | Raise _ => ([PermissionDeniedMsg drive], None)
  end.

(** The directories the walk of [drive] handed to the loop. *)
Definition walked (env : Env) (drive : string) (target_files : list string)
    (max_depth : Z) : list (string * visit_kind) :=
  visited (os_walk env (walk_body env drive target_files max_depth)
             drive (tree_at env drive)).

(** [read_path_from_csv], the same function as in autoPath_v1.0.py. *)
Definition read_path_from_csv (env : Env) (csv_file cell_reference : string)
  : list output * outcome (option value) :=
  AutoPathV10.read_path_from_csv env csv_file cell_reference.

(** The enumeration of autoSet_path.py: [/] is not added. *)
Definition get_available_drives (env : Env) : list string :=
  let system := platform_system env in
  if String.eqb system "Windows"
  then filter (path_exists env) (drive_roots 65 26)
  else if String.eqb system "Linux" then ["/media"; "/mnt"]
  else if String.eqb system "Darwin" then ["/Volumes"]
  else [].

Definition set_path_based_on_file (env : Env)
    (drive file_path target_file csv_file : string)
  : list output * outcome (option value) :=
  if String.eqb target_file "_setpath_" then ([], Ok (Some (Str drive)))
  else if String.eqb target_file "_setthispath_"
  then ([], Ok (Some (Str (os_path_dirname env file_path))))
  else if PyStr.startswith "_setfromcsv_b" target_file then
    (* [target_file.split("_b")[1].upper()] *)
    match nth_error (PyStr.split_on "_b" target_file) 1 with
    | Some field => read_path_from_csv env csv_file (PyStr.upper field)
    | None => ([], Raise IndexError)
    end
  else ([], Ok None).

(** What [choose_path] of autoSet_path.py prints: its own announcement
    of a drive, and the lines it shares with autoPath_v1.0.py. *)
Inductive line : Type :=
| SearchingLevelsMsg (drive : string)
    (** [Searching in {drive} up to 3 levels deep...] *)
| Line (o : output).

(** One drive of [choose_path]: [Ok (Some p)] is [return p]; [Ok None]
    lets the loop go on. *)
Definition try_drive (env : Env) (csv_file drive : string)
  : list line * outcome (option value) :=
  let announce := SearchingLevelsMsg drive in
  let '(log1, found) := search_for_setpath_file env drive target_files 3 in
  match found with
  | Some (file_path, target_file) =>
      if PyStr.truthy (Some file_path) then
        let '(log2, chosen) :=
          set_path_based_on_file env drive file_path target_file csv_file in
        let log :=
          (announce :: map Line (log1 ++ FoundMsg target_file file_path :: log2))%list in
        match chosen with
        | Ok chosen_path =>
            if truthy chosen_path then (log, Ok chosen_path)
            else ((log ++ [Line (ErrorDeterminingMsg file_path target_file)])%list, Ok None)
        | Raise e => (log, Raise e)
        end
      else (announce :: map Line log1, Ok None)
  | None => (announce :: map Line log1, Ok None)
  end.

(** [for drive in drives: ...] *)
Fixpoint search_drives (env : Env) (csv_file : string) (drives : list string)
  : list line * outcome (option value) :=
  match drives with
  | [] => ([], Ok None)
  | drive :: others =>
      let '(log, r) := try_drive env csv_file drive in
      match r with
      | Ok None =>
          let '(log', r') := search_drives env csv_file others in
          ((log ++ log')%list, r')
      | _ => (log, r)
      end
  end.

Definition choose_path (env : Env) (csv_file : string)
  : list line * outcome (option value) :=
  search_drives env csv_file (get_available_drives env).

End AutoSetPath.

(** ** path_setter.py *)

Module PathSetter.

(** [if os.path.exists(m):
       drives.extend([os.path.join(m, d) for d in os.listdir(m)])] *)
Definition extend_from (env : Env) (mount : string) (drives : list string)
  : outcome (list string) :=
  if path_exists env mount then
    entries <- os_listdir env mount ;;
    Ok (drives ++ map (os_path_join env mount) entries)%list
  else Ok drives.

Definition get_external_drives (env : Env) : outcome (list string) :=
  let system := platform_system env in
  if String.eqb system "Windows"
  then Ok (filter (path_exists env) (drive_roots 65 26))
  else if String.eqb system "Linux" then
         drives <- extend_from env "/media" [] ;;
         extend_from env "/mnt" drives
  else if String.eqb system "Darwin" then extend_from env "/Volumes" []
  else Ok [].

(** [get_internal_paths()], for the home directory that
    [os.path.expanduser("~")] gives. *)
Definition get_internal_paths (home : string) : list string :=
  [home; "/path/to/project"; "/path/to/documents"].

(** What [choose_path] prints. *)
Inductive menu_line : Type :=
| ChooseMsg                                  (** [Choose a path:] *)
| OptionMsg (idx : nat) (option : string)    (** [{idx}. {option}] *)
| InvalidChoiceMsg.                          (** [Invalid choice] *)

(** [for idx, option in enumerate(options, start): print(...)] *)
Fixpoint numbered (start : nat) (options : list string) : list menu_line :=
  match options with
  | [] => []
  | option :: others => OptionMsg start option :: numbered (S start) others
  end.

(** [choose_path()], fed with the lines the operator types; [input()]
    raises [EOFError] when there is none. *)
Definition choose_path (env : Env) (home : string) (inputs : list string)
  : list menu_line * outcome (option string) :=
  match get_external_drives env with
  | Raise e => ([], Raise e)
  | Ok external_drives =>
      let options := (external_drives ++ get_internal_paths home)%list in
      let menu := ChooseMsg :: numbered 1 options in
      match inputs with
      | [] => (menu, Raise EOFError)
      | answer :: _ =>
          match PyStr.int answer with
          | Raise e => (menu, Raise e)
          | Ok n =>
              let choice := (n - 1)%Z in
              if ((0 <=? choice)%Z && (choice <? Z.of_nat (List.length options))%Z)%bool
              then (menu, Ok (Some (nth (Z.to_nat choice) options "")))
              else ((menu ++ [InvalidChoiceMsg])%list, Ok None)
          end
      end
  end.

End PathSetter.

(** ** simple_path_manager.py *)

(** The file [recent.json]. *)
Inductive recent_file : Type :=
| Absent                  (** [os.path.exists] is false *)
| Unloadable              (** [open] or [json.load] raises *)
| Loaded (doc : json).

Record Disk : Type := {
  recent : recent_file;
  (** whether [open(recent_file, 'w')] succeeds *)
  recent_writable : bool
}.

Module SimplePathManager.

(** [expand(path)] *)
Definition expand (env : Env) (path : string) : string := expand_path env path.

(** The strings of a list of JSON items, or [None] where [expand]
    would raise a [TypeError] on an item. *)
Fixpoint strings_of (items : list json_item) : option (list string) :=
  match items with
  | [] => Some []
  | JString s :: others => option_map (cons s) (strings_of others)
  | JOther :: _ => None
  end.

Definition load_recent (env : Env) (disk : Disk) : list string :=
  match recent disk with
  | Absent => []
  | Unloadable => []
  | Loaded (JList items) =>
      match strings_of items with
      | Some data =>
          map (expand env)
              (filter (fun p => path_isdir env (expand env p)) data)
      | None => []
      end
  | Loaded JNotList => []
  end.

(** [l[:n]] *)
Definition slice_to {A : Type} (n : Z) (l : list A) : list A :=
  if (0 <=? n)%Z then firstn (Z.to_nat n) l
  else firstn (List.length l - Z.to_nat (- n)) l.

(** The list [save_recent] builds. *)
Definition recent_after (env : Env) (path : string) (disk : Disk)
    (max_items : Z) : list string :=
  let path := expand env path in
  let items := load_recent env disk in
  let new := path :: filter (fun p => negb (String.eqb p path)) items in
  slice_to max_items new.

Definition save_recent (env : Env) (path : string) (disk : Disk)
    (max_items : Z) : Disk :=
  let new := recent_after env path disk max_items in
  if recent_writable disk
  then {| recent := Loaded (JList (map JString new));
          recent_writable := recent_writable disk |}
  else disk.

(** The inner loop over the mount points; an exception other than
    [PermissionError] leaves through the outer [except Exception: pass]
    with the drives found so far. *)
Fixpoint scan_mounts (env : Env) (roots drives : list string) : list string :=
  match roots with
  | [] => drives
  | root :: others =>
      if path_exists env root then
        match os_listdir env root with
        | Ok entries =>
            let candidates := map (os_path_join env root) entries in
            scan_mounts env others (drives ++ filter (path_isdir env) candidates)%list
        | Raise PermissionError => scan_mounts env others drives
        | Raise _ => drives
        end
      else scan_mounts env others drives
  end.

Definition get_external_drives (env : Env) : list string :=
  if String.eqb (platform_system env) "Windows"
  then filter (path_isdir env)
         (map (fun code => String (ascii_of_nat code) (String ":" (String (os_sep env) "")))
              (seq 67 24))
  else scan_mounts env ["/media"; "/mnt"; "/Volumes"] [].

(** The number [n] as the operator types it at the prompt of
    [present_menu]: its decimal numeral. *)
Definition menu_answer (n : nat) : string :=
  DecimalString.NilEmpty.string_of_uint (Nat.to_uint n).

(** The sub-folders [navigate_folder] offers for [path]. *)
Definition subfolders (env : Env) (path : string) : list string :=
  match os_listdir env path with
  | Ok entries => filter (fun d => path_isdir env (os_path_join env path d)) entries
  | Raise _ => []
  end.

(** How one turn of the [while True] loop of [navigate_folder] ends. *)
Inductive nav_turn : Type :=
| Again (path : string) (history : list string)   (** [continue] *)
| Invalid                                           (** [Invalid choice. Try again.] *)
| Leave (disk : Disk) (result : option string)      (** [return] *)
| Crash (e : exn).

(** One turn, for the answer [choice] of [present_menu].  [history] is
    a Python list: [append] adds at its end, [pop] takes from there. *)
Definition navigate_turn (env : Env) (disk : Disk) (path : string)
    (history : list string) (choice : string) : nav_turn :=
  let subs := subfolders env path in
  if String.eqb choice "q" then Leave disk None
  else if (String.eqb choice "b" && negb (Nat.eqb (List.length history) 0))%bool
  then Again (last history "") (removelast history)
  else if PyStr.isdigit choice then
    match PyStr.int choice with
    | Ok idx =>
        if (idx =? 1)%Z then Leave (save_recent env path disk 5) (Some path)
        else
          let sel_index := (idx - 2)%Z in
          if ((0 <=? sel_index)%Z && (sel_index <? Z.of_nat (List.length subs))%Z)%bool
          then Again (os_path_join env path (nth (Z.to_nat sel_index) subs ""))
                     (history ++ [path])%list
          else Invalid
    | Raise e => Crash e
    end
  else Invalid.

(** The loop, fed with the lines the operator types; [input()] raises
    [EOFError] when there is none left. *)
Fixpoint navigate_loop (env : Env) (disk : Disk) (path : string)
    (history : list string) (inputs : list string)
  : Disk * outcome (option string) :=
  match inputs with
  | [] => (disk, Raise EOFError)
  | line :: rest =>
      match navigate_turn env disk path history (PyStr.lower (PyStr.strip line)) with
      | Again path' history' => navigate_loop env disk path' history' rest
      | Invalid => navigate_loop env disk path history rest
      | Leave disk' result => (disk', Ok result)
      | Crash e => (disk, Raise e)
      end
  end.

Definition navigate_folder (env : Env) (disk : Disk) (start_path : string)
    (inputs : list string) : Disk * outcome (option string) :=
  navigate_loop env disk (expand env start_path) [] inputs.

(** [extension if extension.startswith('.') else '.' + extension] *)
Definition dotted (extension : string) : string :=
  if PyStr.startswith "." extension then extension else "." ++ extension.

(** [name.lower().endswith(extension.lower())] *)
Definition has_extension (extension name : string) : bool :=
  PyStr.endswith (PyStr.lower extension) (PyStr.lower name).

(** The loop over the names of one folder in [search_files_in_folder]:
    the results so far with the matches appended, and whether the loop
    left because [len(results) >= limit]. *)
Fixpoint collect (env : Env) (extension : string) (limit : Z) (folder : string)
    (names results : list string) : list string * bool :=
  match names with
  | [] => (results, false)
  | name :: rest =>
      if has_extension extension name then
        let results := (results ++ [os_path_join env folder name])%list in
        if (limit <=? Z.of_nat (List.length results))%Z then (results, true)
        else collect env extension limit folder rest results
      else collect env extension limit folder rest results
  end.

(** [for root, dirs, files in os.walk(folder): ...] with the list of
    results passed along; the loop never touches [dirs]. *)
Fixpoint collect_walk (env : Env) (extension : string) (limit : Z) (top : string)
    (t : dir) (results : list string) {struct t} : list string * bool :=
  match t with
  | Unreadable _ => (results, false)
  | Listing files subdirs =>
      let '(results, done) := collect env extension limit top files results in
      if done then (results, true)
      else
        let fix children (l : list (string * dir)) (results : list string)
          : list string * bool :=
          match l with
          | [] => (results, false)
          | (name, sub) :: rest =>
              let '(results, done) :=
                collect_walk env extension limit (os_path_join env top name) sub results in
              if done then (results, true) else children rest results
          end in
        children subdirs results
  end.

Definition search_files_in_folder (env : Env) (folder extension : string)
    (recursive : bool) (limit : Z) : list string :=
  let extension := dotted extension in
  if negb recursive then
    match os_listdir env folder with
    | Ok names => fst (collect env extension limit folder names [])
    | Raise _ => []
    end
  else fst (collect_walk env extension limit folder (tree_at env folder) []).

End SimplePathManager.

(** ** Well-formed trees, markers and their depths *)

(** The characters a file or directory name cannot hold on the platform:
    the separator on a POSIX system; both separators and the colon on
    Windows. *)
Definition forbidden (env : Env) (c : ascii) : bool :=
  if is_windows env
  then (OsPath.nt_is_sep c || Ascii.eqb c OsPath.colon)%bool
  else OsPath.posix_is_sep c.

(** The separators [os.path.join] recognises at the end of a path. *)
Definition is_sep (env : Env) (c : ascii) : bool :=
  if is_windows env then OsPath.nt_is_sep c else OsPath.posix_is_sep c.

(** The part of a path after a drive that ends with a separator, for a
    directory [k] levels below the drive: empty for the drive itself,
    else [k] names with [k - 1] separators between them. *)
Definition below (env : Env) (k : nat) (rel : string) : Prop :=
  match k with
  | O => rel = ""
  | S k' =>
      rel <> "" /\ OsPath.ends_with (is_sep env) rel = false
      /\ PyStr.count (os_sep env) rel = k'
  end.

Definition name_ok (env : Env) (name : string) : bool :=
  (negb (String.eqb name "") && PyStr.all_chars (fun c => negb (forbidden env c)) name)%bool.

(** Every directory name in the tree is a name of the platform. *)
Fixpoint names_ok (env : Env) (t : dir) : bool :=
  match t with
  | Unreadable _ => true
  | Listing _ subdirs =>
      forallb (fun entry => (name_ok env (fst entry) && names_ok env (snd entry))%bool)
              subdirs
  end.

(** A file name that one of the three patterns of autoPath_v1.0.py
    matches. *)
Definition is_marker (file : string) : bool :=
  (PyStr.contains "_setpath_" file || PyStr.contains "_setthispath_" file ||
   match Re.search_setfromcsv file with Some _ => true | None => false end)%bool.

(** The depths, counted in directory levels below the root of the tree
    (the root is at 0), of the listed directories that hold a marker. *)
Fixpoint marker_depths (t : dir) : list nat :=
  match t with
  | Unreadable _ => []
  | Listing files subdirs =>
      ((if existsb is_marker files then [O] else []) ++
       map S (flat_map (fun entry => marker_depths (snd entry)) subdirs))%list
  end.

(** The tree without the directories that cannot be listed. *)
Fixpoint without_unreadable (t : dir) : dir :=
  match t with
  | Unreadable e => Unreadable e
  | Listing files subdirs =>
      Listing files
        (flat_map (fun entry =>
                     match snd entry with
                     | Unreadable _ => []
                     | Listing _ _ => [(fst entry, without_unreadable (snd entry))]
                     end) subdirs)
  end.

(** The sub-directories of a directory walked one after the other, as the
    generator does after the loop body let it descend. *)
Section WalkChildren.

Variable env : Env.
Variable R : Type.
Variable body : string -> list string -> list string -> turn R.
Variable top : string.

Fixpoint walk_children (l : list (string * dir)) : walk_result R :=
  match l with
  | [] => {| visited := []; returned := None |}
  | (name, sub) :: rest =>
      let w := os_walk env body (os_path_join env top name) sub in
      match returned w with
      | Some r => w
      | None =>
          let w' := walk_children rest in
          {| visited := (visited w ++ visited w')%list;
             returned := returned w' |}
      end
  end.

End WalkChildren.

Arguments walk_children env {R} body top l.

(** ** The directories of a tree *)

(** The listed directories of a tree, each with its path and its file
    names, in the order in which a walk from [top] that prunes nothing
    hands them to its loop. *)
Fixpoint listed (env : Env) (top : string) (t : dir) : list (string * list string) :=
  match t with
  | Unreadable _ => []
  | Listing files subdirs =>
      (top, files)
      :: flat_map (fun entry => listed env (os_path_join env top (fst entry)) (snd entry))
           subdirs
  end.

(** Every file name in the tree is a name of the platform. *)
Fixpoint files_ok (env : Env) (t : dir) : bool :=
  match t with
  | Unreadable _ => true
  | Listing files subdirs =>
      (forallb (name_ok env) files
       && forallb (fun entry => files_ok env (snd entry)) subdirs)%bool
  end.

(** A POSIX path to which [os.path.join] adds a name after one
    separator exactly, or after none when the path is made of
    separators: it is not empty, and it ends with a separator only if
    it holds nothing else. *)
Definition posix_root_ok (root : string) : bool :=
  (negb (String.eqb root "")
   && (PyStr.all_chars OsPath.posix_is_sep root
       || negb (OsPath.ends_with OsPath.posix_is_sep root)))%bool.

(** ** The files of a search by extension *)

(** The sub-directories of a directory searched one after the other. *)
Section CollectChildren.

Variable env : Env.
Variable extension : string.
Variable limit : Z.
Variable top : string.

Fixpoint collect_children (l : list (string * dir)) (results : list string)
  : list string * bool :=
  match l with
  | [] => (results, false)
  | (name, sub) :: rest =>
      let '(results, done) :=
        SimplePathManager.collect_walk env extension limit
          (os_path_join env top name) sub results in
      if done then (results, true) else collect_children rest results
  end.

End CollectChildren.

(** The paths of the files with the extension in the listed directories
    [l], in order. *)
Definition files_with (env : Env) (extension : string)
    (l : list (string * list string)) : list string :=
  flat_map (fun d => map (os_path_join env (fst d))
                       (filter (SimplePathManager.has_extension extension) (snd d))) l.

(** How many results a search with [n] results so far still takes: one
    at least, since the limit is tested after a result is added. *)
Definition still_wanted (limit : Z) (n : nat) : nat :=
  Z.to_nat (Z.max 1 (limit - Z.of_nat n)).

(** The results so far followed by as many of the candidates as are
    still wanted, and whether that many were there. *)
Definition taken (limit : Z) (results candidates : list string) : list string * bool :=
  ((results ++ firstn (still_wanted limit (List.length results)) candidates)%list,
   (still_wanted limit (List.length results) <=? List.length candidates)%nat).

(** ** The markers of autoSet_path.py *)

(** A file name that holds one of the [target_files]. *)
Definition holds_target (target_files : list string) (file : string) : bool :=
  existsb (fun target_file => PyStr.contains target_file file) target_files.

(** The depths, counted in directory levels below the root of the tree,
    of the listed directories that hold a file that [p] accepts. *)
Fixpoint depths_where (p : string -> bool) (t : dir) : list nat :=
  match t with
  | Unreadable _ => []
  | Listing files subdirs =>
      ((if existsb p files then [O] else []) ++
       map S (flat_map (fun entry => depths_where p (snd entry)) subdirs))%list
  end.

(** The part of a path after a mount point that ends with no separator,
    for a directory [k] levels below it: empty for the mount point
    itself, else [k] names, each after a separator. *)
Definition beneath (env : Env) (k : nat) (rel : string) : Prop :=
  match k with
  | O => rel = ""
  | S _ =>
      rel <> "" /\ OsPath.ends_with (is_sep env) rel = false
      /\ PyStr.count (os_sep env) rel = k
  end.

(** ** The folders of a browsing session *)

(** The folders [navigate_folder] can stand in when it starts from
    [start_path]: the expanded start, and below a folder it can stand
    in, each entry of its listing that is a directory. *)
Inductive browsed (env : Env) (start_path : string) : string -> Prop :=
| browsed_start : browsed env start_path (SimplePathManager.expand env start_path)
| browsed_sub (path name : string) :
    browsed env start_path path ->
    In name (SimplePathManager.subfolders env path) ->
    browsed env start_path (os_path_join env path name).

(** ** Fixtures: a POSIX file system given by the tree below [/] *)

Module Fixture.

Fixpoint find_entry (name : string) (subdirs : list (string * dir)) : option dir :=
  match subdirs with
  | [] => None
  | (n, sub) :: rest => if String.eqb n name then Some sub else find_entry name rest
  end.

(** The directory reached from [t] along the names [components]. *)
Fixpoint descend (components : list string) (t : dir) : option dir :=
  match components with
  | [] => Some t
  | name :: rest =>
      match t with
      | Listing _ subdirs =>
          match find_entry name subdirs with
          | Some sub => descend rest sub
          | None => None
          end
      | Unreadable _ => None
      end
  end.

Definition components (path : string) : list string :=
  filter (fun s => negb (String.eqb s "")) (PyStr.split "/" path).

Definition lookup (root : dir) (path : string) : option dir :=
  descend (components path) root.

Definition is_file (root : dir) (path : string) : bool :=
  match rev (components path) with
  | [] => false
  | name :: parent =>
      match descend (rev parent) root with
      | Some (Listing files _) => existsb (String.eqb name) files
      | _ => false
      end
  end.

Definition isdir (root : dir) (path : string) : bool :=
  match lookup root path with Some _ => true | None => false end.

Definition listdir (root : dir) (path : string) : outcome (list string) :=
  match lookup root path with
  | Some (Listing files subdirs) => Ok (map fst subdirs ++ files)%list
  | Some (Unreadable e) => Raise e
  | None => Raise (if is_file root path then NotADirectoryError else FileNotFoundError)
  end.

Definition walk_tree (root : dir) (path : string) : dir :=
  match lookup root path with
  | Some t => t
  | None => Unreadable (if is_file root path then NotADirectoryError else FileNotFoundError)
  end.

(** The environment of a run on [system] ("Linux" or "Darwin") with the
    tree [root] below [/] and the CSV files [csv]; paths are taken to
    be normal already, so that [expand] changes nothing. *)
Definition posix (system : string) (root : dir)
    (csv : string -> outcome DataFrame) : Env :=
  {| platform_system := system;
     path_exists := fun p => (isdir root p || is_file root p)%bool;
     path_isdir := isdir root;
     os_listdir := listdir root;
     tree_at := walk_tree root;
     read_csv := csv;
     expand_path := fun p => p |}.

(** A table given by the rows of its cells, as many columns as the
    first row has; a row that is shorter ends with empty cells. *)
Definition table (rows : list (list value)) : DataFrame :=
  {| n_rows := List.length rows;
     n_cols := List.length (hd [] rows);
     cell := fun r c => nth c (nth r rows []) (Float NaN) |}.

Definition no_csv (csv_file : string) : outcome DataFrame := Raise FileNotFoundError.

Definition one_csv (name : string) (rows : list (list value))
    (csv_file : string) : outcome DataFrame :=
  if String.eqb csv_file name then Ok (table rows) else Raise FileNotFoundError.

Definition empty_dir : dir := Listing [] [].

End Fixture.

(** ** The table address in the words of the specification *)

Module TableAddress.

(** The place of [c] in [s], counted from zero. *)
Fixpoint index_of (c : ascii) (s : string) : option nat :=
  match s with
  | EmptyString => None
  | String a s' =>
      if Ascii.eqb a c then Some O else option_map S (index_of c s')
  end.

(** The zero-based index of a letter in the alphabet, whatever its
    case: [A] and [a] give 0. *)
Definition column_of (letter : ascii) : option nat :=
  match index_of letter "ABCDEFGHIJKLMNOPQRSTUVWXYZ" with
  | Some i => Some i
  | None => index_of letter "abcdefghijklmnopqrstuvwxyz"
  end.

(** The number a string of decimal digits writes, most significant
    digit first. *)
Fixpoint decimal_value (acc : nat) (digits : string) : option nat :=
  match digits with
  | EmptyString => Some acc
  | String c rest =>
      match index_of c "0123456789" with
      | Some v => decimal_value (10 * acc + v) rest
      | None => None
      end
  end.

(** The marker name [_setfromcsv_<letter><digits>_]. *)
Definition marker_name (letter : ascii) (digits : string) : string :=
  "_setfromcsv_" ++ String letter digits ++ "_".

(** The digits read as a one-based row number, minus one. *)
Definition row_of (digits : string) : option Z :=
  option_map (fun n => (Z.of_nat n - 1)%Z) (decimal_value 0 digits).

End TableAddress.

(** ** The fixtures of the examples *)

Module Examples.

Import Fixture.

(** [/mnt/proj] lists [_setthispath_] before [_setpath_]. *)
Definition both_markers : dir :=
  Listing []
    [("media", empty_dir);
     ("mnt", Listing [] [("proj", Listing ["_setthispath_"; "_setpath_"] [])])].

(** [/mnt/proj] lists [_setpath_] first. *)
Definition direct_first : dir :=
  Listing []
    [("media", empty_dir);
     ("mnt", Listing []
               [("proj", Listing ["readme.txt"; "_setpath_"; "_setthispath_"] [])])].

(** The only marker is three levels below [/], on the system volume. *)
Definition deep_marker : dir :=
  Listing []
    [("media", empty_dir);
     ("mnt", empty_dir);
     ("home", Listing []
                [("user", Listing ["notes.txt"]
                            [("proj", Listing ["_setpath_"] [])])])].

(** The only marker is two levels below [/], on the system volume. *)
Definition shallow_marker : dir :=
  Listing []
    [("media", empty_dir);
     ("mnt", empty_dir);
     ("home", Listing [] [("user", Listing ["_setthispath_"] [])])].

(** [/media] holds a table marker, [/mnt] a direct marker. *)
Definition table_then_direct : dir :=
  Listing []
    [("media", Listing ["_setfromcsv_a1_"] []);
     ("mnt", Listing ["_setpath_"] [])].

(** [/media] holds the table marker [_setfromcsv_b5_]. *)
Definition table_b5 : dir :=
  Listing []
    [("media", Listing ["_setfromcsv_b5_"] []);
     ("mnt", empty_dir)].

Definition archive_rows : list (list value) :=
  [[Str "a1"; Str "b1"]; [Str "a2"; Str "b2"]; [Str "a3"; Str "b3"];
   [Str "a4"; Str "b4"]; [Str "a5"; Str "/data/archive"]].

(** A chain [/mnt/a/b/c/d/e] with a marker in [d]. *)
Definition chain : dir :=
  Listing []
    [("mnt",
      Listing []
        [("a", Listing []
           [("b", Listing []
              [("c", Listing []
                 [("d", Listing ["_setpath_"] [("e", empty_dir)])])])])])].

(** [/mnt/secret] cannot be listed; its sibling [/mnt/work] holds a
    marker. *)
Definition locked_sibling : dir :=
  Listing []
    [("mnt", Listing []
               [("secret", Unreadable PermissionError);
                ("work", Listing ["_setthispath_"] [])])].

(** [/media] cannot be listed; [/mnt] holds one mounted volume. *)
Definition locked_media : dir :=
  Listing []
    [("media", Unreadable PermissionError);
     ("mnt", Listing [] [("usb", empty_dir)])].

(** [/data] with two sub-folders. *)
Definition data_tree : dir :=
  Listing []
    [("data", Listing ["report.txt"] [("in", empty_dir); ("out", empty_dir)])].

Definition linux (root : dir) : Env := posix "Linux" root no_csv.

(** The same with the table [paths.csv]. *)
Definition linux_with_table (root : dir) (rows : list (list value)) : Env :=
  posix "Linux" root (one_csv "paths.csv" rows).

(** A Windows system with the drives [C:] and [D:]; [D:\_setpath_] is
    the only marker. *)
Definition two_drives : Env :=
  {| platform_system := "Windows";
     path_exists := fun p => (String.eqb p "C:\" || String.eqb p "D:\")%bool;
     path_isdir := fun p => (String.eqb p "C:\" || String.eqb p "D:\")%bool;
     os_listdir := fun _ => Raise FileNotFoundError;
     tree_at := fun p =>
                  if String.eqb p "C:\" then Listing [] [("Users", empty_dir)]
                  else if String.eqb p "D:\" then Listing ["_setpath_"] []
                  else Unreadable FileNotFoundError;
     read_csv := no_csv;
     expand_path := fun p => p |}.

(** A disk whose recent list names three folders, each once. *)
Definition three_recent : Disk :=
  {| recent := Loaded (JList [JString "/data"; JString "/data/in"; JString "/"]);
     recent_writable := true |}.

(** A disk without [recent.json]. *)
Definition no_recent : Disk :=
  {| recent := Absent; recent_writable := true |}.

(** A Linux system seen from a working directory that holds the folder
    [x]; [expand] takes the leading [./] off a path, as
    [os.path.normpath] does. *)
Definition working_directory : Env :=
  {| platform_system := "Linux";
     path_exists := fun p =>
       (String.eqb p "." || String.eqb p "x" || String.eqb p "./x")%bool;
     path_isdir := fun p =>
       (String.eqb p "." || String.eqb p "x" || String.eqb p "./x")%bool;
     os_listdir := fun p =>
       if String.eqb p "." then Ok ["x"]
       else if (String.eqb p "x" || String.eqb p "./x")%bool then Ok []
       else Raise FileNotFoundError;
     tree_at := fun _ => Unreadable FileNotFoundError;
     read_csv := no_csv;
     expand_path := fun p => if String.prefix "./" p then PyStr.drop 2 p else p |}.

Definition five_recent : Disk :=
  {| recent := Loaded (JList [JString "/data"; JString "/data/in";
                              JString "/"; JString "/data/out";
                              JString "/data/in"]);
     recent_writable := true |}.

End Examples.

(** ** The volumes of a run of [choose_path] of autoPath_v1.0.py *)

(** The non-system drives in the order [choose_path] searches them, and
    the system drive it searches last, if there is one. *)
Definition non_system_drives (env : Env) : list string :=
  snd (AutoPathV10.separate env (AutoPathV10.get_available_drives env) None []).

Definition system_drive (env : Env) : option string :=
  fst (AutoPathV10.separate env (AutoPathV10.get_available_drives env) None []).

(** * Properties *)

(** ** Matching the file names of one directory *)

Section Matching.

Variable env : Env.

(** What the three patterns make of one file name, in the order the
    loop over [target_files] tries them. *)
Lemma try_targets_cases (root file : string) :
  AutoPathV10.try_targets env root file AutoPathV10.target_files =
  if PyStr.contains "_setpath_" file
  then Some (os_path_join env root file, "_setpath_")
  else if PyStr.contains "_setthispath_" file
  then Some (os_path_join env root file, "_setthispath_")
  else match Re.search_setfromcsv file with
       | Some g => Some (os_path_join env root file, "_setfromcsv_" ++ g ++ "_")
       | None => None
       end.
Proof.
  unfold AutoPathV10.target_files.
  cbn [AutoPathV10.try_targets].
  change (String.eqb "_setpath_" "_setfromcsv_") with false.
  change (String.eqb "_setthispath_" "_setfromcsv_") with false.
  change (String.eqb "_setfromcsv_" "_setfromcsv_") with true.
  cbv iota.
  destruct (PyStr.contains "_setpath_" file); [reflexivity|].
  destruct (PyStr.contains "_setthispath_" file); [reflexivity|].
  destruct (Re.search_setfromcsv file); reflexivity.
Qed.

Lemma try_targets_none (root file : string) :
  is_marker file = false ->
  AutoPathV10.try_targets env root file AutoPathV10.target_files = None.
Proof.
  unfold is_marker. intros H. rewrite try_targets_cases.
  destruct (PyStr.contains "_setpath_" file); [discriminate|].
  destruct (PyStr.contains "_setthispath_" file); [discriminate|].
  destruct (Re.search_setfromcsv file); [discriminate|reflexivity].
Qed.

Lemma try_targets_some (root file : string) :
  is_marker file = true ->
  exists target,
    AutoPathV10.try_targets env root file AutoPathV10.target_files
    = Some (os_path_join env root file, target).
Proof.
  unfold is_marker. intros H. rewrite try_targets_cases.
  destruct (PyStr.contains "_setpath_" file); [eauto|].
  destruct (PyStr.contains "_setthispath_" file); [eauto|].
  destruct (Re.search_setfromcsv file); [eauto|discriminate].
Qed.

(** The loop over the files stops at the first name that matches. *)
Lemma try_files_first (root : string) (before after : list string)
    (file : string) (found : string * string) :
  (forall f, In f before -> is_marker f = false) ->
  AutoPathV10.try_targets env root file AutoPathV10.target_files = Some found ->
  AutoPathV10.try_files env root (before ++ file :: after) AutoPathV10.target_files
  = Some found.
Proof.
  intros Hbefore Hfile.
  induction before as [|f before IH]; cbn [app AutoPathV10.try_files].
  - rewrite Hfile. reflexivity.
  - rewrite try_targets_none by (apply Hbefore; left; reflexivity).
    apply IH. intros g Hg. apply Hbefore. right. exact Hg.
Qed.

Lemma try_files_none (root : string) (files : list string) :
  existsb is_marker files = false ->
  AutoPathV10.try_files env root files AutoPathV10.target_files = None.
Proof.
  induction files as [|f files IH]; cbn [existsb AutoPathV10.try_files];
    [reflexivity|].
  intros H. apply orb_false_iff in H. destruct H as [Hf Hfiles].
  rewrite try_targets_none by exact Hf. apply IH. exact Hfiles.
Qed.

End Matching.

(** claim C1, as amended.  Within one directory the file names are tried
    in the order the listing gives them and the match is the first name
    that any pattern matches; the order DirectMarker, LocalMarker,
    TableRefMarker ranks only the patterns tried on that one name.  A
    directory that holds both [_setpath_] and [_setthispath_] therefore
    matches as DirectMarker when no name listed before [_setpath_]
    matches a pattern, and the walk that reaches the directory returns
    that match. *)
Theorem C1_first_listed_marker_wins :
  forall (env : Env) (drive root : string) (before after : list string)
         (file : string) (subdirs : list (string * dir)) (max_system_depth : Z),
    (forall f, In f before -> is_marker f = false) ->
    is_marker file = true ->
    AutoPathV10.is_system_drive env drive = false ->
    exists target,
      AutoPathV10.try_files env root (before ++ file :: after) AutoPathV10.target_files
      = Some (os_path_join env root file, target)
      /\ returned (os_walk env
                     (AutoPathV10.walk_body env drive AutoPathV10.target_files
                        max_system_depth)
                     root (Listing (before ++ file :: after) subdirs))
         = Some (os_path_join env root file, target)
      /\ (PyStr.contains "_setpath_" file = true -> target = "_setpath_")
      /\ (PyStr.contains "_setpath_" file = false ->
          PyStr.contains "_setthispath_" file = true -> target = "_setthispath_")
      /\ (PyStr.contains "_setpath_" file = false ->
          PyStr.contains "_setthispath_" file = false ->
          exists g, Re.search_setfromcsv file = Some g
                    /\ target = "_setfromcsv_" ++ g ++ "_").
Proof.
  intros env drive root before after file subdirs depth Hbefore Hfile Hdrive.
  destruct (try_targets_some env root file Hfile) as [target Htarget].
  exists target.
  pose proof (try_files_first env root before after file _ Hbefore Htarget) as Hfiles.
  split; [exact Hfiles|].
  split.
  - cbn [os_walk]. unfold AutoPathV10.walk_body at 1.
    rewrite Hdrive. cbn [andb]. rewrite Hfiles. reflexivity.
  - rewrite try_targets_cases in Htarget.
    destruct (PyStr.contains "_setpath_" file) eqn:Hdirect.
    + inversion Htarget. repeat split; intros; try reflexivity; discriminate.
    + destruct (PyStr.contains "_setthispath_" file) eqn:Hlocal.
      * inversion Htarget. repeat split; intros; try reflexivity; discriminate.
      * destruct (Re.search_setfromcsv file) as [g|] eqn:Htable; [|discriminate].
        inversion Htarget.
        repeat split; intros; try discriminate.
        exists g. split; reflexivity.
Qed.

(** In [/mnt/proj], which lists [readme.txt], [_setpath_] and
    [_setthispath_] in this order, the match is the direct marker. *)
Lemma C1_first_listed_marker_wins_witness :
  exists target,
    AutoPathV10.try_files (Examples.linux Examples.direct_first) "/mnt/proj"
      (["readme.txt"] ++ "_setpath_" :: ["_setthispath_"]) AutoPathV10.target_files
    = Some ("/mnt/proj/_setpath_", target)
    /\ target = "_setpath_".
Proof.
  destruct (C1_first_listed_marker_wins
              (Examples.linux Examples.direct_first) "/mnt" "/mnt/proj"
              ["readme.txt"] ["_setthispath_"] "_setpath_" [] 2)
    as [target [Hfiles [_ [Hdirect _]]]].
  - intros f [<-|[]]. reflexivity.
  - reflexivity.
  - reflexivity.
  - exists target. split; [exact Hfiles | apply Hdirect; reflexivity].
Defined.

(** claim C1, as stated, fails: [/mnt/proj] holds both markers, the
    listing gives [_setthispath_] first, and the scanner's match is the
    local marker; the resolved path is the directory, not the volume. *)
Lemma C1_listing_order_decides :
  let env := Examples.linux Examples.both_markers in
  tree_at env "/mnt/proj" = Listing ["_setthispath_"; "_setpath_"] []
  /\ AutoPathV10.search_for_setpath_file env "/mnt" AutoPathV10.target_files 2
     = ([], Some ("/mnt/proj/_setthispath_", "_setthispath_"))
  /\ AutoSetPath.search_for_setpath_file env "/mnt" AutoSetPath.target_files 3
     = ([], Some ("/mnt/proj/_setthispath_", "_setthispath_"))
  /\ snd (AutoPathV10.choose_path env "paths.csv") = Ok (Some (Str "/mnt/proj")).
Proof.
  repeat split; vm_compute; reflexivity.
Qed.

(** ** Facts on characters and strings *)

Ltac ascii_cases c :=
  destruct c as [[] [] [] [] [] [] [] []]; vm_compute;
  try reflexivity; try discriminate; try (intros; discriminate);
  try (intros; reflexivity).

Lemma digit_not_space (c : ascii) : PyStr.is_digit c = true -> PyStr.is_space c = false.
Proof. ascii_cases c. Qed.

Lemma digit_lower (c : ascii) : PyStr.is_digit c = true -> PyStr.lower_char c = c.
Proof. ascii_cases c. Qed.

Lemma digit_upper (c : ascii) : PyStr.is_digit c = true -> PyStr.upper_char c = c.
Proof. ascii_cases c. Qed.

Lemma digit_not_underscore (c : ascii) : PyStr.is_digit c = true -> Ascii.eqb c "_" = false.
Proof. ascii_cases c. Qed.

Lemma letter_not_underscore (c : ascii) :
  PyStr.is_letter c = true -> Ascii.eqb c "_" = false.
Proof. ascii_cases c. Qed.

Lemma upper_letter_not_underscore (c : ascii) :
  PyStr.is_letter c = true -> Ascii.eqb (PyStr.upper_char c) "_" = false.
Proof. ascii_cases c. Qed.

Lemma all_chars_map (p : ascii -> bool) (f : ascii -> ascii) (s : string) :
  (forall c, p c = true -> f c = c) ->
  PyStr.all_chars p s = true -> PyStr.map_chars f s = s.
Proof.
  intros Hf. induction s as [|c s IH]; cbn; [reflexivity|].
  intros H. apply andb_true_iff in H. destruct H as [Hc Hs].
  rewrite (Hf c Hc), (IH Hs). reflexivity.
Qed.

Lemma rstrip_digits (s : string) :
  PyStr.all_chars PyStr.is_digit s = true -> PyStr.rstrip s = s.
Proof.
  induction s as [|c s IH]; cbn; [reflexivity|].
  intros H. apply andb_true_iff in H. destruct H as [Hc Hs].
  rewrite (IH Hs), (digit_not_space c Hc). destruct s; reflexivity.
Qed.

Lemma lstrip_digits (s : string) :
  PyStr.all_chars PyStr.is_digit s = true -> PyStr.lstrip s = s.
Proof.
  destruct s as [|c s]; cbn; [reflexivity|].
  intros H. apply andb_true_iff in H. destruct H as [Hc _].
  rewrite (digit_not_space c Hc). reflexivity.
Qed.

Lemma strip_digits (s : string) :
  PyStr.all_chars PyStr.is_digit s = true -> PyStr.strip s = s.
Proof.
  intros H. unfold PyStr.strip. rewrite (lstrip_digits s H). apply rstrip_digits, H.
Qed.

Lemma digit_not_c_space (c : ascii) :
  PyStr.is_digit c = true -> PyStr.is_c_space c = false.
Proof. ascii_cases c. Qed.

(** [int] takes nothing off a string of digits. *)
Lemma strip_c_digits (s : string) :
  PyStr.all_chars PyStr.is_digit s = true -> PyStr.rstrip_c (PyStr.lstrip_c s) = s.
Proof.
  intros H.
  assert (Hleft : PyStr.lstrip_c s = s).
  { destruct s as [|c s]; cbn; [reflexivity|].
    cbn in H. apply andb_true_iff in H. destruct H as [Hc _].
    rewrite (digit_not_c_space c Hc). reflexivity. }
  rewrite Hleft. clear Hleft.
  induction s as [|c s IH]; cbn; [reflexivity|].
  cbn in H. apply andb_true_iff in H. destruct H as [Hc Hs].
  rewrite (IH Hs), (digit_not_c_space c Hc). destruct s; reflexivity.
Qed.

Lemma isdigit_all (s : string) :
  PyStr.isdigit s = true -> PyStr.all_chars PyStr.is_digit s = true.
Proof. destruct s; [discriminate | exact (fun H => H)]. Qed.

(** What the operator types, when it is a number, reaches the loop as
    typed. *)
Lemma answer_digits (s : string) :
  PyStr.isdigit s = true -> PyStr.lower (PyStr.strip s) = s.
Proof.
  intros H. apply isdigit_all in H. rewrite (strip_digits s H).
  apply (all_chars_map PyStr.is_digit); [exact digit_lower | exact H].
Qed.

Lemma isdigit_not_letter_answer (s : string) :
  PyStr.isdigit s = true -> String.eqb s "q" = false /\ String.eqb s "b" = false.
Proof.
  intros H. split; destruct (String.eqb_spec s "q"), (String.eqb_spec s "b");
    subst; try reflexivity; try discriminate H.
Qed.

(** [int] of a string that starts with a digit reads no sign. *)
Lemma int_unsigned (c : ascii) (s : string) :
  PyStr.is_digit c = true ->
  PyStr.all_chars PyStr.is_digit s = true ->
  PyStr.int (String c s)
  = match PyStr.int_digits 0 false (String c s) with
    | Some z => Ok z
    | None => Raise ValueError
    end.
Proof.
  intros Hc Hs. unfold PyStr.int.
  rewrite strip_c_digits by (cbn [PyStr.all_chars]; rewrite Hc, Hs; reflexivity).
  destruct c as [[] [] [] [] [] [] [] []]; try discriminate Hc; reflexivity.
Qed.

Lemma In_firstn {A : Type} (x : A) (n : nat) (l : list A) :
  In x (firstn n l) -> In x l.
Proof.
  revert l. induction n as [|n IH]; intros [|a l]; cbn; try tauto.
  intros [H|H]; [left; exact H | right; apply IH, H].
Qed.

(** ** The recent list *)

(** claim C9, as amended.  Whatever the recent list held, the answer
    [1] of the browser, "use this folder", at the folder [p] returns [p]
    and, on a disk where [recent.json] can be written, stores a list
    that starts with [expand(p)], the form in which [save_recent] keeps
    a path, holds it once, has at most five entries and is the five
    first entries of [expand(p)] followed by the former entries other
    than it: with five former entries, all different from it, the
    oldest one goes.  For a path that [expand] leaves as it is, the
    list starts with [p] itself and holds it once. *)
Theorem C9_recent_front_unique_bounded :
  forall (env : Env) (disk : Disk) (p : string),
    recent_writable disk = true ->
    let prior := SimplePathManager.load_recent env disk in
    let stored := SimplePathManager.expand env p in
    let new := SimplePathManager.recent_after env p disk 5 in
    (forall history,
        SimplePathManager.navigate_turn env disk p history "1"
        = SimplePathManager.Leave (SimplePathManager.save_recent env p disk 5) (Some p))
    /\ recent (SimplePathManager.save_recent env p disk 5)
       = Loaded (JList (map JString new))
    /\ hd_error new = Some stored
    /\ count_occ string_dec new stored = 1%nat
    /\ (List.length new <= 5)%nat
    /\ new = firstn 5 (stored :: filter (fun q => negb (String.eqb q stored)) prior)
    /\ (~ In stored prior -> List.length prior = 5%nat -> new = stored :: firstn 4 prior)
    /\ (SimplePathManager.expand env p = p ->
        hd_error new = Some p /\ count_occ string_dec new p = 1%nat).
Proof.
  intros env disk p Hwritable prior stored new.
  assert (Hnew : new = firstn 5 (stored :: filter (fun q => negb (String.eqb q stored)) prior))
    by reflexivity.
  assert (Hhead : hd_error new = Some stored) by (rewrite Hnew; reflexivity).
  assert (Hcount : count_occ string_dec new stored = 1%nat).
  { rewrite Hnew. rewrite firstn_cons. cbn [count_occ].
    destruct (string_dec stored stored) as [_|Hne]; [|contradiction].
    f_equal. apply count_occ_not_In. intros Hin.
    apply In_firstn, filter_In in Hin. destruct Hin as [_ Hin].
    rewrite String.eqb_refl in Hin. discriminate. }
  split; [intros history; reflexivity|].
  split.
  { unfold SimplePathManager.save_recent. rewrite Hwritable. reflexivity. }
  split; [exact Hhead|].
  split; [exact Hcount|].
  split; [rewrite Hnew; apply firstn_le_length|].
  split; [exact Hnew|].
  split.
  - intros Hnotin Hlen. rewrite Hnew. rewrite firstn_cons. f_equal. f_equal.
    clear Hnew Hhead Hcount new Hlen.
    induction prior as [|q prior IH]; cbn; [reflexivity|].
    destruct (String.eqb_spec q stored) as [->|Hqp]; cbn.
    + exfalso. apply Hnotin. left. reflexivity.
    + f_equal. apply IH. intros Hin. apply Hnotin. right. exact Hin.
  - intros Hnormal. unfold stored in Hhead, Hcount. rewrite Hnormal in Hhead, Hcount.
    split; [exact Hhead | exact Hcount].
Qed.

(** On a disk whose recent list holds [/data], [/data/in], [/],
    [/data/out] and [/data/in] again, using [/data/in] stores
    [/data/in], [/data], [/], [/data/out]. *)
Lemma C9_recent_front_unique_bounded_witness :
  let env := Examples.linux Examples.data_tree in
  let new := SimplePathManager.recent_after env "/data/in" Examples.five_recent 5 in
  new = ["/data/in"; "/data"; "/"; "/data/out"]
  /\ hd_error new = Some "/data/in"
  /\ count_occ string_dec new "/data/in" = 1%nat.
Proof.
  pose proof (C9_recent_front_unique_bounded
                (Examples.linux Examples.data_tree) Examples.five_recent "/data/in"
                eq_refl) as [_ [_ [Hhead [Hcount _]]]].
  split; [vm_compute; reflexivity|].
  split; [exact Hhead | exact Hcount].
Defined.

(** claim C9, as stated, fails: started in [.], the browser enters the
    folder [x], which it holds as [./x], and "use this folder" returns
    [./x]; the list stored has [x] in front and [./x] nowhere. *)
Lemma C9_stored_path_is_the_expanded_one :
  let env := Examples.working_directory in
  let run := SimplePathManager.navigate_folder env Examples.no_recent "." ["2"; "1"] in
  snd run = Ok (Some "./x")
  /\ fst run = SimplePathManager.save_recent env "./x" Examples.no_recent 5
  /\ recent (fst run) = Loaded (JList [JString "x"])
  /\ SimplePathManager.load_recent env (fst run) = ["x"]
  /\ hd_error (SimplePathManager.load_recent env (fst run)) <> Some "./x"
  /\ count_occ string_dec (SimplePathManager.load_recent env (fst run)) "./x" = 0%nat.
Proof.
  repeat split; try (vm_compute; reflexivity).
  vm_compute. discriminate.
Qed.

(** ** The folder browser *)

(** The numeral of [n] is read back as [n]. *)
Lemma int_digits_uint (u : Decimal.uint) :
  forall (acc : nat) (b : bool),
    b = true \/ u <> Decimal.Nil ->
    PyStr.all_chars PyStr.is_digit (DecimalString.NilEmpty.string_of_uint u) = true
    /\ PyStr.int_digits (Z.of_nat acc) b (DecimalString.NilEmpty.string_of_uint u)
       = Some (Z.of_nat (Nat.of_uint_acc u acc)).
Proof.
  induction u as [|u IH|u IH|u IH|u IH|u IH|u IH|u IH|u IH|u IH|u IH];
    intros acc b Hb;
    [ destruct Hb as [-> | Hne]; [split; reflexivity | contradiction Hne; reflexivity]
    | .. ];
    cbn [DecimalString.NilEmpty.string_of_uint PyStr.all_chars PyStr.int_digits Nat.of_uint_acc];
    match goal with
    | |- context [PyStr.is_digit ?c] => change (PyStr.is_digit c) with true
    end;
    cbv iota; cbn [andb];
    match goal with
    | |- context [Nat.of_uint_acc u ?a] =>
        destruct (IH a true (or_introl eq_refl)) as [Hall Hint]
    end;
    (split; [exact Hall|]);
    rewrite <- Hint; f_equal; rewrite Nat.tail_mul_spec;
    match goal with
    | |- context [PyStr.ord ?c] =>
        let v := eval vm_compute in (PyStr.ord c) in change (PyStr.ord c) with v
    end; lia.
Qed.

Lemma to_uint_not_nil (n : nat) : Nat.to_uint n <> Decimal.Nil.
Proof.
  intros H. pose proof (DecimalNat.Unsigned.of_to n) as Hn. rewrite H in Hn.
  cbn in Hn. subst n. discriminate H.
Qed.

Lemma menu_answer_int (n : nat) :
  PyStr.isdigit (SimplePathManager.menu_answer n) = true
  /\ PyStr.int (SimplePathManager.menu_answer n) = Ok (Z.of_nat n).
Proof.
  unfold SimplePathManager.menu_answer.
  destruct (int_digits_uint (Nat.to_uint n) 0 false (or_intror (to_uint_not_nil n)))
    as [Hall Hint].
  change (Nat.of_uint_acc (Nat.to_uint n) 0) with (Nat.of_uint (Nat.to_uint n)) in Hint.
  rewrite DecimalNat.Unsigned.of_to in Hint.
  pose proof (to_uint_not_nil n) as Hne.
  destruct (Nat.to_uint n) as [|u|u|u|u|u|u|u|u|u|u] eqn:Hu;
    [contradiction Hne; reflexivity | ..];
    cbn [DecimalString.NilEmpty.string_of_uint] in *;
    (split; [exact Hall|]);
    cbn [PyStr.all_chars] in Hall; apply andb_true_iff in Hall; destruct Hall as [Hc Hs];
    rewrite (int_unsigned _ _ Hc Hs); change (Z.of_nat 0) with 0%Z in Hint;
    rewrite Hint; reflexivity.
Qed.

(** A numeric answer that selects sub-folder [i], followed by [b], and
    the answer [b] on an empty history. *)
Lemma select_then_back :
  forall (env : Env) (disk : Disk) (path : string) (history : list string)
         (choice : string) (i : nat) (rest : list string),
    PyStr.isdigit choice = true ->
    PyStr.int choice = Ok (Z.of_nat i + 2)%Z ->
    (i < List.length (SimplePathManager.subfolders env path))%nat ->
    let sub := os_path_join env path (nth i (SimplePathManager.subfolders env path) "") in
    SimplePathManager.navigate_turn env disk path history choice
    = SimplePathManager.Again sub (history ++ [path])%list
    /\ SimplePathManager.navigate_turn env disk sub (history ++ [path])%list "b"
       = SimplePathManager.Again path history
    /\ SimplePathManager.navigate_loop env disk path history (choice :: "b" :: rest)
       = SimplePathManager.navigate_loop env disk path history rest
    /\ SimplePathManager.navigate_turn env disk path [] "b" = SimplePathManager.Invalid
    /\ SimplePathManager.navigate_loop env disk path [] ("b" :: rest)
       = SimplePathManager.navigate_loop env disk path [] rest.
Proof.
  intros env disk path history choice i rest Hdigit Hint Hrange sub.
  assert (Hselect : SimplePathManager.navigate_turn env disk path history choice
                    = SimplePathManager.Again sub (history ++ [path])%list).
  { unfold SimplePathManager.navigate_turn.
    destruct (isdigit_not_letter_answer choice Hdigit) as [Hq Hb].
    rewrite Hq, Hb, Hdigit, Hint. cbn [andb].
    replace (Z.of_nat i + 2 =? 1)%Z with false by (symmetry; apply Z.eqb_neq; lia).
    replace (Z.of_nat i + 2 - 2)%Z with (Z.of_nat i) by lia.
    replace (0 <=? Z.of_nat i)%Z with true by (symmetry; apply Z.leb_le; lia).
    replace (Z.of_nat i <? Z.of_nat (List.length (SimplePathManager.subfolders env path)))%Z
      with true by (symmetry; apply Z.ltb_lt; lia).
    rewrite Nat2Z.id. reflexivity. }
  assert (Hback : SimplePathManager.navigate_turn env disk sub (history ++ [path])%list "b"
                  = SimplePathManager.Again path history).
  { unfold SimplePathManager.navigate_turn.
    change (String.eqb "b" "q") with false.
    change (String.eqb "b" "b") with true.
    rewrite length_app. cbn [List.length].
    replace (List.length history + 1 =? 0)%nat with false
      by (symmetry; apply Nat.eqb_neq; lia).
    cbn [andb negb]. rewrite last_last, removelast_last. reflexivity. }
  assert (Hempty : SimplePathManager.navigate_turn env disk path [] "b"
                   = SimplePathManager.Invalid).
  { reflexivity. }
  split; [exact Hselect|].
  split; [exact Hback|].
  split.
  { cbn [SimplePathManager.navigate_loop].
    rewrite (answer_digits choice Hdigit), Hselect.
    change (PyStr.lower (PyStr.strip "b")) with "b".
    rewrite Hback. reflexivity. }
  split; [exact Hempty|].
  cbn [SimplePathManager.navigate_loop].
  change (PyStr.lower (PyStr.strip "b")) with "b".
  rewrite Hempty. reflexivity.
Qed.

(** claim C10.  In the browsing loop, at [path] with any [history], the
    answer that selects sub-folder number [i] of the list (the number
    [i + 2] of the menu) followed by the answer [b] leaves the loop in
    the state it started from: the first answer appends [path] to the
    history and enters the sub-folder, the second pops [path] back into
    the current folder.  The answer [b] on an empty history is refused
    and changes nothing, in every folder, with sub-folders or
    without. *)
Theorem C10_select_then_back_restores :
  forall (env : Env) (disk : Disk) (path : string),
    (forall (history : list string) (i : nat) (rest : list string),
        (i < List.length (SimplePathManager.subfolders env path))%nat ->
        let choice := SimplePathManager.menu_answer (i + 2) in
        let sub :=
          os_path_join env path (nth i (SimplePathManager.subfolders env path) "") in
        SimplePathManager.navigate_turn env disk path history choice
        = SimplePathManager.Again sub (history ++ [path])%list
        /\ SimplePathManager.navigate_turn env disk sub (history ++ [path])%list "b"
           = SimplePathManager.Again path history
        /\ SimplePathManager.navigate_loop env disk path history (choice :: "b" :: rest)
           = SimplePathManager.navigate_loop env disk path history rest)
    /\ SimplePathManager.navigate_turn env disk path [] "b" = SimplePathManager.Invalid
    /\ (forall rest : list string,
          SimplePathManager.navigate_loop env disk path [] ("b" :: rest)
          = SimplePathManager.navigate_loop env disk path [] rest).
Proof.
  intros env disk path. split; [|split; [reflexivity | intros rest; reflexivity]].
  intros history i rest Hrange choice sub. subst choice sub.
  destruct (menu_answer_int (i + 2)) as [Hdigit Hint].
  destruct (select_then_back env disk path history
              (SimplePathManager.menu_answer (i + 2)) i rest Hdigit
              ltac:(rewrite Hint; f_equal; lia) Hrange)
    as [Hselect [Hback [Hloop _]]].
  split; [exact Hselect|]. split; [exact Hback | exact Hloop].
Qed.

(** In [/data], whose sub-folders are [in] and [out], the answers [3]
    and [b] lead to [/data/out] and back; in [/data/in], which has no
    sub-folder, the answer [b] on an empty history is refused. *)
Lemma C10_select_then_back_restores_witness :
  let env := Examples.linux Examples.data_tree in
  SimplePathManager.navigate_turn env Examples.five_recent "/data" ["/"] "3"
  = SimplePathManager.Again "/data/out" ["/"; "/data"]
  /\ SimplePathManager.navigate_turn env Examples.five_recent "/data/out" ["/"; "/data"] "b"
     = SimplePathManager.Again "/data" ["/"]
  /\ SimplePathManager.subfolders env "/data/in" = []
  /\ SimplePathManager.navigate_turn env Examples.five_recent "/data/in" [] "b"
     = SimplePathManager.Invalid.
Proof.
  assert (Hrange : (1 < List.length
                          (SimplePathManager.subfolders
                             (Examples.linux Examples.data_tree) "/data"))%nat)
    by (vm_compute; lia).
  destruct (C10_select_then_back_restores
              (Examples.linux Examples.data_tree) Examples.five_recent "/data")
    as [Hround _].
  destruct (Hround ["/"] 1 [] Hrange) as [Hselect [Hback _]].
  destruct (C10_select_then_back_restores
              (Examples.linux Examples.data_tree) Examples.five_recent "/data/in")
    as [_ [Hrefused _]].
  split; [exact Hselect|]. split; [exact Hback|].
  split; [reflexivity | exact Hrefused].
Defined.

(** ** Enumerating the volumes *)

(** [path_setter.get_external_drives] lets the error of [os.listdir]
    through, on Linux for [/media] ... *)
Lemma path_setter_raises_on_media (env : Env) (e : exn) :
  platform_system env = "Linux" ->
  path_exists env "/media" = true ->
  os_listdir env "/media" = Raise e ->
  PathSetter.get_external_drives env = Raise e.
Proof.
  intros Hsystem Hexists Hlist.
  unfold PathSetter.get_external_drives, PathSetter.extend_from.
  rewrite Hsystem, Hexists, Hlist. reflexivity.
Qed.

(** ... while [simple_path_manager.get_external_drives] leaves a mount
    point that cannot be listed out and goes on with the next one. *)
Lemma simple_path_manager_skips_locked (env : Env) (root : string)
    (others drives : list string) :
  os_listdir env root = Raise PermissionError ->
  SimplePathManager.scan_mounts env (root :: others) drives
  = SimplePathManager.scan_mounts env others drives.
Proof.
  intros Hlist. cbn [SimplePathManager.scan_mounts]. rewrite Hlist.
  destruct (path_exists env root); reflexivity.
Qed.

(** claim C8, where the code falls short of it.  On a Linux system whose
    [/media] exists and cannot be listed, [get_external_drives] of
    path_setter.py ends with the [PermissionError] of [os.listdir]
    instead of a list of drives; on the same system the function of
    simple_path_manager.py returns the volume mounted below [/mnt], and
    [get_available_drives] of autoPath_v1.0.py, which lists nothing,
    returns its three fixed roots. *)
Theorem C8_path_setter_raises_on_locked_mount :
  let env := Examples.linux Examples.locked_media in
  path_exists env "/media" = true
  /\ os_listdir env "/media" = Raise PermissionError
  /\ PathSetter.get_external_drives env = Raise PermissionError
  /\ SimplePathManager.get_external_drives env = ["/mnt/usb"]
  /\ AutoPathV10.get_available_drives env = ["/media"; "/mnt"; "/"].
Proof.
  repeat split; vm_compute; reflexivity.
Qed.

(** ** The walk *)

Section WalkFacts.

Variable env : Env.
Variable R : Type.
Variable body : string -> list string -> list string -> turn R.

(** The walk of a listed directory, by what the loop body does. *)
Lemma os_walk_listing (top : string) (files : list string)
    (subdirs : list (string * dir)) :
  os_walk env body top (Listing files subdirs) =
  match body top (map fst subdirs) files with
  | Return r => {| visited := [(top, Examined)]; returned := Some r |}
  | Prune => {| visited := [(top, Cut)]; returned := None |}
  | Descend =>
      let w := walk_children env body top subdirs in
      {| visited := (top, Examined) :: visited w; returned := returned w |}
  end.
Proof. reflexivity. Qed.

Lemma walk_children_cons (top name : string) (sub : dir)
    (rest : list (string * dir)) :
  walk_children env body top ((name, sub) :: rest) =
  let w := os_walk env body (os_path_join env top name) sub in
  match returned w with
  | Some r => w
  | None =>
      let w' := walk_children env body top rest in
      {| visited := (visited w ++ visited w')%list; returned := returned w' |}
  end.
Proof. reflexivity. Qed.

(** A directory that cannot be listed adds nothing to the walk of its
    parent's entries. *)
Lemma walk_children_unreadable (top name : string) (e : exn)
    (before after : list (string * dir)) :
  walk_children env body top (before ++ (name, Unreadable e) :: after)
  = walk_children env body top (before ++ after).
Proof.
  induction before as [|[n sub] before IH]; cbn [app].
  - rewrite walk_children_cons. cbn. destruct (walk_children env body top after).
    reflexivity.
  - rewrite !walk_children_cons. cbv zeta. rewrite IH. reflexivity.
Qed.

End WalkFacts.

(** ** Paths below a drive *)

Lemma append_assoc (a b c : string) : (a ++ b) ++ c = a ++ (b ++ c).
Proof. induction a as [|x a IH]; cbn; [reflexivity | rewrite IH; reflexivity]. Qed.

Lemma append_empty_r (a : string) : a ++ "" = a.
Proof. induction a as [|x a IH]; cbn; [reflexivity | rewrite IH; reflexivity]. Qed.

Lemma length_append (a b : string) :
  String.length (a ++ b) = (String.length a + String.length b)%nat.
Proof. induction a as [|x a IH]; cbn; [reflexivity | rewrite IH; reflexivity]. Qed.

Lemma drop_append (a b : string) : PyStr.drop (String.length a) (a ++ b) = b.
Proof. induction a as [|x a IH]; cbn; [destruct b; reflexivity | exact IH]. Qed.

Lemma drop_zero (s : string) : PyStr.drop 0 s = s.
Proof. destruct s; reflexivity. Qed.

Lemma count_append (c : ascii) (a b : string) :
  PyStr.count c (a ++ b) = (PyStr.count c a + PyStr.count c b)%nat.
Proof.
  induction a as [|x a IH]; cbn; [reflexivity|]. rewrite IH. lia.
Qed.

Lemma ends_with_append (p : ascii -> bool) (a b : string) :
  b <> "" -> OsPath.ends_with p (a ++ b) = OsPath.ends_with p b.
Proof.
  intros Hb. induction a as [|x a IH]; cbn [append]; [reflexivity|].
  cbn [OsPath.ends_with]. destruct (a ++ b) eqn:Hab.
  - destruct a; [cbn in Hab; contradiction | discriminate].
  - exact IH.
Qed.

Section PathsBelow.

Variable env : Env.

Lemma forbidden_sep (c : ascii) : forbidden env c = false -> is_sep env c = false.
Proof.
  unfold forbidden, is_sep. destruct (is_windows env); [|exact (fun H => H)].
  intros H. apply orb_false_iff in H. tauto.
Qed.

Lemma forbidden_os_sep (c : ascii) :
  forbidden env c = false -> Ascii.eqb c (os_sep env) = false.
Proof.
  unfold forbidden, os_sep, OsPath.nt_is_sep, OsPath.posix_is_sep.
  destruct (is_windows env); [|exact (fun H => H)].
  intros H. apply orb_false_iff in H. destruct H as [H _].
  apply orb_false_iff in H. tauto.
Qed.

Lemma os_sep_is_sep : is_sep env (os_sep env) = true.
Proof. unfold is_sep, os_sep. destruct (is_windows env); reflexivity. Qed.

Lemma name_ok_nonempty (name : string) : name_ok env name = true -> name <> "".
Proof.
  unfold name_ok. intros H Hname. subst name. discriminate H.
Qed.

Lemma name_ok_chars (name : string) :
  name_ok env name = true ->
  PyStr.all_chars (fun c => negb (forbidden env c)) name = true.
Proof. unfold name_ok. intros H. apply andb_true_iff in H. tauto. Qed.

Lemma clean_count (s : string) :
  PyStr.all_chars (fun c => negb (forbidden env c)) s = true ->
  PyStr.count (os_sep env) s = 0%nat.
Proof.
  induction s as [|c s IH]; cbn; [reflexivity|].
  intros H. apply andb_true_iff in H. destruct H as [Hc Hs].
  apply negb_true_iff in Hc. rewrite (forbidden_os_sep c Hc), (IH Hs). reflexivity.
Qed.

Lemma clean_ends_with (s : string) :
  PyStr.all_chars (fun c => negb (forbidden env c)) s = true ->
  OsPath.ends_with (is_sep env) s = false.
Proof.
  induction s as [|c s IH]; cbn [PyStr.all_chars OsPath.ends_with]; [reflexivity|].
  intros H. apply andb_true_iff in H. destruct H as [Hc Hs].
  apply negb_true_iff in Hc. destruct s; [apply forbidden_sep, Hc | apply IH, Hs].
Qed.

Lemma name_ok_count (name : string) :
  name_ok env name = true -> PyStr.count (os_sep env) name = 0%nat.
Proof. intros H. apply clean_count, name_ok_chars, H. Qed.

Lemma name_ok_ends_with (name : string) :
  name_ok env name = true -> OsPath.ends_with (is_sep env) name = false.
Proof. intros H. apply clean_ends_with, name_ok_chars, H. Qed.

(** [depth] for a root written as the drive followed by a relative
    part. *)
Lemma depth_of_append (drive rel : string) :
  AutoPathV10.depth_of env drive (drive ++ rel)
  = Z.of_nat (PyStr.count (os_sep env) rel).
Proof. unfold AutoPathV10.depth_of. rewrite drop_append. reflexivity. Qed.

(** *** Joining a name to a path *)

Lemma posix_join_name (a name : string) :
  is_windows env = false ->
  name_ok env name = true ->
  OsPath.posix_join a name =
  if (String.eqb a "" || OsPath.ends_with OsPath.posix_is_sep a)%bool
  then a ++ name else a ++ "/" ++ name.
Proof.
  intros Hposix Hname. unfold OsPath.posix_join.
  replace (PyStr.startswith "/" name) with false; [reflexivity|].
  symmetry. pose proof (name_ok_chars name Hname) as Hchars.
  destruct name as [|c name]; [reflexivity|].
  cbn in Hchars. apply andb_true_iff in Hchars. destruct Hchars as [Hc _].
  apply negb_true_iff in Hc. unfold forbidden in Hc. rewrite Hposix in Hc.
  unfold OsPath.posix_is_sep, OsPath.slash in Hc.
  unfold PyStr.startswith. cbn [String.prefix].
  destruct (ascii_dec "/" c) as [Heq|Hneq]; [|reflexivity].
  subst c. discriminate Hc.
Qed.

Lemma nt_splitroot_name (name : string) :
  is_windows env = true ->
  name_ok env name = true ->
  OsPath.nt_splitroot name = ("", "", name).
Proof.
  intros Hnt Hname. pose proof (name_ok_chars name Hname) as Hchars.
  destruct name as [|c0 name]; [reflexivity|].
  cbn in Hchars. apply andb_true_iff in Hchars. destruct Hchars as [Hc0 Hrest].
  apply negb_true_iff in Hc0. unfold forbidden in Hc0. rewrite Hnt in Hc0.
  apply orb_false_iff in Hc0. destruct Hc0 as [Hsep0 _].
  cbn [OsPath.nt_splitroot]. rewrite Hsep0.
  destruct name as [|c1 name]; [reflexivity|].
  cbn in Hrest. apply andb_true_iff in Hrest. destruct Hrest as [Hc1 _].
  apply negb_true_iff in Hc1. unfold forbidden in Hc1. rewrite Hnt in Hc1.
  apply orb_false_iff in Hc1. destruct Hc1 as [_ Hcolon1].
  rewrite Hcolon1. reflexivity.
Qed.

Lemma nt_splitroot_whole (a : string) :
  let '(drive, root, path) := OsPath.nt_splitroot a in a = drive ++ root ++ path.
Proof.
  destruct a as [|c0 [|c1 [|c2 a]]]; cbn.
  - reflexivity.
  - destruct (OsPath.nt_is_sep c0); reflexivity.
  - destruct (OsPath.nt_is_sep c0); [reflexivity|].
    destruct (Ascii.eqb c1 OsPath.colon); reflexivity.
  - destruct (OsPath.nt_is_sep c0); [reflexivity|].
    destruct (Ascii.eqb c1 OsPath.colon); [|reflexivity].
    destruct (OsPath.nt_is_sep c2); reflexivity.
Qed.

Lemma nt_join_name (a name : string) :
  is_windows env = true ->
  name_ok env name = true ->
  OsPath.nt_join a name =
  let '(drive, root, path) := OsPath.nt_splitroot a in
  drive ++ root ++
    (if (negb (String.eqb path "") && negb (OsPath.ends_with OsPath.nt_is_sep path))%bool
     then path ++ "\" else path) ++ name.
Proof.
  intros Hnt Hname. unfold OsPath.nt_join.
  rewrite (nt_splitroot_name name Hnt Hname).
  destruct (OsPath.nt_splitroot a) as [[drive root] path].
  reflexivity.
Qed.

(** Joining a name to a path appends it, after one separator at most. *)
Lemma join_appends (a name : string) :
  name_ok env name = true ->
  exists middle,
    os_path_join env a name = a ++ middle ++ name
    /\ (middle = "" \/ middle = String (os_sep env) "").
Proof.
  intros Hname. unfold os_path_join, os_sep.
  destruct (is_windows env) eqn:Hplatform.
  - rewrite (nt_join_name a name Hplatform Hname).
    pose proof (nt_splitroot_whole a) as Hwhole.
    destruct (OsPath.nt_splitroot a) as [[drive root] path].
    destruct (negb (String.eqb path "") && negb (OsPath.ends_with OsPath.nt_is_sep path))%bool.
    + exists "\". split; [|right; reflexivity].
      rewrite Hwhole. rewrite !append_assoc. reflexivity.
    + exists "". split; [|left; reflexivity].
      rewrite Hwhole. rewrite !append_assoc. reflexivity.
  - rewrite (posix_join_name a name Hplatform Hname).
    destruct (String.eqb a "" || OsPath.ends_with OsPath.posix_is_sep a)%bool.
    + exists "". split; [reflexivity | left; reflexivity].
    + exists "/". split; [reflexivity | right; reflexivity].
Qed.

End PathsBelow.

(** ** Below the system drive *)

Lemma lower_char_colon (c : ascii) : PyStr.lower_char c = ":"%char -> c = ":"%char.
Proof. ascii_cases c. Qed.

Lemma lower_char_backslash (c : ascii) : PyStr.lower_char c = "\"%char -> c = "\"%char.
Proof. ascii_cases c. Qed.

Lemma lower_char_c (c : ascii) : PyStr.lower_char c = "c"%char -> OsPath.nt_is_sep c = false.
Proof. ascii_cases c. Qed.

Section SystemDrive.

Variable env : Env.
Variable drive : string.
Hypothesis drive_is_system : AutoPathV10.is_system_drive env drive = true.

(** The system drive is [/], or [C:\] in either case of the letter. *)
Lemma system_drive_shape :
  (is_windows env = false /\ drive = "/")
  \/ (is_windows env = true
      /\ exists letter, drive = String letter ":\" /\ OsPath.nt_is_sep letter = false).
Proof.
  pose proof drive_is_system as H.
  unfold AutoPathV10.is_system_drive in H. unfold is_windows.
  destruct (String.eqb (platform_system env) "Windows").
  - right. split; [reflexivity|].
    apply String.eqb_eq in H.
    destruct drive as [|c0 [|c1 [|c2 [|c3 rest]]]]; try discriminate H.
    cbn in H. inversion H as [[H0 H1 H2]].
    exists c0. rewrite (lower_char_colon c1 H1), (lower_char_backslash c2 H2).
    split; [reflexivity | apply lower_char_c, H0].
  - left. split; [reflexivity|].
    destruct (String.eqb (platform_system env) "Linux"
              || String.eqb (platform_system env) "Darwin")%bool; [|discriminate H].
    apply String.eqb_eq, H.
Qed.

(** One level further down: the name comes after the drive itself or,
    below it, after a separator. *)
Lemma system_join (rel name : string) (k : nat) :
  name_ok env name = true ->
  below env k rel ->
  os_path_join env (drive ++ rel) name
  = drive ++ (if String.eqb rel "" then name else rel ++ String (os_sep env) name).
Proof.
  intros Hname Hrel. unfold os_path_join, os_sep.
  destruct system_drive_shape as [[Hplatform ->] | [Hplatform [letter [-> Hletter]]]];
    rewrite Hplatform.
  - rewrite (posix_join_name env _ name Hplatform Hname).
    destruct k as [|k]; cbn [below] in Hrel.
    + subst rel. reflexivity.
    + destruct Hrel as [Hnonempty [Hend _]].
      assert (Hend' : OsPath.ends_with OsPath.posix_is_sep rel = false).
      { unfold is_sep in Hend. rewrite Hplatform in Hend. exact Hend. }
      rewrite (ends_with_append _ "/" rel Hnonempty), Hend'.
      destruct (String.eqb_spec rel "") as [Hempty|_]; [contradiction|].
      cbn [String.eqb orb append]. reflexivity.
  - rewrite (nt_join_name env _ name Hplatform Hname).
    cbn [append OsPath.nt_splitroot]. rewrite Hletter.
    change (Ascii.eqb ":" OsPath.colon) with true.
    change (OsPath.nt_is_sep "\") with true. cbv iota.
    destruct k as [|k]; cbn [below] in Hrel.
    + subst rel. reflexivity.
    + destruct Hrel as [Hnonempty [Hend _]].
      assert (Hend' : OsPath.ends_with OsPath.nt_is_sep rel = false).
      { unfold is_sep in Hend. rewrite Hplatform in Hend. exact Hend. }
      rewrite Hend'.
      destruct (String.eqb_spec rel "") as [Hempty|_]; [contradiction|].
      cbn [negb andb append]. rewrite append_assoc. reflexivity.
Qed.

Lemma below_step (rel name : string) (k : nat) :
  name_ok env name = true ->
  below env k rel ->
  below env (S k)
    (if String.eqb rel "" then name else rel ++ String (os_sep env) name).
Proof.
  intros Hname Hrel.
  pose proof (name_ok_nonempty env name Hname) as Hnonempty.
  destruct k as [|k]; cbn [below] in Hrel.
  - subst rel. cbn [String.eqb below].
    split; [exact Hnonempty|]. split.
    + apply name_ok_ends_with, Hname.
    + apply name_ok_count, Hname.
  - destruct Hrel as [Hrel [_ Hcount]].
    destruct (String.eqb_spec rel "") as [Hempty|_]; [contradiction|].
    cbn [below]. split; [destruct rel; [contradiction | discriminate]|]. split.
    + change (String (os_sep env) name) with (String (os_sep env) "" ++ name).
      rewrite <- append_assoc.
      rewrite (ends_with_append _ _ name Hnonempty).
      apply name_ok_ends_with, Hname.
    + rewrite count_append. cbn [PyStr.count].
      rewrite (name_ok_count env name Hname), Hcount.
      replace (Ascii.eqb (os_sep env) (os_sep env)) with true
        by (symmetry; apply Ascii.eqb_refl).
      lia.
Qed.

(** The depth the scanner computes for a directory [k] levels below
    the system drive. *)
Lemma below_depth (rel : string) (k : nat) :
  below env k rel ->
  AutoPathV10.depth_of env drive (drive ++ rel) = Z.of_nat (Nat.pred k).
Proof.
  intros Hrel. rewrite depth_of_append.
  destruct k as [|k]; cbn [below] in Hrel.
  - subst rel. reflexivity.
  - destruct Hrel as [_ [_ ->]]. reflexivity.
Qed.

End SystemDrive.

(** ** What the depth cap hides on the system drive *)

Section DepthCap.

Variable env : Env.
Variable drive : string.
Hypothesis drive_is_system : AutoPathV10.is_system_drive env drive = true.

(** From a directory [k] levels below the system drive, the walk finds
    nothing when every marker below it lies three levels or more below
    the drive. *)
Lemma system_walk_blind (t : dir) :
  forall (k : nat) (rel : string),
    names_ok env t = true ->
    below env k rel ->
    Forall (fun m => (3 <= k + m)%nat) (marker_depths t) ->
    returned (os_walk env
                (AutoPathV10.walk_body env drive AutoPathV10.target_files 2)
                (drive ++ rel) t) = None.
Proof.
  induction t as [e | files subdirs IH] using dir_ind;
    intros k rel Hnames Hrel Hmarkers.
  - reflexivity.
  - rewrite os_walk_listing. unfold AutoPathV10.walk_body at 1.
    rewrite drive_is_system, (below_depth env drive rel k Hrel). cbn [andb].
    destruct (2 <=? Z.of_nat (Nat.pred k))%Z eqn:Hdeep; [reflexivity|].
    apply Z.leb_gt in Hdeep.
    cbn [marker_depths] in Hmarkers. apply Forall_app in Hmarkers.
    destruct Hmarkers as [Hhere Hsubs].
    assert (Hfiles : existsb is_marker files = false).
    { destruct (existsb is_marker files); [|reflexivity].
      inversion Hhere; subst. lia. }
    rewrite (try_files_none env _ files Hfiles). cbv zeta. cbn [returned].
    cbn [names_ok] in Hnames. clear Hhere Hfiles Hdeep.
    induction subdirs as [|[name sub] rest IHrest]; [reflexivity|].
    rewrite walk_children_cons. cbv zeta.
    inversion IH as [|entry others Hsub Hrest]; subst.
    cbn [forallb fst snd] in Hnames.
    apply andb_true_iff in Hnames. destruct Hnames as [Hentry Hnames].
    apply andb_true_iff in Hentry. destruct Hentry as [Hname Hsubnames].
    cbn [flat_map snd] in Hsubs. rewrite map_app in Hsubs.
    apply Forall_app in Hsubs. destruct Hsubs as [Hfirst Hothers].
    rewrite (system_join env drive drive_is_system rel name k Hname Hrel).
    cbn [snd] in Hsub.
    rewrite (Hsub (S k) _ Hsubnames
               (below_step env rel name k Hname Hrel)).
    + cbn [returned]. apply IHrest; assumption.
    + apply (proj1 (Forall_map S (fun m => (3 <= k + m)%nat) (marker_depths sub)))
        in Hfirst.
      revert Hfirst. apply Forall_impl. intros m Hm. lia.
Qed.

End DepthCap.

(** Where no directory holds a marker, the walk finds nothing, whatever
    the drive and the cap. *)
Lemma walk_without_marker (env : Env) (drive : string) (cap : Z) (t : dir) :
  forall root,
    marker_depths t = [] ->
    returned (os_walk env
                (AutoPathV10.walk_body env drive AutoPathV10.target_files cap)
                root t) = None.
Proof.
  induction t as [e | files subdirs IH] using dir_ind; intros root Hmarkers.
  - reflexivity.
  - rewrite os_walk_listing. unfold AutoPathV10.walk_body at 1.
    destruct (AutoPathV10.is_system_drive env drive
              && (cap <=? AutoPathV10.depth_of env drive root)%Z)%bool; [reflexivity|].
    cbn [marker_depths] in Hmarkers. apply app_eq_nil in Hmarkers.
    destruct Hmarkers as [Hhere Hsubs].
    assert (Hfiles : existsb is_marker files = false)
      by (destruct (existsb is_marker files); [discriminate Hhere | reflexivity]).
    rewrite (try_files_none env _ files Hfiles). cbv zeta. cbn [returned].
    apply map_eq_nil in Hsubs. clear Hhere Hfiles.
    induction subdirs as [|[name sub] rest IHrest]; [reflexivity|].
    rewrite walk_children_cons. cbv zeta.
    inversion IH as [|entry others Hsub Hrest]; subst.
    cbn [flat_map snd] in Hsubs. apply app_eq_nil in Hsubs.
    destruct Hsubs as [Hfirst Hothers].
    cbn [snd] in Hsub. rewrite (Hsub _ Hfirst). cbn [returned].
    apply IHrest; assumption.
Qed.

(** ** The resolver *)

Section Resolver.

Variable env : Env.
Variable csv_file : string.

(** The scanner prints nothing: its handler for [PermissionError] is
    never reached, because the walk raises nothing. *)
Lemma search_prints_nothing (drive : string) (targets : list string) (cap : Z) :
  fst (AutoPathV10.search_for_setpath_file env drive targets cap) = [].
Proof. reflexivity. Qed.

Lemma search_result (drive : string) (targets : list string) (cap : Z) :
  AutoPathV10.search_for_setpath_file env drive targets cap
  = ([], returned (os_walk env (AutoPathV10.walk_body env drive targets cap)
                     drive (tree_at env drive))).
Proof. reflexivity. Qed.

Lemma separate_non_system (l : list string) (s : option string) (n : list string) :
  snd (AutoPathV10.separate env l s n)
  = (n ++ filter (fun d => negb (AutoPathV10.is_system_drive env d)) l)%list.
Proof.
  revert s n. induction l as [|d l IH]; intros s n; cbn.
  - rewrite app_nil_r. reflexivity.
  - destruct (AutoPathV10.is_system_drive env d); cbn [negb]; rewrite IH.
    + reflexivity.
    + rewrite <- app_assoc. reflexivity.
Qed.

Lemma separate_system (l : list string) (s : option string) (n : list string)
    (d : string) :
  fst (AutoPathV10.separate env l s n) = Some d ->
  s = Some d \/ (In d l /\ AutoPathV10.is_system_drive env d = true).
Proof.
  revert s n. induction l as [|x l IH]; intros s n; cbn.
  - intros H. left. exact H.
  - destruct (AutoPathV10.is_system_drive env x) eqn:Hx; intros H;
      destruct (IH _ _ H) as [Hs | [Hin Hd]].
    + inversion Hs; subst. right. split; [left; reflexivity | exact Hx].
    + right. split; [right; exact Hin | exact Hd].
    + left. exact Hs.
    + right. split; [right; exact Hin | exact Hd].
Qed.

Lemma non_system_drives_spec (d : string) :
  In d (non_system_drives env) <->
  In d (AutoPathV10.get_available_drives env)
  /\ AutoPathV10.is_system_drive env d = false.
Proof.
  unfold non_system_drives. rewrite separate_non_system. cbn [app].
  rewrite filter_In, negb_true_iff. reflexivity.
Qed.

Lemma system_drive_spec (d : string) :
  system_drive env = Some d ->
  In d (AutoPathV10.get_available_drives env)
  /\ AutoPathV10.is_system_drive env d = true.
Proof.
  unfold system_drive. intros H.
  destruct (separate_system _ _ _ _ H) as [Hnone | Hd]; [discriminate Hnone | exact Hd].
Qed.

(** [choose_path], by the drives of its two phases. *)
Lemma choose_path_phases :
  AutoPathV10.choose_path env csv_file =
  let '(log, r) := AutoPathV10.search_drives env csv_file (non_system_drives env) in
  match r with
  | Ok None =>
      match system_drive env with
      | Some drive =>
          if PyStr.truthy (Some drive) then
            let '(log', r') :=
              AutoPathV10.try_drive env csv_file (SearchingSystemMsg drive) drive in
            ((log ++ log')%list, r')
          else (log, Ok None)
      | None => (log, Ok None)
      end
  | _ => (log, r)
  end.
Proof.
  unfold AutoPathV10.choose_path, non_system_drives, system_drive.
  destruct (AutoPathV10.separate env (AutoPathV10.get_available_drives env) None [])
    as [s n].
  cbn [fst snd].
  destruct (AutoPathV10.search_drives env csv_file n) as [log r].
  destruct s; reflexivity.
Qed.

(** A drive on which the scanner finds nothing. *)
Lemma try_drive_nothing (announce : output) (drive : string) :
  snd (AutoPathV10.search_for_setpath_file env drive AutoPathV10.target_files 2) = None ->
  AutoPathV10.try_drive env csv_file announce drive = ([announce], Ok None).
Proof.
  intros H. unfold AutoPathV10.try_drive.
  rewrite search_result in *. cbn [snd] in H. rewrite H. reflexivity.
Qed.

(** The loop over drives that all let [choose_path] go on. *)
Lemma search_drives_pass (drives : list string) :
  (forall d, In d drives ->
             snd (AutoPathV10.try_drive env csv_file (SearchingMsg d) d) = Ok None) ->
  snd (AutoPathV10.search_drives env csv_file drives) = Ok None.
Proof.
  induction drives as [|d drives IH]; intros H; cbn [AutoPathV10.search_drives].
  - reflexivity.
  - pose proof (H d (or_introl eq_refl)) as Hd.
    destruct (AutoPathV10.try_drive env csv_file (SearchingMsg d) d) as [log r].
    cbn [snd] in Hd. subst r.
    specialize (IH (fun x Hx => H x (or_intror Hx))).
    destruct (AutoPathV10.search_drives env csv_file drives) as [log' r'].
    exact IH.
Qed.

End Resolver.

(** claim C2.  When no non-primary volume holds a marker and every
    marker of the primary volume lies in a directory three levels (or
    more) below its root, [choose_path] returns [None], the failure to
    find a marker: on the system drive the walk is cut at the
    directories of the third level, whose files are not looked at.  The
    directory names are names of the platform. *)
Theorem C2_deep_marker_on_system_volume_not_found :
  forall (env : Env) (csv_file : string),
    (forall d, In d (AutoPathV10.get_available_drives env) ->
               AutoPathV10.is_system_drive env d = false ->
               marker_depths (tree_at env d) = []) ->
    (forall d, In d (AutoPathV10.get_available_drives env) ->
               AutoPathV10.is_system_drive env d = true ->
               names_ok env (tree_at env d) = true
               /\ Forall (fun m => (3 <= m)%nat) (marker_depths (tree_at env d))) ->
    snd (AutoPathV10.choose_path env csv_file) = Ok None.
Proof.
  intros env csv_file Hothers Hprimary.
  rewrite choose_path_phases.
  pose proof (search_drives_pass env csv_file (non_system_drives env)) as Hpass.
  destruct (AutoPathV10.search_drives env csv_file (non_system_drives env)) as [log r].
  cbn [snd] in Hpass. rewrite Hpass.
  - destruct (system_drive env) as [drive|] eqn:Hsystem; [|reflexivity].
    destruct (PyStr.truthy (Some drive)); [|reflexivity].
    destruct (system_drive_spec env drive Hsystem) as [Hin Hdrive].
    destruct (Hprimary drive Hin Hdrive) as [Hnames Hdeep].
    rewrite try_drive_nothing; [reflexivity|].
    rewrite search_result. cbn [snd].
    pose proof (system_walk_blind env drive Hdrive (tree_at env drive) 0 ""
                  Hnames eq_refl Hdeep) as Hblind.
    rewrite append_empty_r in Hblind. exact Hblind.
  - intros d Hd. apply non_system_drives_spec in Hd. destruct Hd as [Hin Hdrive].
    rewrite try_drive_nothing; [reflexivity|].
    rewrite search_result. cbn [snd].
    apply walk_without_marker, Hothers; assumption.
Qed.

(** On the Linux system whose only marker is [/home/user/proj/_setpath_],
    three levels below [/], no path is resolved. *)
Lemma C2_deep_marker_on_system_volume_not_found_witness :
  marker_depths Examples.deep_marker = [3%nat]
  /\ snd (AutoPathV10.choose_path (Examples.linux Examples.deep_marker) "paths.csv")
     = Ok None.
Proof.
  split; [reflexivity|].
  apply C2_deep_marker_on_system_volume_not_found.
  - intros d [<-|[<-|[<-|[]]]] Hdrive; try reflexivity; discriminate Hdrive.
  - intros d [<-|[<-|[<-|[]]]] Hdrive; try discriminate Hdrive.
    split; [reflexivity|]. repeat constructor.
Defined.

(** The cap is at three levels exactly: a marker two levels below [/] is
    found. *)
Example marker_two_levels_down_found :
  marker_depths Examples.shallow_marker = [2%nat]
  /\ snd (AutoPathV10.choose_path (Examples.linux Examples.shallow_marker) "paths.csv")
     = Ok (Some (Str "/home/user")).
Proof. split; vm_compute; reflexivity. Qed.

(** ** Directories that cannot be listed *)

Section Unreadable.

Variable env : Env.
Variable R : Type.
Variable body : string -> list string -> list string -> turn R.
(** the loop body does not look at [dirs] *)
Hypothesis body_ignores_dirs :
  forall top dirs dirs' files, body top dirs files = body top dirs' files.

(** The walk of a tree is the walk of the tree without the directories
    that cannot be listed: same directories handed to the loop, same
    result. *)
Lemma os_walk_without_unreadable (t : dir) :
  forall top, os_walk env body top t = os_walk env body top (without_unreadable t).
Proof.
  induction t as [e | files subdirs IH] using dir_ind; intros top.
  - reflexivity.
  - cbn [without_unreadable]. rewrite !os_walk_listing.
    rewrite (body_ignores_dirs top (map fst subdirs)
               (map fst (flat_map
                  (fun entry =>
                     match snd entry with
                     | Unreadable _ => []
                     | Listing _ _ => [(fst entry, without_unreadable (snd entry))]
                     end) subdirs))).
    destruct (body top _ files); try reflexivity.
    assert (Hchildren :
              walk_children env body top subdirs
              = walk_children env body top
                  (flat_map
                     (fun entry =>
                        match snd entry with
                        | Unreadable _ => []
                        | Listing _ _ => [(fst entry, without_unreadable (snd entry))]
                        end) subdirs)).
    { induction subdirs as [|[name sub] rest IHrest]; [reflexivity|].
      inversion IH as [|entry others Hsub Hrest]; subst.
      cbn [flat_map fst snd]. cbn [snd] in Hsub.
      destruct sub as [files' subdirs' | e]; cbn [app].
      - rewrite !walk_children_cons. cbv zeta.
        rewrite <- Hsub, (IHrest Hrest). reflexivity.
      - rewrite walk_children_cons. cbn.
        rewrite <- (IHrest Hrest).
        destruct (walk_children env body top rest). reflexivity. }
    cbv zeta. rewrite <- Hchildren. reflexivity.
Qed.

End Unreadable.

Lemma v10_body_ignores_dirs (env : Env) (drive : string) (targets : list string)
    (cap : Z) (top : string) (dirs dirs' files : list string) :
  AutoPathV10.walk_body env drive targets cap top dirs files
  = AutoPathV10.walk_body env drive targets cap top dirs' files.
Proof. reflexivity. Qed.

(** claim C7, where the code falls short of it.  The scanner wraps its
    walk in [try: ... except PermissionError: print(...)], but the error
    of a directory that cannot be listed never leaves [os.walk], so the
    handler is not reached and nothing is reported: the scanner prints
    nothing, whatever the tree.  The rest of the claim holds: a
    directory that cannot be listed counts as holding no match (at the
    root of the walk the result is empty) and the walk hands the same
    directories to the loop and returns the same match as if that
    directory, and every other one that cannot be listed, were not
    there, so its siblings are scanned all the same.  Below [/mnt] of
    the Linux system at hand the directory [secret] raises
    [PermissionError]; the scan of [/mnt] goes on to the sibling [work]
    and returns its marker, and neither the scanner nor the resolver
    prints a line about the error. *)
Theorem C7_permission_error_not_reported :
  (forall (env : Env) (drive : string) (targets : list string) (cap : Z),
      fst (AutoPathV10.search_for_setpath_file env drive targets cap) = []
      /\ (forall (top : string) (e : exn),
            os_walk env (AutoPathV10.walk_body env drive targets cap) top (Unreadable e)
            = {| visited := []; returned := None |})
      /\ (forall (top : string) (files : list string) (name : string) (e : exn)
                 (before after : list (string * dir)),
            os_walk env (AutoPathV10.walk_body env drive targets cap) top
              (Listing files (before ++ (name, Unreadable e) :: after))
            = os_walk env (AutoPathV10.walk_body env drive targets cap) top
                (Listing files (before ++ after)))
      /\ (forall (top : string) (t : dir),
            os_walk env (AutoPathV10.walk_body env drive targets cap) top t
            = os_walk env (AutoPathV10.walk_body env drive targets cap) top
                (without_unreadable t)))
  /\ (let env := Examples.linux Examples.locked_sibling in
      tree_at env "/mnt"
      = Listing [] [("secret", Unreadable PermissionError);
                    ("work", Listing ["_setthispath_"] [])]
      /\ AutoPathV10.search_for_setpath_file env "/mnt" AutoPathV10.target_files 2
         = ([], Some ("/mnt/work/_setthispath_", "_setthispath_"))
      /\ AutoPathV10.choose_path env "paths.csv"
         = ([SearchingMsg "/media"; SearchingMsg "/mnt";
             FoundMsg "_setthispath_" "/mnt/work/_setthispath_"],
            Ok (Some (Str "/mnt/work")))).
Proof.
  split.
  - intros env drive targets cap.
    split; [reflexivity|].
    split; [reflexivity|].
    split.
    + intros top files name e before after.
      rewrite !os_walk_listing.
      rewrite (v10_body_ignores_dirs env drive targets cap top
                 (map fst (before ++ (name, Unreadable e) :: after))
                 (map fst (before ++ after))).
      rewrite walk_children_unreadable. reflexivity.
    + intros top t. apply os_walk_without_unreadable.
      intros; apply v10_body_ignores_dirs.
  - repeat split; vm_compute; reflexivity.
Qed.

(** ** How deep the walk goes *)

Section DepthBounds.

Variable env : Env.
Variable drive : string.
Variable targets : list string.
Variable cap : Z.

Lemma autoset_depth_of_append (rel : string) :
  AutoSetPath.depth_of env drive (drive ++ rel)
  = Z.of_nat (PyStr.count (os_sep env) rel).
Proof. unfold AutoSetPath.depth_of. rewrite drop_append. reflexivity. Qed.

(** One level down adds one separator at most. *)
Lemma join_below (rel name : string) :
  name_ok env name = true ->
  exists rel',
    os_path_join env (drive ++ rel) name = drive ++ rel'
    /\ (PyStr.count (os_sep env) rel' <= PyStr.count (os_sep env) rel + 1)%nat.
Proof.
  intros Hname.
  destruct (join_appends env (drive ++ rel) name Hname) as [middle [Hjoin Hmiddle]].
  exists (rel ++ middle ++ name). split.
  - rewrite Hjoin. apply append_assoc.
  - rewrite !count_append, (name_ok_count env name Hname).
    destruct Hmiddle as [-> | ->]; cbn [PyStr.count]; [lia|].
    rewrite Ascii.eqb_refl. lia.
Qed.

(** autoSet_path.py, test [depth > max_depth]: a directory handed to
    the loop lies at depth [max_depth + 1] at most, and one whose files
    are looked at lies at depth [max_depth] at most. *)
Lemma autoset_walk_bounds (t : dir) :
  forall rel,
    names_ok env t = true ->
    (Z.of_nat (PyStr.count (os_sep env) rel) <= cap + 1)%Z ->
    Forall (fun v => (AutoSetPath.depth_of env drive (fst v) <= cap + 1)%Z
                     /\ (snd v = Examined ->
                         (AutoSetPath.depth_of env drive (fst v) <= cap)%Z))
           (visited (os_walk env (AutoSetPath.walk_body env drive targets cap)
                       (drive ++ rel) t)).
Proof.
  induction t as [e | files subdirs IH] using dir_ind; intros rel Hnames Hrel.
  - constructor.
  - rewrite os_walk_listing. unfold AutoSetPath.walk_body at 1.
    rewrite autoset_depth_of_append.
    destruct (cap <? Z.of_nat (PyStr.count (os_sep env) rel))%Z eqn:Hdeep.
    + constructor; [|constructor]. cbn [fst snd].
      rewrite autoset_depth_of_append. split; [exact Hrel | discriminate].
    + apply Z.ltb_ge in Hdeep.
      assert (Hhere : (AutoSetPath.depth_of env drive (drive ++ rel) <= cap + 1)%Z
                      /\ (Examined = Examined ->
                          (AutoSetPath.depth_of env drive (drive ++ rel) <= cap)%Z))
        by (rewrite autoset_depth_of_append; split; [lia | intros _; exact Hdeep]).
      destruct (AutoSetPath.try_files env (drive ++ rel) files targets).
      * constructor; [exact Hhere | constructor].
      * cbv zeta. cbn [visited]. constructor; [exact Hhere|].
        cbn [names_ok] in Hnames. clear Hhere.
        induction subdirs as [|[name sub] rest IHrest];
          [constructor|].
        inversion IH as [|entry others Hsub Hrest]; subst.
        cbn [forallb fst snd] in Hnames.
        apply andb_true_iff in Hnames. destruct Hnames as [Hentry Hnames].
        apply andb_true_iff in Hentry. destruct Hentry as [Hname Hsubnames].
        rewrite walk_children_cons. cbv zeta.
        destruct (join_below rel name Hname) as [rel' [-> Hcount]].
        cbn [snd] in Hsub.
        assert (Hvisited := Hsub rel' Hsubnames ltac:(lia)).
        destruct (returned (os_walk env (AutoSetPath.walk_body env drive targets cap)
                              (drive ++ rel') sub)).
        -- exact Hvisited.
        -- cbn [visited]. apply Forall_app. split; [exact Hvisited|].
           apply IHrest; assumption.
Qed.

(** autoPath_v1.0.py on the system drive, test
    [depth >= max_system_depth]: a directory handed to the loop lies at
    depth [max_system_depth] at most, and one whose files are looked at
    lies above it. *)
Lemma v10_walk_bounds (t : dir) :
  AutoPathV10.is_system_drive env drive = true ->
  forall rel,
    names_ok env t = true ->
    (Z.of_nat (PyStr.count (os_sep env) rel) <= cap)%Z ->
    Forall (fun v => (AutoPathV10.depth_of env drive (fst v) <= cap)%Z
                     /\ (snd v = Examined ->
                         (AutoPathV10.depth_of env drive (fst v) < cap)%Z))
           (visited (os_walk env (AutoPathV10.walk_body env drive targets cap)
                       (drive ++ rel) t)).
Proof.
  intros Hsystem.
  induction t as [e | files subdirs IH] using dir_ind; intros rel Hnames Hrel.
  - constructor.
  - rewrite os_walk_listing. unfold AutoPathV10.walk_body at 1.
    rewrite Hsystem, depth_of_append. cbn [andb].
    destruct (cap <=? Z.of_nat (PyStr.count (os_sep env) rel))%Z eqn:Hdeep.
    + constructor; [|constructor]. cbn [fst snd].
      rewrite depth_of_append. split; [exact Hrel | discriminate].
    + apply Z.leb_gt in Hdeep.
      assert (Hhere : (AutoPathV10.depth_of env drive (drive ++ rel) <= cap)%Z
                      /\ (Examined = Examined ->
                          (AutoPathV10.depth_of env drive (drive ++ rel) < cap)%Z))
        by (rewrite depth_of_append; split; [lia | intros _; exact Hdeep]).
      destruct (AutoPathV10.try_files env (drive ++ rel) files targets).
      * constructor; [exact Hhere | constructor].
      * cbv zeta. cbn [visited]. constructor; [exact Hhere|].
        cbn [names_ok] in Hnames. clear Hhere.
        induction subdirs as [|[name sub] rest IHrest];
          [constructor|].
        inversion IH as [|entry others Hsub Hrest]; subst.
        cbn [forallb fst snd] in Hnames.
        apply andb_true_iff in Hnames. destruct Hnames as [Hentry Hnames].
        apply andb_true_iff in Hentry. destruct Hentry as [Hname Hsubnames].
        rewrite walk_children_cons. cbv zeta.
        destruct (join_below rel name Hname) as [rel' [-> Hcount]].
        cbn [snd] in Hsub.
        assert (Hvisited := Hsub rel' Hsubnames ltac:(lia)).
        destruct (returned (os_walk env (AutoPathV10.walk_body env drive targets cap)
                              (drive ++ rel') sub)).
        -- exact Hvisited.
        -- cbn [visited]. apply Forall_app. split; [exact Hvisited|].
           apply IHrest; assumption.
Qed.

End DepthBounds.

(** claim C4, as amended.  With a depth bound [d] and directory names of
    the platform, a directory whose depth exceeds the bound is cut where
    the walk meets it: its files are not looked at and none of its
    sub-directories is walked.  With the test [depth > max_depth] of
    autoSet_path.py the walk still lists the directories at depth
    [d + 1], and nothing deeper, while it looks at files down to depth
    [d].  With the test [depth >= max_system_depth] of autoPath_v1.0.py,
    in force on the system drive, the cut falls on depth [d] itself: no
    directory deeper than [d] is listed and files are looked at above
    depth [d] only. *)
Theorem C4_depth_cap_prunes :
  forall (env : Env) (drive : string) (targets : list string) (d : Z),
    (0 <= d)%Z ->
    names_ok env (tree_at env drive) = true ->
    (forall root files subdirs,
        (d < AutoSetPath.depth_of env drive root)%Z ->
        os_walk env (AutoSetPath.walk_body env drive targets d) root
          (Listing files subdirs)
        = {| visited := [(root, Cut)]; returned := None |})
    /\ Forall (fun v => (AutoSetPath.depth_of env drive (fst v) <= d + 1)%Z
                        /\ (snd v = Examined ->
                            (AutoSetPath.depth_of env drive (fst v) <= d)%Z))
              (AutoSetPath.walked env drive targets d)
    /\ (AutoPathV10.is_system_drive env drive = true ->
        (forall root files subdirs,
            (d <= AutoPathV10.depth_of env drive root)%Z ->
            os_walk env (AutoPathV10.walk_body env drive targets d) root
              (Listing files subdirs)
            = {| visited := [(root, Cut)]; returned := None |})
        /\ Forall (fun v => (AutoPathV10.depth_of env drive (fst v) <= d)%Z
                            /\ (snd v = Examined ->
                                (AutoPathV10.depth_of env drive (fst v) < d)%Z))
                  (AutoPathV10.walked env drive targets d)).
Proof.
  intros env drive targets d Hd Hnames.
  split.
  { intros root files subdirs Hdeep. rewrite os_walk_listing.
    unfold AutoSetPath.walk_body.
    replace (d <? AutoSetPath.depth_of env drive root)%Z with true
      by (symmetry; apply Z.ltb_lt; exact Hdeep).
    reflexivity. }
  split.
  { unfold AutoSetPath.walked.
    pose proof (autoset_walk_bounds env drive targets d (tree_at env drive) ""
                  Hnames ltac:(cbn; lia)) as H.
    rewrite append_empty_r in H. exact H. }
  intros Hsystem. split.
  { intros root files subdirs Hdeep. rewrite os_walk_listing.
    unfold AutoPathV10.walk_body. rewrite Hsystem.
    replace (d <=? AutoPathV10.depth_of env drive root)%Z with true
      by (symmetry; apply Z.leb_le; exact Hdeep).
    reflexivity. }
  unfold AutoPathV10.walked.
  pose proof (v10_walk_bounds env drive targets d (tree_at env drive) Hsystem ""
                Hnames ltac:(cbn; lia)) as H.
  rewrite append_empty_r in H. exact H.
Qed.

(** On the chain [/mnt/a/b/c/d/e], scanned from [/mnt] with the bound 3,
    every directory the walk lists lies at depth 4 at most. *)
Lemma C4_depth_cap_prunes_witness :
  Forall (fun v =>
            (AutoSetPath.depth_of (Examples.linux Examples.chain) "/mnt" (fst v) <= 3 + 1)%Z
            /\ (snd v = Examined ->
                (AutoSetPath.depth_of (Examples.linux Examples.chain) "/mnt" (fst v) <= 3)%Z))
         (AutoSetPath.walked (Examples.linux Examples.chain) "/mnt"
            AutoSetPath.target_files 3).
Proof.
  apply (C4_depth_cap_prunes (Examples.linux Examples.chain) "/mnt"
           AutoSetPath.target_files 3).
  - lia.
  - reflexivity.
Defined.

(** claim C4, as stated, fails for autoSet_path.py: with the bound 3 the
    walk from [/mnt] lists [/mnt/a/b/c/d], whose depth is 4, and cuts it
    there; the marker in it is not found. *)
Lemma C4_walk_lists_one_level_beyond :
  let env := Examples.linux Examples.chain in
  AutoSetPath.walked env "/mnt" AutoSetPath.target_files 3
  = [("/mnt", Examined); ("/mnt/a", Examined); ("/mnt/a/b", Examined);
     ("/mnt/a/b/c", Examined); ("/mnt/a/b/c/d", Cut)]
  /\ AutoSetPath.depth_of env "/mnt" "/mnt/a/b/c/d" = 4%Z
  /\ (3 < AutoSetPath.depth_of env "/mnt" "/mnt/a/b/c/d")%Z
  /\ AutoSetPath.search_for_setpath_file env "/mnt" AutoSetPath.target_files 3
     = ([], None).
Proof.
  repeat split; vm_compute; reflexivity.
Qed.

(** ** The order of the volumes and the end of the search *)

Lemma scanned_app (a b : list output) :
  scanned (a ++ b) = (scanned a ++ scanned b)%list.
Proof.
  induction a as [|m a IH]; cbn [app scanned]; [reflexivity|].
  destruct m; cbn [app]; rewrite IH; reflexivity.
Qed.

Lemma scanned_announce (announce : output) (rest : list output) :
  scanned rest = [] -> scanned (announce :: rest) = scanned [announce].
Proof.
  intros H. change (announce :: rest) with ([announce] ++ rest)%list.
  rewrite scanned_app, H, app_nil_r. reflexivity.
Qed.

Section Order.

Variable env : Env.
Variable csv_file : string.

Lemma read_path_from_csv_scanned (cell : string) :
  scanned (fst (AutoPathV10.read_path_from_csv env csv_file cell)) = [].
Proof.
  unfold AutoPathV10.read_path_from_csv.
  match goal with |- context [match ?a with Ok _ => _ | Raise _ => _ end] =>
    destruct a as [value | []] end; reflexivity.
Qed.

Lemma set_path_scanned (drive file_path target_file : string) :
  scanned (fst (AutoPathV10.set_path_based_on_file env drive file_path
                  target_file csv_file)) = [].
Proof.
  unfold AutoPathV10.set_path_based_on_file.
  destruct (String.eqb target_file "_setpath_"); [reflexivity|].
  destruct (String.eqb target_file "_setthispath_"); [reflexivity|].
  destruct (PyStr.startswith "_setfromcsv_" target_file); [|reflexivity].
  apply read_path_from_csv_scanned.
Qed.

(** One drive of [choose_path], by the scan and the conversion. *)
Lemma try_drive_cases (announce : output) (drive : string) :
  snd (AutoPathV10.try_drive env csv_file announce drive) =
  match snd (AutoPathV10.search_for_setpath_file env drive AutoPathV10.target_files 2) with
  | Some (file_path, target_file) =>
      if PyStr.truthy (Some file_path) then
        match snd (AutoPathV10.set_path_based_on_file env drive file_path
                     target_file csv_file) with
        | Ok chosen_path => if truthy chosen_path then Ok chosen_path else Ok None
        | Raise e => Raise e
        end
      else Ok None
  | None => Ok None
  end.
Proof.
  unfold AutoPathV10.try_drive. rewrite search_result. cbn [snd].
  destruct (returned _) as [[file_path target_file]|]; [|reflexivity].
  destruct (PyStr.truthy (Some file_path)); [|reflexivity].
  destruct (AutoPathV10.set_path_based_on_file env drive file_path target_file csv_file)
    as [log2 [chosen_path | e]]; [|reflexivity].
  cbn [snd]. destruct (truthy chosen_path); reflexivity.
Qed.

(** What a drive announces is all that [scanned] keeps of its lines. *)
Lemma try_drive_scanned (announce : output) (drive : string) :
  scanned (fst (AutoPathV10.try_drive env csv_file announce drive))
  = scanned [announce].
Proof.
  unfold AutoPathV10.try_drive. rewrite search_result.
  destruct (returned _) as [[file_path target_file]|]; [|reflexivity].
  destruct (PyStr.truthy (Some file_path)); [|reflexivity].
  pose proof (set_path_scanned drive file_path target_file) as Hlog.
  destruct (AutoPathV10.set_path_based_on_file env drive file_path target_file csv_file)
    as [log2 [chosen_path | e]]; cbn [fst] in Hlog.
  - destruct (truthy chosen_path); cbn [fst app];
      apply scanned_announce; cbn [scanned];
      rewrite ?scanned_app, Hlog; reflexivity.
  - cbn [fst app]. apply scanned_announce. cbn [scanned]. exact Hlog.
Qed.





End Order.

Section Stopping.

Variable env : Env.
Variable csv_file : string.








End Stopping.

(** On a Windows system with the drives [C:] and [D:], autoPath_v1.0.py
    scans [D:] only, where the marker is, while autoPath_v1.py scans the
    system drive [C:] first. *)
Example system_drive_first_in_v1 :
  scanned (fst (AutoPathV10.choose_path Examples.two_drives "paths.csv")) = ["D:\"]
  /\ scanned (fst (AutoPathV1.choose_path Examples.two_drives "paths.csv"))
     = ["C:\"; "D:\"]
  /\ snd (AutoPathV1.choose_path Examples.two_drives "paths.csv") = Ok (Some (Str "D:\")).
Proof. repeat split; vm_compute; reflexivity. Qed.




(** The cells of a table keep their type: with the number 0 in cell A1
    the match on [/media] converts to a value that counts as false and
    the search goes on to [/mnt]; with cell A1 empty it converts to
    [NaN], which counts as true and is returned. *)
Example typed_cells_and_the_truth_test :
  (let env := Examples.linux_with_table Examples.table_then_direct [[Int 0; Str "x"]] in
   snd (AutoPathV10.set_path_based_on_file env "/media" "/media/_setfromcsv_a1_"
          "_setfromcsv_a1_" "paths.csv") = Ok (Some (Int 0))
   /\ scanned (fst (AutoPathV10.choose_path env "paths.csv")) = ["/media"; "/mnt"]
   /\ snd (AutoPathV10.choose_path env "paths.csv") = Ok (Some (Str "/mnt")))
  /\ (let env :=
        Examples.linux_with_table Examples.table_then_direct [[Float NaN; Str "x"]] in
      scanned (fst (AutoPathV10.choose_path env "paths.csv")) = ["/media"]
      /\ snd (AutoPathV10.choose_path env "paths.csv") = Ok (Some (Float NaN))).
Proof. repeat split; vm_compute; reflexivity. Qed.

(** The resolver never asks [os.path.isdir]: its run is the same in a
    world that differs in the answers of [os.path.isdir] only. *)
Section NoDirectoryCheck.

Variable env : Env.
Variable isdir : string -> bool.









End NoDirectoryCheck.




(** ** The table marker and its address *)

Lemma digit_value (c : ascii) :
  PyStr.is_digit c = true ->
  option_map Z.of_nat (TableAddress.index_of c "0123456789") = Some (PyStr.ord c - 48)%Z.
Proof. ascii_cases c. Qed.

Lemma letter_column (c : ascii) :
  PyStr.is_letter c = true ->
  option_map Z.of_nat (TableAddress.column_of c)
  = Some (PyStr.ord (PyStr.upper_char (PyStr.upper_char c)) - PyStr.ord "A")%Z.
Proof. ascii_cases c. Qed.

(** The digits that [int] reads are the number the specification
    reads. *)
Lemma int_digits_decimal (s : string) :
  forall (acc : nat) (b : bool),
    PyStr.all_chars PyStr.is_digit s = true ->
    exists n,
      TableAddress.decimal_value acc s = Some n
      /\ (b = true \/ s <> "" ->
          PyStr.int_digits (Z.of_nat acc) b s = Some (Z.of_nat n)).
Proof.
  induction s as [|c s IH]; intros acc b Hdigits.
  - exists acc. split; [reflexivity|].
    intros [-> | Hne]; [reflexivity | contradiction Hne; reflexivity].
  - cbn [PyStr.all_chars] in Hdigits. apply andb_true_iff in Hdigits.
    destruct Hdigits as [Hc Hs].
    pose proof (digit_value c Hc) as Hvalue.
    cbn [TableAddress.decimal_value PyStr.int_digits]. rewrite Hc.
    destruct (TableAddress.index_of c "0123456789") as [v|]; [|discriminate Hvalue].
    cbn [option_map] in Hvalue. inversion Hvalue as [Hv].
    destruct (IH (10 * acc + v)%nat true Hs) as [n [Hn Hint]].
    exists n. split; [exact Hn|]. intros _.
    replace (10 * Z.of_nat acc + Z.of_nat v)%Z with (Z.of_nat (10 * acc + v)) by lia.
    apply Hint. left. reflexivity.
Qed.

Lemma int_of_digits (s : string) :
  PyStr.isdigit s = true ->
  exists n, TableAddress.decimal_value 0 s = Some n /\ PyStr.int s = Ok (Z.of_nat n).
Proof.
  intros Hs. pose proof (isdigit_all s Hs) as Hall.
  destruct (int_digits_decimal s 0 false Hall) as [n [Hn Hint]].
  exists n. split; [exact Hn|].
  destruct s as [|c s]; [discriminate Hs|].
  cbn [PyStr.all_chars] in Hall. apply andb_true_iff in Hall. destruct Hall as [Hc Hrest].
  rewrite (int_unsigned c s Hc Hrest).
  change (Z.of_nat 0) with 0%Z in Hint. rewrite Hint; [reflexivity|].
  right. discriminate.
Qed.

(** [split] on a field without the separator *)
Lemma split_field (c : ascii) (x y : string) :
  PyStr.all_chars (fun a => negb (Ascii.eqb a c)) x = true ->
  PyStr.split c (x ++ String c y) = x :: PyStr.split c y.
Proof.
  induction x as [|a x IH]; intros Hx; cbn [append PyStr.split].
  - rewrite Ascii.eqb_refl. reflexivity.
  - cbn [PyStr.all_chars] in Hx. apply andb_true_iff in Hx. destruct Hx as [Ha Hx].
    apply negb_true_iff in Ha. rewrite Ha, (IH Hx). reflexivity.
Qed.

Lemma digits_no_underscore (s : string) :
  PyStr.all_chars PyStr.is_digit s = true ->
  PyStr.all_chars (fun a => negb (Ascii.eqb a "_")) s = true.
Proof.
  induction s as [|c s IH]; cbn [PyStr.all_chars]; [reflexivity|].
  intros H. apply andb_true_iff in H. destruct H as [Hc Hs].
  rewrite (digit_not_underscore c Hc), (IH Hs). reflexivity.
Qed.

Lemma span_all_digits (digits rest : string) :
  PyStr.all_chars PyStr.is_digit digits = true ->
  Re.span_digits (digits ++ String "_" rest) = (digits, String "_" rest).
Proof.
  induction digits as [|c s IH]; cbn [append Re.span_digits PyStr.all_chars].
  - reflexivity.
  - intros H. apply andb_true_iff in H. destruct H as [Hc Hs].
    rewrite Hc, (IH Hs). reflexivity.
Qed.

(** No marker name with a leading underscore and a second character
    starts among digits followed by [_]. *)
Lemma contains_after_digits (a : ascii) (t digits : string) :
  PyStr.all_chars PyStr.is_digit digits = true ->
  PyStr.contains (String "_" (String a t)) (digits ++ "_") = false.
Proof.
  induction digits as [|c s IH]; cbn [append PyStr.contains PyStr.all_chars String.prefix].
  - destruct (ascii_dec "_" "_"); reflexivity.
  - intros H. apply andb_true_iff in H. destruct H as [Hc Hs].
    destruct (ascii_dec "_" c) as [<-|_]; [discriminate Hc|].
    cbn [orb]. apply IH, Hs.
Qed.

Lemma contains_cons (t : string) (c : ascii) (s : string) :
  PyStr.contains t (String c s) = (String.prefix t (String c s) || PyStr.contains t s)%bool.
Proof. reflexivity. Qed.

Lemma prefix_cons_ne (a b : ascii) (t s : string) :
  a <> b -> String.prefix (String a t) (String b s) = false.
Proof. intros H. cbn [String.prefix]. destruct (ascii_dec a b); [contradiction | reflexivity]. Qed.

Lemma prefix_cons_eq (a : ascii) (t s : string) :
  String.prefix (String a t) (String a s) = String.prefix t s.
Proof. cbn [String.prefix]. destruct (ascii_dec a a); [reflexivity | contradiction]. Qed.

Ltac prefix_steps :=
  repeat first [ rewrite prefix_cons_ne by discriminate
               | rewrite prefix_cons_eq ].

Lemma table_name_not_other (t : string) (letter : ascii) (digits : string) :
  t = "_setpath_" \/ t = "_setthispath_" ->
  PyStr.is_letter letter = true ->
  PyStr.isdigit digits = true ->
  PyStr.contains t ("_setfromcsv_" ++ String letter digits ++ "_") = false.
Proof.
  intros Ht Hletter Hdigits.
  destruct digits as [|d ds]; [discriminate Hdigits|].
  cbn [PyStr.isdigit PyStr.all_chars] in Hdigits.
  apply andb_true_iff in Hdigits. destruct Hdigits as [Hd Hds].
  assert (Hl_ : "_"%char <> letter)
    by (intros <-; discriminate Hletter).
  assert (Hd_ : "_"%char <> d) by (intros <-; discriminate Hd).
  assert (Hde : "e"%char <> d) by (intros <-; discriminate Hd).
  cbn [append].
  destruct Ht as [-> | ->];
    rewrite !contains_cons, (contains_after_digits _ _ ds Hds);
    prefix_steps;
    rewrite (prefix_cons_ne "_" letter) by exact Hl_;
    rewrite (prefix_cons_ne "_" d) by exact Hd_;
    (destruct (ascii_dec "s" letter) as [<- | Hls];
     [ rewrite prefix_cons_eq, (prefix_cons_ne "e" d) by exact Hde
     | rewrite (prefix_cons_ne "s" letter) by exact Hls ]);
    reflexivity.
Qed.

(** A target name that starts with [_setfromcsv_] has a third field:
    [target_file.split("_")[2]] raises no [IndexError]. *)
Lemma prefix_append (p s : string) :
  String.prefix p s = true -> exists rest, s = p ++ rest.
Proof.
  revert s. induction p as [|a p IH]; intros s H.
  - exists s. reflexivity.
  - destruct s as [|b s]; [discriminate H|]. cbn [String.prefix] in H.
    destruct (ascii_dec a b) as [<-|_]; [|discriminate H].
    destruct (IH s H) as [rest ->]. exists rest. reflexivity.
Qed.

Lemma split_nonempty (c : ascii) (s : string) : PyStr.split c s <> [].
Proof.
  induction s as [|a s IH]; cbn [PyStr.split]; [discriminate|].
  destruct (Ascii.eqb a c); [discriminate|].
  destruct (PyStr.split c s); [contradiction IH; reflexivity | discriminate].
Qed.

Lemma split_third_field (target_file : string) :
  PyStr.startswith "_setfromcsv_" target_file = true ->
  exists cell, nth_error (PyStr.split "_" target_file) 2 = Some cell.
Proof.
  intros H. destruct (prefix_append _ _ H) as [rest ->].
  change ("_setfromcsv_" ++ rest)
    with ("" ++ String "_" ("setfromcsv" ++ String "_" rest)).
  rewrite (split_field "_" "" _ eq_refl).
  rewrite (split_field "_" "setfromcsv" _ eq_refl).
  pose proof (split_nonempty "_" rest) as Hne.
  destruct (PyStr.split "_" rest) as [|cell others]; [contradiction Hne; reflexivity|].
  exists cell. reflexivity.
Qed.

Section TableMarker.

Variable letter : ascii.
Variable digits : string.
Hypothesis letter_is_letter : PyStr.is_letter letter = true.
Hypothesis digits_are_digits : PyStr.isdigit digits = true.

Lemma table_name_search :
  Re.search_setfromcsv (TableAddress.marker_name letter digits)
  = Some (String letter digits).
Proof.
  assert (Hmatch : Re.match_setfromcsv (TableAddress.marker_name letter digits)
                   = Some (String letter digits)).
  { unfold Re.match_setfromcsv, TableAddress.marker_name.
    change (Re.strip_prefix "_setfromcsv_" ("_setfromcsv_" ++ String letter digits ++ "_"))
      with (Some (String letter (digits ++ "_"))).
    cbv beta iota. rewrite letter_is_letter.
    rewrite (span_all_digits digits "" (isdigit_all digits digits_are_digits)).
    destruct digits; [discriminate digits_are_digits | reflexivity]. }
  unfold TableAddress.marker_name in *. cbn [append] in *.
  cbn [Re.search_setfromcsv]. rewrite Hmatch. reflexivity.
Qed.

(** The scanner reports the marker under its own name. *)
Lemma table_name_target (env : Env) (root : string) :
  AutoPathV10.try_targets env root (TableAddress.marker_name letter digits)
    AutoPathV10.target_files
  = Some (os_path_join env root (TableAddress.marker_name letter digits),
          TableAddress.marker_name letter digits).
Proof.
  rewrite try_targets_cases.
  unfold TableAddress.marker_name.
  rewrite (table_name_not_other "_setpath_" letter digits
             (or_introl eq_refl) letter_is_letter digits_are_digits).
  rewrite (table_name_not_other "_setthispath_" letter digits
             (or_intror eq_refl) letter_is_letter digits_are_digits).
  fold (TableAddress.marker_name letter digits).
  rewrite table_name_search. reflexivity.
Qed.

(** The third field of the marker name is the cell reference. *)
Lemma table_name_cell :
  PyStr.upper (nth 2 (PyStr.split "_" (TableAddress.marker_name letter digits)) "")
  = String (PyStr.upper_char letter) digits.
Proof.
  unfold TableAddress.marker_name.
  change ("_setfromcsv_" ++ String letter digits ++ "_")
    with ("" ++ String "_" ("setfromcsv"
                             ++ String "_" (String letter digits ++ String "_" ""))).
  rewrite (split_field "_" "" _ eq_refl).
  rewrite (split_field "_" "setfromcsv" _ eq_refl).
  rewrite (split_field "_" (String letter digits)).
  - cbn [nth]. unfold PyStr.upper. cbn [PyStr.map_chars]. f_equal.
    apply (all_chars_map PyStr.is_digit); [exact digit_upper|].
    apply isdigit_all, digits_are_digits.
  - cbn [PyStr.all_chars].
    rewrite (letter_not_underscore letter letter_is_letter). cbn [negb andb].
    apply digits_no_underscore, isdigit_all, digits_are_digits.
Qed.

Lemma table_name_conversion (env : Env) (drive file_path csv_file : string) :
  AutoPathV10.set_path_based_on_file env drive file_path
    (TableAddress.marker_name letter digits) csv_file
  = AutoPathV10.read_path_from_csv env csv_file
      (String (PyStr.upper_char letter) digits).
Proof.
  unfold AutoPathV10.set_path_based_on_file. rewrite table_name_cell.
  unfold TableAddress.marker_name. cbn [append].
  reflexivity.
Qed.

(** The address [read_path_from_csv] computes for the cell reference. *)
Lemma table_cell_address :
  exists column row,
    TableAddress.column_of letter = Some column
    /\ TableAddress.row_of digits = Some row
    /\ AutoPathV10.cell_address (String (PyStr.upper_char letter) digits)
       = Ok (row, Z.of_nat column).
Proof.
  destruct (int_of_digits digits digits_are_digits) as [n [Hn Hint]].
  pose proof (letter_column letter letter_is_letter) as Hcolumn.
  destruct (TableAddress.column_of letter) as [column|]; [|discriminate Hcolumn].
  cbn [option_map] in Hcolumn. inversion Hcolumn as [Hc].
  exists column, (Z.of_nat n - 1)%Z.
  split; [reflexivity|].
  split; [unfold TableAddress.row_of; rewrite Hn; reflexivity|].
  unfold AutoPathV10.cell_address.
  change (PyStr.drop 1 (String (PyStr.upper_char letter) digits))
    with (PyStr.drop 0 digits).
  rewrite drop_zero, Hint. cbn [bind]. rewrite Hc. reflexivity.
Qed.

End TableMarker.

(** claim C5.  For the marker name [_setfromcsv_<letter><digits>_] the
    scanner reports the marker under that name, the conversion reads the
    cell whose reference is the letter in upper case followed by the
    digits, and the address of that cell is the pair of the row, the
    digits read as a number minus one, and the column, the zero-based
    index of the letter in the alphabet whatever its case; the value
    found there in the table is the resolved path.  For [_setfromcsv_b5_]
    and a table with [/data/archive] in row 4, column 1, the conversion
    gives [/data/archive]. *)
Theorem C5_table_address_of_marker :
  (forall (env : Env) (root drive csv_file : string) (letter : ascii) (digits : string),
      PyStr.is_letter letter = true ->
      PyStr.isdigit digits = true ->
      let name := TableAddress.marker_name letter digits in
      let cell := String (PyStr.upper_char letter) digits in
      exists column row,
        TableAddress.column_of letter = Some column
        /\ TableAddress.row_of digits = Some row
        /\ AutoPathV10.try_targets env root name AutoPathV10.target_files
           = Some (os_path_join env root name, name)
        /\ AutoPathV10.set_path_based_on_file env drive (os_path_join env root name)
             name csv_file
           = AutoPathV10.read_path_from_csv env csv_file cell
        /\ AutoPathV10.cell_address cell = Ok (row, Z.of_nat column)
        /\ (forall df v,
              read_csv env csv_file = Ok df ->
              iat df row (Z.of_nat column) = Ok v ->
              AutoPathV10.read_path_from_csv env csv_file cell = ([], Ok (Some v))))
  /\ (forall (env : Env) (drive file_path csv_file : string) (df : DataFrame),
        read_csv env csv_file = Ok df ->
        iat df 4 1 = Ok (Str "/data/archive") ->
        AutoPathV10.set_path_based_on_file env drive file_path "_setfromcsv_b5_" csv_file
        = ([], Ok (Some (Str "/data/archive")))).
Proof.
  split.
  - intros env root drive csv_file letter digits Hletter Hdigits name cell.
    destruct (table_cell_address letter digits Hletter Hdigits)
      as [column [row [Hcolumn [Hrow Haddress]]]].
    exists column, row.
    split; [exact Hcolumn|]. split; [exact Hrow|].
    split; [apply table_name_target; assumption|].
    split; [apply table_name_conversion; assumption|].
    split; [exact Haddress|].
    intros df v Hcsv Hcell.
    unfold AutoPathV10.read_path_from_csv. fold cell in Haddress.
    rewrite Hcsv. cbn [bind]. rewrite Haddress. cbn [bind fst snd].
    rewrite Hcell. reflexivity.
  - intros env drive file_path csv_file df Hcsv Hcell.
    unfold AutoPathV10.set_path_based_on_file.
    cbn [String.eqb]. cbv beta iota.
    change (PyStr.startswith "_setfromcsv_" "_setfromcsv_b5_") with true.
    change (PyStr.upper (nth 2 (PyStr.split "_" "_setfromcsv_b5_") "")) with "B5".
    cbv iota.
    unfold AutoPathV10.read_path_from_csv. rewrite Hcsv. cbn [bind].
    change (AutoPathV10.cell_address "B5") with (@Ok (Z * Z) (4, 1)%Z).
    cbn [bind fst snd]. rewrite Hcell. reflexivity.
Qed.

(** With the table of [Examples.archive_rows], whose fifth row holds
    [/data/archive] in its second column, the marker [_setfromcsv_b5_]
    found in [/media] resolves to [/data/archive]. *)
Lemma C5_table_address_of_marker_witness :
  AutoPathV10.set_path_based_on_file
    (Examples.linux_with_table Examples.table_b5 Examples.archive_rows)
    "/media" "/media/_setfromcsv_b5_" "_setfromcsv_b5_" "paths.csv"
  = ([], Ok (Some (Str "/data/archive")))
  /\ snd (AutoPathV10.choose_path
            (Examples.linux_with_table Examples.table_b5 Examples.archive_rows)
            "paths.csv")
     = Ok (Some (Str "/data/archive")).
Proof.
  split.
  - destruct C5_table_address_of_marker as [_ Hb5].
    apply (Hb5 (Examples.linux_with_table Examples.table_b5 Examples.archive_rows)
             "/media" "/media/_setfromcsv_b5_" "paths.csv"
             (Fixture.table Examples.archive_rows)).
    + reflexivity.
    + reflexivity.
  - vm_compute. reflexivity.
Defined.

(** * Further properties of the code *)

(** ** What the scanner reports *)

Section WalkReturns.

Variable env : Env.
Variable R : Type.
Variable body : string -> list string -> list string -> turn R.

(** A walk returns what its loop body returned at one of the listed
    directories, and that directory is the last one it was handed. *)
Lemma os_walk_returned (t : dir) :
  forall (top : string) (r : R),
    returned (os_walk env body top t) = Some r ->
    exists root files dirs before,
      In (root, files) (listed env top t)
      /\ body root dirs files = Return r
      /\ visited (os_walk env body top t) = (before ++ [(root, Examined)])%list.
Proof.
  induction t as [e | files subdirs IH] using dir_ind; intros top r.
  - discriminate.
  - rewrite os_walk_listing. cbn [listed].
    destruct (body top (map fst subdirs) files) as [| |r0] eqn:Hbody.
    + cbv zeta. cbn [returned visited]. intros Hreturned.
      assert (Hchildren :
                exists root files' dirs before,
                  In (root, files')
                     (flat_map (fun entry =>
                                  listed env (os_path_join env top (fst entry)) (snd entry))
                               subdirs)
                  /\ body root dirs files' = Return r
                  /\ visited (walk_children env body top subdirs)
                     = (before ++ [(root, Examined)])%list).
      { clear Hbody. induction subdirs as [|[name sub] rest IHrest]; [discriminate|].
        inversion IH as [|entry others Hsub Hrest]; subst. cbn [snd] in Hsub.
        rewrite walk_children_cons in Hreturned |- *. cbv zeta in Hreturned |- *.
        cbn [flat_map fst snd].
        destruct (returned (os_walk env body (os_path_join env top name) sub))
          as [r1|] eqn:Hfirst.
        - rewrite Hfirst in Hreturned. inversion Hreturned; subst r1.
          destruct (Hsub _ _ Hfirst) as [root [files' [dirs [before [Hin [Hret Hvis]]]]]].
          exists root, files', dirs, before.
          split; [apply in_or_app; left; exact Hin|]. split; [exact Hret | exact Hvis].
        - cbn [returned] in Hreturned.
          destruct (IHrest Hrest Hreturned)
            as [root [files' [dirs [before [Hin [Hret Hvis]]]]]].
          exists root, files', dirs,
            (visited (os_walk env body (os_path_join env top name) sub) ++ before)%list.
          split; [apply in_or_app; right; exact Hin|]. split; [exact Hret|].
          cbn [visited]. rewrite Hvis, app_assoc. reflexivity. }
      destruct Hchildren as [root [files' [dirs [before [Hin [Hret Hvis]]]]]].
      exists root, files', dirs, ((top, Examined) :: before).
      split; [right; exact Hin|]. split; [exact Hret|].
      rewrite Hvis. reflexivity.
    + discriminate.
    + cbn [returned visited]. intros H. inversion H; subst r0.
      exists top, files, (map fst subdirs), [].
      split; [left; reflexivity|]. split; [exact Hbody | reflexivity].
Qed.

End WalkReturns.

Lemma try_files_in (env : Env) (root : string) (files targets : list string)
    (found : string * string) :
  AutoPathV10.try_files env root files targets = Some found ->
  exists file, In file files
               /\ AutoPathV10.try_targets env root file targets = Some found.
Proof.
  induction files as [|f files IH]; cbn [AutoPathV10.try_files]; [discriminate|].
  destruct (AutoPathV10.try_targets env root f targets) as [found'|] eqn:Hf.
  - intros H. inversion H; subst found'. exists f. split; [left; reflexivity | exact Hf].
  - intros H. destruct (IH H) as [file [Hin Hfile]].
    exists file. split; [right; exact Hin | exact Hfile].
Qed.

Lemma span_digits_all (s : string) :
  PyStr.all_chars PyStr.is_digit (fst (Re.span_digits s)) = true.
Proof.
  induction s as [|c s IH]; cbn [Re.span_digits]; [reflexivity|].
  destruct (PyStr.is_digit c) eqn:Hc; [|reflexivity].
  destruct (Re.span_digits s) as [ds rest]. cbn [fst] in *.
  cbn [PyStr.all_chars]. rewrite Hc, IH. reflexivity.
Qed.

(** The group the regular expression captures is a letter followed by
    one digit or more. *)
Lemma match_group_shape (s g : string) :
  Re.match_setfromcsv s = Some g ->
  exists letter digits,
    g = String letter digits
    /\ PyStr.is_letter letter = true /\ PyStr.isdigit digits = true.
Proof.
  unfold Re.match_setfromcsv.
  destruct (Re.strip_prefix "_setfromcsv_" s) as [[|letter rest]|]; try discriminate.
  destruct (PyStr.is_letter letter) eqn:Hletter; [|discriminate].
  pose proof (span_digits_all rest) as Hdigits.
  destruct (Re.span_digits rest) as [[|d ds] [|u after]]; try discriminate.
  destruct (Ascii.eqb u "_"); [|discriminate].
  intros H. inversion H. exists letter, (String d ds).
  split; [reflexivity|]. split; [exact Hletter | exact Hdigits].
Qed.

Lemma search_group_shape (file g : string) :
  Re.search_setfromcsv file = Some g ->
  exists letter digits,
    g = String letter digits
    /\ PyStr.is_letter letter = true /\ PyStr.isdigit digits = true.
Proof.
  induction file as [|c file IH]; cbn [Re.search_setfromcsv].
  - destruct (Re.match_setfromcsv "") eqn:Hm; [|discriminate].
    intros H. inversion H; subst. exact (match_group_shape _ _ Hm).
  - destruct (Re.match_setfromcsv (String c file)) eqn:Hm.
    + intros H. inversion H; subst. exact (match_group_shape _ _ Hm).
    + exact IH.
Qed.

Lemma strip_prefix_append (p s rest : string) :
  Re.strip_prefix p s = Some rest -> s = p ++ rest.
Proof.
  revert s. induction p as [|a p IH]; intros s; cbn [Re.strip_prefix].
  - intros H. inversion H. reflexivity.
  - destruct s as [|b s]; [discriminate|].
    destruct (Ascii.eqb_spec a b) as [<-|_]; [|discriminate].
    intros H. cbn [append]. rewrite (IH s H). reflexivity.
Qed.

Lemma span_digits_append (s : string) :
  s = fst (Re.span_digits s) ++ snd (Re.span_digits s).
Proof.
  induction s as [|c s IH]; cbn [Re.span_digits]; [reflexivity|].
  destruct (PyStr.is_digit c); [|reflexivity].
  destruct (Re.span_digits s) as [ds rest]. cbn [fst snd append] in *.
  rewrite <- IH. reflexivity.
Qed.

Lemma prefix_of_append (p rest : string) : String.prefix p (p ++ rest) = true.
Proof.
  induction p as [|a p IH]; cbn [append String.prefix].
  - destruct rest; reflexivity.
  - destruct (ascii_dec a a) as [_|Hne]; [exact IH | contradiction Hne; reflexivity].
Qed.

(** Where the regular expression matches, the text it matched starts. *)
Lemma match_is_prefix (s g : string) :
  Re.match_setfromcsv s = Some g ->
  String.prefix ("_setfromcsv_" ++ g ++ "_") s = true.
Proof.
  unfold Re.match_setfromcsv.
  destruct (Re.strip_prefix "_setfromcsv_" s) as [[|letter rest]|] eqn:Hstrip;
    try discriminate.
  destruct (PyStr.is_letter letter); [|discriminate].
  pose proof (span_digits_append rest) as Hrest.
  destruct (Re.span_digits rest) as [[|d ds] [|u after]]; try discriminate.
  destruct (Ascii.eqb_spec u "_") as [->|_]; [|discriminate].
  intros H. inversion H. cbn [fst snd] in Hrest.
  rewrite (strip_prefix_append _ _ _ Hstrip), Hrest.
  replace ("_setfromcsv_" ++ String letter (String d ds ++ String "_" after))
    with (("_setfromcsv_" ++ String letter (String d ds) ++ "_") ++ after).
  - apply prefix_of_append.
  - cbn [append]. rewrite append_assoc. reflexivity.
Qed.

Lemma search_is_contained (file g : string) :
  Re.search_setfromcsv file = Some g ->
  PyStr.contains ("_setfromcsv_" ++ g ++ "_") file = true.
Proof.
  induction file as [|c file IH]; cbn [Re.search_setfromcsv PyStr.contains].
  - destruct (Re.match_setfromcsv "") eqn:Hm; [|discriminate].
    intros H. inversion H; subst. rewrite (match_is_prefix _ _ Hm). reflexivity.
  - destruct (Re.match_setfromcsv (String c file)) eqn:Hm.
    + intros H. inversion H; subst. rewrite (match_is_prefix _ _ Hm). reflexivity.
    + intros H. rewrite (IH H). apply orb_true_r.
Qed.

(** What one file name is reported as. *)
Lemma try_targets_report (env : Env) (root file file_path target_file : string) :
  AutoPathV10.try_targets env root file AutoPathV10.target_files
  = Some (file_path, target_file) ->
  is_marker file = true
  /\ file_path = os_path_join env root file
  /\ (target_file = "_setpath_" /\ PyStr.contains "_setpath_" file = true
      \/ target_file = "_setthispath_" /\ PyStr.contains "_setthispath_" file = true
      \/ exists letter digits,
          PyStr.is_letter letter = true /\ PyStr.isdigit digits = true
          /\ target_file = TableAddress.marker_name letter digits
          /\ PyStr.contains target_file file = true).
Proof.
  rewrite try_targets_cases. unfold is_marker.
  destruct (PyStr.contains "_setpath_" file) eqn:Hdirect.
  - intros H. inversion H. split; [reflexivity|]. split; [reflexivity|].
    left. split; reflexivity.
  - destruct (PyStr.contains "_setthispath_" file) eqn:Hlocal.
    + intros H. inversion H. split; [reflexivity|]. split; [reflexivity|].
      right. left. split; reflexivity.
    + destruct (Re.search_setfromcsv file) as [g|] eqn:Htable; [|discriminate].
      intros H. inversion H. split; [reflexivity|]. split; [reflexivity|].
      right. right.
      destruct (search_group_shape file g Htable) as [letter [digits [-> [Hl Hd]]]].
      exists letter, digits. split; [exact Hl|]. split; [exact Hd|].
      split; [reflexivity|]. exact (search_is_contained file _ Htable).
Qed.

(** A match of the scanner, traced back to the tree. *)
Lemma search_report :
  forall (env : Env) (drive : string) (cap : Z) (file_path target_file : string),
    snd (AutoPathV10.search_for_setpath_file env drive AutoPathV10.target_files cap)
    = Some (file_path, target_file) ->
    exists root files file before,
      In (root, files) (listed env drive (tree_at env drive))
      /\ In file files
      /\ is_marker file = true
      /\ file_path = os_path_join env root file
      /\ AutoPathV10.walked env drive AutoPathV10.target_files cap
         = (before ++ [(root, Examined)])%list
      /\ (target_file = "_setpath_" /\ PyStr.contains "_setpath_" file = true
          \/ target_file = "_setthispath_" /\ PyStr.contains "_setthispath_" file = true
          \/ exists letter digits,
              PyStr.is_letter letter = true /\ PyStr.isdigit digits = true
              /\ target_file = TableAddress.marker_name letter digits
              /\ PyStr.contains target_file file = true).
Proof.
  intros env drive cap file_path target_file. rewrite search_result. cbn [snd].
  intros Hreturned.
  destruct (os_walk_returned env _ _ _ _ _ Hreturned)
    as [root [files [dirs [before [Hlisted [Hbody Hvisited]]]]]].
  unfold AutoPathV10.walk_body in Hbody.
  destruct (AutoPathV10.is_system_drive env drive
            && (cap <=? AutoPathV10.depth_of env drive root)%Z)%bool; [discriminate|].
  destruct (AutoPathV10.try_files env root files AutoPathV10.target_files)
    as [found|] eqn:Hfiles; [|discriminate].
  inversion Hbody; subst found.
  destruct (try_files_in env root files _ _ Hfiles) as [file [Hin Hfile]].
  destruct (try_targets_report env root file _ _ Hfile) as [Hmarker [Hpath Htarget]].
  exists root, files, file, before.
  repeat (split; [assumption|]). exact Htarget.
Qed.

(** property X1.  The scanner reports no more than the tree holds: a match it returns
    is the path of a file that the listing of a walked directory gives,
    whose name holds the reported target; the target is [_setpath_],
    [_setthispath_] or [_setfromcsv_<letter><digits>_]; and the walk
    ended at that directory. *)
Theorem scanner_reports_a_listed_marker :
  forall (env : Env) (drive : string) (cap : Z) (file_path target_file : string),
    snd (AutoPathV10.search_for_setpath_file env drive AutoPathV10.target_files cap)
    = Some (file_path, target_file) ->
    exists root files file before,
      In (root, files) (listed env drive (tree_at env drive))
      /\ In file files
      /\ is_marker file = true
      /\ file_path = os_path_join env root file
      /\ AutoPathV10.walked env drive AutoPathV10.target_files cap
         = (before ++ [(root, Examined)])%list
      /\ (target_file = "_setpath_" /\ PyStr.contains "_setpath_" file = true
          \/ target_file = "_setthispath_" /\ PyStr.contains "_setthispath_" file = true
          \/ exists letter digits,
              PyStr.is_letter letter = true /\ PyStr.isdigit digits = true
              /\ target_file = TableAddress.marker_name letter digits
              /\ PyStr.contains target_file file = true).
Proof.
  intros env drive cap file_path target_file Hscan.
  exact (search_report env drive cap file_path target_file Hscan).
Qed.

(** On the Linux system whose [/mnt/work] holds [_setthispath_]. *)
Lemma scanner_reports_a_listed_marker_witness :
  exists root files file before,
    In (root, files)
       (listed (Examples.linux Examples.locked_sibling) "/mnt"
          (tree_at (Examples.linux Examples.locked_sibling) "/mnt"))
    /\ In file files
    /\ "/mnt/work/_setthispath_"
       = os_path_join (Examples.linux Examples.locked_sibling) root file
    /\ AutoPathV10.walked (Examples.linux Examples.locked_sibling) "/mnt"
         AutoPathV10.target_files 2
       = (before ++ [(root, Examined)])%list.
Proof.
  destruct (scanner_reports_a_listed_marker
              (Examples.linux Examples.locked_sibling) "/mnt" 2
              "/mnt/work/_setthispath_" "_setthispath_" eq_refl)
    as [root [files [file [before [Hlisted [Hin [_ [Hpath [Hwalked _]]]]]]]]].
  exists root, files, file, before.
  repeat (split; [assumption|]). exact Hwalked.
Defined.

(** ** What the scanner finds *)

Lemma try_files_some (env : Env) (root : string) (files : list string) :
  existsb is_marker files = true ->
  exists found,
    AutoPathV10.try_files env root files AutoPathV10.target_files = Some found.
Proof.
  induction files as [|f files IH]; cbn [existsb AutoPathV10.try_files]; [discriminate|].
  destruct (is_marker f) eqn:Hf.
  - intros _. destruct (try_targets_some env root f Hf) as [target ->].
    exists (os_path_join env root f, target). reflexivity.
  - cbn [orb]. intros H. rewrite (try_targets_none env root f Hf). exact (IH H).
Qed.

(** Without a cap, a walk finds a marker wherever one is. *)
Lemma walk_finds_marker (env : Env) (drive : string) (cap : Z) (t : dir) :
  AutoPathV10.is_system_drive env drive = false ->
  forall root,
    marker_depths t <> [] ->
    exists found,
      returned (os_walk env
                  (AutoPathV10.walk_body env drive AutoPathV10.target_files cap)
                  root t) = Some found.
Proof.
  intros Hdrive.
  induction t as [e | files subdirs IH] using dir_ind; intros root Hmarkers.
  - contradiction Hmarkers. reflexivity.
  - rewrite os_walk_listing. unfold AutoPathV10.walk_body at 1.
    rewrite Hdrive. cbn [andb].
    cbn [marker_depths] in Hmarkers.
    destruct (existsb is_marker files) eqn:Hfiles.
    + destruct (try_files_some env root files Hfiles) as [found ->].
      exists found. reflexivity.
    + rewrite (try_files_none env root files Hfiles). cbv zeta. cbn [returned].
      cbn [app] in Hmarkers.
      assert (Hsubs : flat_map (fun entry => marker_depths (snd entry)) subdirs <> [])
        by (intros Hnil; apply Hmarkers; rewrite Hnil; reflexivity).
      clear Hmarkers Hfiles.
      induction subdirs as [|[name sub] rest IHrest];
        [contradiction Hsubs; reflexivity|].
      inversion IH as [|entry others Hsub Hrest]; subst. cbn [snd] in Hsub.
      rewrite walk_children_cons. cbv zeta.
      destruct (returned (os_walk env _ (os_path_join env root name) sub))
        as [found|] eqn:Hfirst.
      * exists found. exact Hfirst.
      * cbn [returned]. apply IHrest; [exact Hrest|].
        cbn [flat_map snd] in Hsubs. intros Hnil. apply Hsubs.
        destruct (marker_depths sub) as [|m ms] eqn:Hsubmarkers; [exact Hnil|].
        destruct (Hsub (os_path_join env root name) ltac:(discriminate))
          as [found Hfound].
        rewrite Hfound in Hfirst. discriminate Hfirst.
Qed.

(** property X2.  On a drive that is not the system drive the scan is exhaustive: it
    comes back empty exactly when no directory of the tree that can be
    listed holds a file that a pattern matches, however deep. *)
Theorem scan_of_other_drive_is_exhaustive :
  forall (env : Env) (drive : string) (cap : Z),
    AutoPathV10.is_system_drive env drive = false ->
    (snd (AutoPathV10.search_for_setpath_file env drive AutoPathV10.target_files cap)
     = None
     <-> marker_depths (tree_at env drive) = []).
Proof.
  intros env drive cap Hdrive. rewrite search_result. cbn [snd]. split.
  - intros Hnone.
    destruct (marker_depths (tree_at env drive)) as [|m ms] eqn:Hmarkers; [reflexivity|].
    destruct (walk_finds_marker env drive cap (tree_at env drive) Hdrive drive
                ltac:(rewrite Hmarkers; discriminate)) as [found Hfound].
    rewrite Hfound in Hnone. discriminate Hnone.
  - apply walk_without_marker.
Qed.

(** On the chain [/mnt/a/b/c/d], scanned by autoPath_v1.0.py, the marker
    four levels down is found. *)
Lemma scan_of_other_drive_is_exhaustive_witness :
  marker_depths (tree_at (Examples.linux Examples.chain) "/mnt") = [4%nat]
  /\ snd (AutoPathV10.search_for_setpath_file (Examples.linux Examples.chain) "/mnt"
            AutoPathV10.target_files 2) <> None.
Proof.
  split; [reflexivity|].
  intros Hnone.
  apply (scan_of_other_drive_is_exhaustive (Examples.linux Examples.chain) "/mnt" 2
           eq_refl) in Hnone.
  discriminate Hnone.
Defined.

Section Reach.

Variable env : Env.
Variable drive : string.
Variable cap : Z.
Hypothesis drive_is_system : AutoPathV10.is_system_drive env drive = true.
Hypothesis cap_positive : (1 <= cap)%Z.

(** From a directory [k] levels below the system drive the walk finds
    nothing when every marker below lies more than [cap] levels below
    the drive ... *)
Lemma system_walk_out_of_reach (t : dir) :
  forall (k : nat) (rel : string),
    names_ok env t = true ->
    below env k rel ->
    Forall (fun m => (cap < Z.of_nat (k + m))%Z) (marker_depths t) ->
    returned (os_walk env
                (AutoPathV10.walk_body env drive AutoPathV10.target_files cap)
                (drive ++ rel) t) = None.
Proof.
  induction t as [e | files subdirs IH] using dir_ind;
    intros k rel Hnames Hrel Hmarkers.
  - reflexivity.
  - rewrite os_walk_listing. unfold AutoPathV10.walk_body at 1.
    rewrite drive_is_system, (below_depth env drive rel k Hrel). cbn [andb].
    destruct (cap <=? Z.of_nat (Nat.pred k))%Z eqn:Hdeep; [reflexivity|].
    apply Z.leb_gt in Hdeep.
    cbn [marker_depths] in Hmarkers. apply Forall_app in Hmarkers.
    destruct Hmarkers as [Hhere Hsubs].
    assert (Hfiles : existsb is_marker files = false).
    { destruct (existsb is_marker files); [|reflexivity].
      inversion Hhere; subst. lia. }
    rewrite (try_files_none env _ files Hfiles). cbv zeta. cbn [returned].
    cbn [names_ok] in Hnames. clear Hhere Hfiles Hdeep.
    induction subdirs as [|[name sub] rest IHrest]; [reflexivity|].
    rewrite walk_children_cons. cbv zeta.
    inversion IH as [|entry others Hsub Hrest]; subst.
    cbn [forallb fst snd] in Hnames.
    apply andb_true_iff in Hnames. destruct Hnames as [Hentry Hnames].
    apply andb_true_iff in Hentry. destruct Hentry as [Hname Hsubnames].
    cbn [flat_map snd] in Hsubs. rewrite map_app in Hsubs.
    apply Forall_app in Hsubs. destruct Hsubs as [Hfirst Hothers].
    rewrite (system_join env drive drive_is_system rel name k Hname Hrel).
    cbn [snd] in Hsub.
    rewrite (Hsub (S k) _ Hsubnames (below_step env rel name k Hname Hrel)).
    + cbn [returned]. apply IHrest; assumption.
    + apply (proj1 (Forall_map S (fun m => (cap < Z.of_nat (k + m))%Z)
                      (marker_depths sub))) in Hfirst.
      revert Hfirst. apply Forall_impl. intros m Hm.
      replace (S k + m)%nat with (k + S m)%nat by lia. exact Hm.
Qed.

(** ... and finds one when a marker lies within [cap] levels. *)
Lemma system_walk_in_reach (t : dir) :
  forall (k : nat) (rel : string),
    names_ok env t = true ->
    below env k rel ->
    Exists (fun m => (Z.of_nat (k + m) <= cap)%Z) (marker_depths t) ->
    exists found,
      returned (os_walk env
                  (AutoPathV10.walk_body env drive AutoPathV10.target_files cap)
                  (drive ++ rel) t) = Some found.
Proof.
  induction t as [e | files subdirs IH] using dir_ind;
    intros k rel Hnames Hrel Hmarkers.
  - inversion Hmarkers.
  - rewrite os_walk_listing. unfold AutoPathV10.walk_body at 1.
    rewrite drive_is_system, (below_depth env drive rel k Hrel). cbn [andb].
    assert (Hk : (Z.of_nat k <= cap)%Z).
    { apply Exists_exists in Hmarkers. destruct Hmarkers as [m [_ Hm]]. lia. }
    replace (cap <=? Z.of_nat (Nat.pred k))%Z with false
      by (symmetry; apply Z.leb_gt; destruct k; cbn [Nat.pred]; lia).
    cbn [marker_depths] in Hmarkers.
    destruct (existsb is_marker files) eqn:Hfiles.
    + destruct (try_files_some env (drive ++ rel) files Hfiles) as [found ->].
      exists found. reflexivity.
    + rewrite (try_files_none env _ files Hfiles). cbv zeta. cbn [returned].
      cbn [app] in Hmarkers. cbn [names_ok] in Hnames. clear Hfiles Hk.
      induction subdirs as [|[name sub] rest IHrest]; [inversion Hmarkers|].
      inversion IH as [|entry others Hsub Hrest]; subst. cbn [snd] in Hsub.
      cbn [forallb fst snd] in Hnames.
      apply andb_true_iff in Hnames. destruct Hnames as [Hentry Hnames].
      apply andb_true_iff in Hentry. destruct Hentry as [Hname Hsubnames].
      rewrite walk_children_cons. cbv zeta.
      rewrite (system_join env drive drive_is_system rel name k Hname Hrel).
      destruct (returned (os_walk env _ _ sub)) as [found|] eqn:Hfirst.
      * exists found. exact Hfirst.
      * cbn [returned]. apply IHrest; [exact Hrest | exact Hnames |].
        cbn [flat_map snd] in Hmarkers. rewrite map_app in Hmarkers.
        apply Exists_app in Hmarkers. destruct Hmarkers as [Hhere | Hthere];
          [|exact Hthere].
        exfalso.
        destruct (Hsub (S k) _ Hsubnames (below_step env rel name k Hname Hrel))
          as [found Hfound].
        -- apply Exists_exists in Hhere. destruct Hhere as [m [Hin Hm]].
           apply in_map_iff in Hin. destruct Hin as [m' [<- Hin']].
           apply Exists_exists. exists m'. split; [exact Hin'|].
           replace (S k + m')%nat with (k + S m')%nat by lia. exact Hm.
        -- rewrite Hfound in Hfirst. discriminate Hfirst.
Qed.

End Reach.

(** property X3.  On the system drive the cap is exact: with [max_system_depth] at 1
    or more and directory names of the platform, the scan finds a
    marker if and only if one lies in a directory [max_system_depth]
    levels below the drive at most (the drive itself being level 0). *)
Theorem scan_of_system_drive_reaches_cap_levels :
  forall (env : Env) (drive : string) (cap : Z),
    AutoPathV10.is_system_drive env drive = true ->
    (1 <= cap)%Z ->
    names_ok env (tree_at env drive) = true ->
    ((exists found,
         snd (AutoPathV10.search_for_setpath_file env drive
                AutoPathV10.target_files cap) = Some found)
     <-> Exists (fun m => (Z.of_nat m <= cap)%Z) (marker_depths (tree_at env drive))).
Proof.
  intros env drive cap Hdrive Hcap Hnames. rewrite search_result. cbn [snd].
  split.
  - intros [found Hfound].
    destruct (Exists_dec (fun m => (Z.of_nat m <= cap)%Z)
                (marker_depths (tree_at env drive))
                (fun m => Z_le_dec (Z.of_nat m) cap)) as [Hyes | Hno]; [exact Hyes|].
    exfalso.
    pose proof (system_walk_out_of_reach env drive cap Hdrive Hcap (tree_at env drive)
                  0 "" Hnames eq_refl) as Hnone.
    rewrite append_empty_r in Hnone. rewrite Hnone in Hfound; [discriminate Hfound|].
    apply Forall_forall. intros m Hm.
    cbn [Nat.add].
    destruct (Z_le_dec (Z.of_nat m) cap) as [Hle|Hgt]; [|lia].
    exfalso. apply Hno. apply Exists_exists. exists m. split; assumption.
  - intros Hmarkers.
    pose proof (system_walk_in_reach env drive cap Hdrive Hcap (tree_at env drive)
                  0 "" Hnames eq_refl Hmarkers) as Hfound.
    rewrite append_empty_r in Hfound. exact Hfound.
Qed.

(** On the Linux system with a marker two levels below [/], the scan of
    [/] finds it. *)
Lemma scan_of_system_drive_reaches_cap_levels_witness :
  exists found,
    snd (AutoPathV10.search_for_setpath_file (Examples.linux Examples.shallow_marker)
           "/" AutoPathV10.target_files 2) = Some found.
Proof.
  apply (scan_of_system_drive_reaches_cap_levels
           (Examples.linux Examples.shallow_marker) "/" 2 eq_refl).
  - lia.
  - reflexivity.
  - apply Exists_cons_hd. cbn. lia.
Defined.

(** ** The table lookup *)

Lemma int_raises_value_error (s : string) (e : exn) :
  PyStr.int s = Raise e -> e = ValueError.
Proof.
  unfold PyStr.int.
  match goal with |- match ?parsed with Some _ => _ | None => _ end = _ -> _ =>
    destruct parsed end; [discriminate|].
  intros H. inversion H. reflexivity.
Qed.

Lemma cell_address_raises (cell : string) (e : exn) :
  AutoPathV10.cell_address cell = Raise e -> e = ValueError \/ e = IndexError.
Proof.
  unfold AutoPathV10.cell_address.
  destruct (PyStr.int (PyStr.drop 1 cell)) as [n|e'] eqn:Hint; cbn [bind].
  - destruct cell as [|c cell]; cbn [bind]; [|discriminate].
    intros H. inversion H. right. reflexivity.
  - intros H. inversion H; subst. left. exact (int_raises_value_error _ _ Hint).
Qed.

(** [int] passes over blanks but not over the separator 0x1c, which
    [str.strip] takes off; and a row number of 2 ** 63 + 1 ends the
    lookup with an [OverflowError] that nothing catches, where one the
    table does not have gives [None]. *)
Example int_white_space_and_row_overflow :
  PyStr.int " 3 " = Ok 3%Z
  /\ PyStr.int (String (ascii_of_nat 28) "3") = Raise ValueError
  /\ PyStr.strip (String (ascii_of_nat 28) "3") = "3"
  /\ (let env := Examples.linux_with_table Examples.table_b5 Examples.archive_rows in
      AutoPathV10.read_path_from_csv env "paths.csv" "A9223372036854775809"
      = ([], Raise OverflowError)
      /\ AutoPathV10.read_path_from_csv env "paths.csv" "A9223372036854775808"
         = ([CsvErrorMsg "paths.csv" "A9223372036854775808"], Ok None)
      /\ AutoPathV10.read_path_from_csv env "paths.csv" "A0"
         = ([], Ok (Some (Str "a5")))).
Proof. repeat split; vm_compute; reflexivity. Qed.

Lemma axis_index_raises (n : nat) (i : Z) (e : exn) :
  axis_index n i = Raise e ->
  e = IndexError \/ (e = OverflowError /\ (i < - 2 ^ 63 \/ 2 ^ 63 <= i)%Z).
Proof.
  unfold axis_index.
  destruct ((i <? - 2 ^ 63) || (2 ^ 63 <=? i))%Z%bool eqn:Hlong.
  - intros H. inversion H. right. split; [reflexivity|].
    apply orb_true_iff in Hlong. destruct Hlong as [Hlow | Hhigh].
    + left. apply Z.ltb_lt, Hlow.
    + right. apply Z.leb_le, Hhigh.
  - match goal with |- context [if ?b then Ok _ else _] => destruct b end;
      [discriminate|].
    intros H. inversion H. left. reflexivity.
Qed.

(** The column [cell_address] computes is that of a character. *)
Lemma cell_address_column (cell : string) (row col : Z) :
  AutoPathV10.cell_address cell = Ok (row, col) -> (- 65 <= col <= 190)%Z.
Proof.
  unfold AutoPathV10.cell_address.
  destruct (PyStr.int (PyStr.drop 1 cell)) as [n|e]; cbn [bind]; [|discriminate].
  destruct cell as [|c cell]; cbn [bind]; [discriminate|].
  intros H. inversion H. clear.
  change (PyStr.ord "A") with 65%Z. unfold PyStr.ord.
  pose proof (nat_ascii_bounded (PyStr.upper_char c)). lia.
Qed.

(** Where [df.iat] fails for an address that [cell_address] gave. *)
Lemma iat_raises (df : DataFrame) (cell : string) (row col : Z) (e : exn) :
  AutoPathV10.cell_address cell = Ok (row, col) ->
  iat df row col = Raise e ->
  e = IndexError \/ (e = OverflowError /\ (row < - 2 ^ 63 \/ 2 ^ 63 <= row)%Z).
Proof.
  intros Haddress. apply cell_address_column in Haddress. unfold iat.
  destruct (axis_index (n_cols df) col) as [c|e0] eqn:Hcol; cbn [bind].
  - destruct (axis_index (n_rows df) row) as [r|e1] eqn:Hrow; cbn [bind]; [discriminate|].
    intros H. inversion H; subst e1. exact (axis_index_raises _ _ _ Hrow).
  - intros H. inversion H; subst e0.
    destruct (axis_index_raises _ _ _ Hcol) as [-> | [_ Hlong]]; [left; reflexivity|].
    exfalso. lia.
Qed.

(** property X4.  [read_path_from_csv] turns a missing file, a cell
    reference that is no letter followed by a number, and a cell outside
    the table into the answer [None] with its line of explanation.  An
    exception that leaves it is none of the three it catches: it is one
    that reading the file raised, or the [OverflowError] of [df.iat] for
    a row number that does not fit a C [long].  A value it returns is
    the cell of the table at the address of the reference, and nothing
    is printed. *)
Theorem read_path_from_csv_outcomes :
  forall (env : Env) (csv_file cell : string),
    (forall e,
        snd (AutoPathV10.read_path_from_csv env csv_file cell) = Raise e ->
        e <> FileNotFoundError /\ e <> ValueError /\ e <> IndexError
        /\ (read_csv env csv_file = Raise e
            \/ e = OverflowError
               /\ exists df row col,
                   read_csv env csv_file = Ok df
                   /\ AutoPathV10.cell_address cell = Ok (row, col)
                   /\ iat df row col = Raise OverflowError
                   /\ (row < - 2 ^ 63 \/ 2 ^ 63 <= row)%Z))
    /\ (forall v,
          snd (AutoPathV10.read_path_from_csv env csv_file cell) = Ok (Some v) ->
          fst (AutoPathV10.read_path_from_csv env csv_file cell) = []
          /\ exists df row col,
              read_csv env csv_file = Ok df
              /\ AutoPathV10.cell_address cell = Ok (row, col)
              /\ iat df row col = Ok v)
    /\ (snd (AutoPathV10.read_path_from_csv env csv_file cell) = Ok None ->
        fst (AutoPathV10.read_path_from_csv env csv_file cell)
        = [CsvErrorMsg csv_file cell]
        /\ (read_csv env csv_file = Raise FileNotFoundError
            \/ read_csv env csv_file = Raise ValueError
            \/ read_csv env csv_file = Raise IndexError
            \/ exists df,
                read_csv env csv_file = Ok df
                /\ (AutoPathV10.cell_address cell = Raise ValueError
                    \/ AutoPathV10.cell_address cell = Raise IndexError
                    \/ exists row col,
                        AutoPathV10.cell_address cell = Ok (row, col)
                        /\ iat df row col = Raise IndexError))).
Proof.
  intros env csv_file cell. unfold AutoPathV10.read_path_from_csv.
  destruct (read_csv env csv_file) as [df|e0] eqn:Hcsv; cbn [bind].
  - destruct (AutoPathV10.cell_address cell) as [[row col]|e1] eqn:Haddress; cbn [bind fst snd].
    + destruct (iat df row col) as [v|e2] eqn:Hcell; cbn [fst snd].
      * split; [discriminate|]. split; [|discriminate].
        intros v' Hv. inversion Hv; subst v'. split; [reflexivity|].
        exists df, row, col. repeat split; assumption.
      * destruct (iat_raises df cell row col e2 Haddress Hcell) as [-> | [-> Hlong]];
          cbn [fst snd].
        -- split; [discriminate|]. split; [discriminate|].
           intros _. split; [reflexivity|].
           right. right. right. exists df. split; [reflexivity|].
           right. right. exists row, col. split; [reflexivity | exact Hcell].
        -- split; [|split; discriminate].
           intros e He. inversion He; subst e.
           repeat (split; [discriminate|]).
           right. split; [reflexivity|].
           exists df, row, col. repeat split; try assumption; reflexivity.
    + destruct (cell_address_raises cell e1 Haddress) as [-> | ->]; cbn [fst snd].
      * split; [discriminate|]. split; [discriminate|].
        intros _. split; [reflexivity|].
        right. right. right. exists df. split; [reflexivity|]. left. reflexivity.
      * split; [discriminate|]. split; [discriminate|].
        intros _. split; [reflexivity|].
        right. right. right. exists df. split; [reflexivity|]. right. left. reflexivity.
  - destruct e0; cbn [fst snd];
      (split; [intros e He; inversion He; subst;
               repeat (split; [discriminate|]); left; reflexivity
              | split; [discriminate|]]);
      try discriminate;
      intros _; (split; [reflexivity|]); tauto.
Qed.

Lemma index_of_bound (c : ascii) (s : string) (i : nat) :
  TableAddress.index_of c s = Some i -> (i < String.length s)%nat.
Proof.
  revert i. induction s as [|a s IH]; intros i; cbn [TableAddress.index_of String.length].
  - discriminate.
  - destruct (Ascii.eqb a c).
    + intros H. inversion H. lia.
    + destruct (TableAddress.index_of c s) as [j|]; [|discriminate].
      cbn [option_map]. intros H. inversion H. specialize (IH j eq_refl). lia.
Qed.

Lemma column_of_bound (letter : ascii) (column : nat) :
  TableAddress.column_of letter = Some column -> (column < 26)%nat.
Proof.
  unfold TableAddress.column_of.
  destruct (TableAddress.index_of letter "ABCDEFGHIJKLMNOPQRSTUVWXYZ") as [i|] eqn:Hupper.
  - intros H. inversion H; subst. exact (index_of_bound _ _ _ Hupper).
  - intros H. exact (index_of_bound _ _ _ H).
Qed.

(** property X5.  The scanner and the converter fit together: a target
    the scanner reports that is none of the two literal markers is a
    table marker whose cell reference the converter can always read, as
    a column from 0 to 25 and a row from -1 upwards (the row -1 for the
    digits [0]).  The conversion can therefore fail on the table only:
    with a table loaded, it gives the cell [df.iat] finds at that
    address, or [None] with the line of explanation where [df.iat]
    raises [IndexError]; beyond that only the [OverflowError] of a row
    number of 2 ** 63 or more is left, which nothing catches. *)
Theorem reported_table_target_has_an_address :
  forall (env : Env) (drive : string) (cap : Z)
         (file_path target_file csv_file : string) (df : DataFrame),
    snd (AutoPathV10.search_for_setpath_file env drive AutoPathV10.target_files cap)
    = Some (file_path, target_file) ->
    target_file <> "_setpath_" ->
    target_file <> "_setthispath_" ->
    read_csv env csv_file = Ok df ->
    exists (letter : ascii) (digits : string) (column n : nat),
      target_file = TableAddress.marker_name letter digits
      /\ TableAddress.column_of letter = Some column
      /\ TableAddress.decimal_value 0 digits = Some n
      /\ (column < 26)%nat
      /\ AutoPathV10.cell_address (String (PyStr.upper_char letter) digits)
         = Ok (Z.of_nat n - 1, Z.of_nat column)%Z
      /\ AutoPathV10.set_path_based_on_file env drive file_path target_file csv_file
         = match iat df (Z.of_nat n - 1) (Z.of_nat column) with
           | Ok v => ([], Ok (Some v))
           | Raise IndexError =>
               ([CsvErrorMsg csv_file (String (PyStr.upper_char letter) digits)], Ok None)
           | Raise e => ([], Raise e)
           end
      /\ (forall e,
            iat df (Z.of_nat n - 1) (Z.of_nat column) = Raise e ->
            e = IndexError \/ (e = OverflowError /\ (2 ^ 63 <= Z.of_nat n - 1)%Z)).
Proof.
  intros env drive cap file_path target_file csv_file df Hscan Hdirect Hlocal Hcsv.
  destruct (search_report env drive cap _ _ Hscan)
    as [root [files [file [before [_ [_ [_ [_ [_ Htarget]]]]]]]]].
  destruct Htarget as [[Ht _] | [[Ht _] | [letter [digits [Hletter [Hdigits [Ht _]]]]]]];
    [contradiction | contradiction |].
  destruct (table_cell_address letter digits Hletter Hdigits)
    as [column [row [Hcolumn [Hrow Haddress]]]].
  unfold TableAddress.row_of in Hrow.
  destruct (TableAddress.decimal_value 0 digits) as [n|] eqn:Hn; [|discriminate Hrow].
  cbn [option_map] in Hrow. inversion Hrow; subst row.
  exists letter, digits, column, n.
  split; [exact Ht|]. split; [exact Hcolumn|]. split; [exact Hn|].
  split; [exact (column_of_bound _ _ Hcolumn)|]. split; [exact Haddress|].
  assert (Hraises : forall e,
             iat df (Z.of_nat n - 1) (Z.of_nat column) = Raise e ->
             e = IndexError \/ (e = OverflowError /\ (2 ^ 63 <= Z.of_nat n - 1)%Z)).
  { intros e He.
    destruct (iat_raises df _ _ _ e Haddress He) as [-> | [-> [Hlow | Hhigh]]];
      [left; reflexivity | exfalso; lia | right; split; [reflexivity | exact Hhigh]]. }
  split; [|exact Hraises].
  rewrite Ht, (table_name_conversion letter digits Hletter Hdigits).
  unfold AutoPathV10.read_path_from_csv. rewrite Hcsv. cbn [bind].
  rewrite Haddress. cbn [bind fst snd].
  destruct (iat df (Z.of_nat n - 1) (Z.of_nat column)) as [v|e] eqn:Hcell;
    [reflexivity|].
  destruct (Hraises e eq_refl) as [-> | [-> _]]; reflexivity.
Qed.

(** The marker [_setfromcsv_b5_] of [/media] and the table of
    [Examples.archive_rows]. *)
Lemma reported_table_target_has_an_address_witness :
  exists (letter : ascii) (digits : string) (column n : nat),
    "_setfromcsv_b5_" = TableAddress.marker_name letter digits
    /\ TableAddress.column_of letter = Some column
    /\ TableAddress.decimal_value 0 digits = Some n
    /\ (column < 26)%nat.
Proof.
  destruct (reported_table_target_has_an_address
              (Examples.linux_with_table Examples.table_b5 Examples.archive_rows)
              "/media" 2 "/media/_setfromcsv_b5_" "_setfromcsv_b5_" "paths.csv"
              (Fixture.table Examples.archive_rows)
              eq_refl ltac:(discriminate) ltac:(discriminate) eq_refl)
    as [letter [digits [column [n [Ht [Hc [Hn [Hb _]]]]]]]].
  exists letter, digits, column, n. repeat split; assumption.
Defined.

(** ** The directory of a local marker *)

Lemma head_without_sep (is_sep : ascii -> bool) (s : string) :
  PyStr.all_chars (fun c => negb (is_sep c)) s = true ->
  OsPath.head_to_last_sep is_sep s = "".
Proof.
  induction s as [|c s IH]; cbn [PyStr.all_chars OsPath.head_to_last_sep]; [reflexivity|].
  intros H. apply andb_true_iff in H. destruct H as [Hc Hs].
  rewrite (IH Hs). apply negb_true_iff in Hc. rewrite Hc. reflexivity.
Qed.

(** The head of a path that ends with a separator and a name is the
    path up to that separator. *)
Lemma head_before_name (is_sep : ascii -> bool) (a : string) (sep : ascii)
    (name : string) :
  is_sep sep = true ->
  PyStr.all_chars (fun c => negb (is_sep c)) name = true ->
  OsPath.head_to_last_sep is_sep (a ++ String sep name) = a ++ String sep "".
Proof.
  intros Hsep Hname.
  induction a as [|c a IH]; cbn [append OsPath.head_to_last_sep].
  - rewrite (head_without_sep is_sep name Hname), Hsep. reflexivity.
  - rewrite IH. destruct a; reflexivity.
Qed.

Lemma rstrip_seps_keeps (is_sep : ascii -> bool) (s : string) :
  OsPath.ends_with is_sep s = false -> OsPath.rstrip_seps is_sep s = s.
Proof.
  induction s as [|c s IH]; cbn [OsPath.ends_with OsPath.rstrip_seps]; [reflexivity|].
  destruct s as [|d s].
  - cbn [OsPath.rstrip_seps]. intros ->. reflexivity.
  - intros H. rewrite (IH H). reflexivity.
Qed.

Lemma rstrip_seps_one (is_sep : ascii -> bool) (s : string) (sep : ascii) :
  is_sep sep = true ->
  OsPath.ends_with is_sep s = false ->
  OsPath.rstrip_seps is_sep (s ++ String sep "") = s.
Proof.
  intros Hsep.
  induction s as [|c s IH]; cbn [append OsPath.rstrip_seps OsPath.ends_with].
  - rewrite Hsep. reflexivity.
  - destruct s as [|d s].
    + cbn [append OsPath.rstrip_seps]. rewrite Hsep. intros ->. reflexivity.
    + intros H. rewrite (IH H). reflexivity.
Qed.

Lemma all_seps_ends (is_sep : ascii -> bool) (s : string) :
  s <> "" -> PyStr.all_chars is_sep s = true -> OsPath.ends_with is_sep s = true.
Proof.
  induction s as [|c s IH]; [intros H; contradiction H; reflexivity|].
  intros _. cbn [PyStr.all_chars OsPath.ends_with]. intros H.
  apply andb_true_iff in H. destruct H as [Hc Hs].
  destruct s; [exact Hc | apply IH; [discriminate | exact Hs]].
Qed.

Lemma all_chars_append (p : ascii -> bool) (a b : string) :
  PyStr.all_chars p (a ++ b) = (PyStr.all_chars p a && PyStr.all_chars p b)%bool.
Proof.
  induction a as [|c a IH]; cbn [append PyStr.all_chars]; [reflexivity|].
  rewrite IH, andb_assoc. reflexivity.
Qed.

(** A string that ends with a separator is a string followed by that
    separator. *)
Lemma ends_with_split (is_sep : ascii -> bool) (s : string) :
  OsPath.ends_with is_sep s = true ->
  exists front sep, s = front ++ String sep "" /\ is_sep sep = true.
Proof.
  induction s as [|c s IH]; cbn [OsPath.ends_with]; [discriminate|].
  destruct s as [|d s].
  - intros H. exists "", c. split; [reflexivity | exact H].
  - intros H. destruct (IH H) as [front [sep [Hs Hsep]]].
    exists (String c front), sep. cbn [append]. rewrite <- Hs. split; [reflexivity | exact Hsep].
Qed.

Section PosixDirname.

Variable env : Env.
Hypothesis posix : is_windows env = false.

Lemma posix_name_chars (name : string) :
  name_ok env name = true ->
  PyStr.all_chars (fun c => negb (OsPath.posix_is_sep c)) name = true.
Proof.
  intros H. pose proof (name_ok_chars env name H) as Hchars.
  unfold forbidden in Hchars. rewrite posix in Hchars. exact Hchars.
Qed.

(** On a POSIX system the directory of a file joined to a directory is
    that directory. *)
Lemma posix_dirname_join (root name : string) :
  posix_root_ok root = true ->
  name_ok env name = true ->
  OsPath.posix_dirname (OsPath.posix_join root name) = root.
Proof.
  intros Hroot Hname. unfold posix_root_ok in Hroot.
  apply andb_true_iff in Hroot. destruct Hroot as [Hnonempty Hshape].
  apply negb_true_iff in Hnonempty.
  assert (Hne : root <> "") by (apply String.eqb_neq; exact Hnonempty).
  rewrite (posix_join_name env root name posix Hname), Hnonempty. cbn [orb].
  pose proof (posix_name_chars name Hname) as Hchars.
  unfold OsPath.posix_dirname.
  destruct (OsPath.ends_with OsPath.posix_is_sep root) eqn:Hends.
  - (* the root is made of separators *)
    assert (Hall : PyStr.all_chars OsPath.posix_is_sep root = true).
    { apply orb_true_iff in Hshape. destruct Hshape as [H|H]; [exact H | discriminate H]. }
    assert (Hhead : OsPath.head_to_last_sep OsPath.posix_is_sep (root ++ name) = root).
    { destruct (ends_with_split _ root Hends) as [front [sep [Hsplit Hsep]]].
      rewrite Hsplit, append_assoc. cbn [append].
      apply (head_before_name _ front sep name Hsep Hchars). }
    cbv iota. cbv zeta. rewrite Hhead, Hall. reflexivity.
  - change (root ++ "/" ++ name) with (root ++ String "/" name).
    rewrite (head_before_name _ root "/" name eq_refl Hchars).
    rewrite all_chars_append.
    replace (PyStr.all_chars OsPath.posix_is_sep root) with false.
    + cbn [andb]. apply rstrip_seps_one; [reflexivity | exact Hends].
    + symmetry. destruct (PyStr.all_chars OsPath.posix_is_sep root) eqn:Hall;
        [|reflexivity].
      rewrite (all_seps_ends _ root Hne Hall) in Hends. discriminate Hends.
Qed.

(** One level down, the path is still one that [join] extends with a
    separator. *)
Lemma posix_root_ok_join (root name : string) :
  name_ok env name = true ->
  posix_root_ok (OsPath.posix_join root name) = true.
Proof.
  intros Hname.
  pose proof (name_ok_nonempty env name Hname) as Hne.
  pose proof (name_ok_ends_with env name Hname) as Hend.
  unfold is_sep in Hend. rewrite posix in Hend.
  assert (Hend' : OsPath.ends_with OsPath.posix_is_sep name = false) by exact Hend.
  rewrite (posix_join_name env root name posix Hname).
  unfold posix_root_ok.
  destruct (String.eqb root "" || OsPath.ends_with OsPath.posix_is_sep root)%bool.
  - rewrite (ends_with_append _ root name Hne), Hend'.
    rewrite orb_true_r, andb_true_r. apply negb_true_iff, String.eqb_neq.
    destruct root; [exact Hne | discriminate].
  - change (root ++ "/" ++ name) with (root ++ String "/" name).
    rewrite (ends_with_append _ root (String "/" name) ltac:(discriminate)).
    cbn [OsPath.ends_with]. destruct name as [|c name]; [contradiction Hne; reflexivity|].
    fold (OsPath.ends_with OsPath.posix_is_sep (String c name)). rewrite Hend'.
    rewrite orb_true_r, andb_true_r. apply negb_true_iff, String.eqb_neq.
    destruct root; discriminate.
Qed.

(** Every directory of a walk from a drive in that form is in that form. *)
Lemma listed_roots_ok (t : dir) :
  forall top,
    posix_root_ok top = true ->
    names_ok env t = true ->
    Forall (fun d => posix_root_ok (fst d) = true) (listed env top t).
Proof.
  induction t as [e | files subdirs IH] using dir_ind; intros top Htop Hnames.
  - constructor.
  - cbn [listed]. constructor; [exact Htop|].
    cbn [names_ok] in Hnames.
    induction subdirs as [|[name sub] rest IHrest]; [constructor|].
    inversion IH as [|entry others Hsub Hrest]; subst. cbn [snd] in Hsub.
    cbn [forallb fst snd] in Hnames.
    apply andb_true_iff in Hnames. destruct Hnames as [Hentry Hnames].
    apply andb_true_iff in Hentry. destruct Hentry as [Hname Hsubnames].
    cbn [flat_map fst snd]. apply Forall_app. split.
    + apply Hsub; [|exact Hsubnames].
      unfold os_path_join. rewrite posix. apply posix_root_ok_join, Hname.
    + apply IHrest; assumption.
Qed.

Lemma listed_files_ok (t : dir) :
  forall top,
    files_ok env t = true ->
    Forall (fun d => forallb (name_ok env) (snd d) = true) (listed env top t).
Proof.
  induction t as [e | files subdirs IH] using dir_ind; intros top Hfiles.
  - constructor.
  - cbn [listed]. cbn [files_ok] in Hfiles.
    apply andb_true_iff in Hfiles. destruct Hfiles as [Hhere Hsubs].
    constructor; [exact Hhere|]. clear Hhere.
    induction subdirs as [|[name sub] rest IHrest]; [constructor|].
    inversion IH as [|entry others Hsub Hrest]; subst. cbn [snd] in Hsub.
    cbn [forallb snd] in Hsubs.
    apply andb_true_iff in Hsubs. destruct Hsubs as [Hfirst Hothers].
    cbn [flat_map fst snd]. apply Forall_app. split.
    + apply Hsub, Hfirst.
    + apply IHrest; assumption.
Qed.

End PosixDirname.

(** property X6.  On a POSIX system, a local marker resolves to the directory that
    holds it: when the scan of a drive reports [_setthispath_], the
    conversion gives the walked directory whose listing has the marker
    file.  The drive is a path in normal form and the names of the tree
    are names of the platform. *)
Theorem local_marker_resolves_to_its_directory :
  forall (env : Env) (drive : string) (cap : Z) (file_path csv_file : string),
    is_windows env = false ->
    posix_root_ok drive = true ->
    names_ok env (tree_at env drive) = true ->
    files_ok env (tree_at env drive) = true ->
    snd (AutoPathV10.search_for_setpath_file env drive AutoPathV10.target_files cap)
    = Some (file_path, "_setthispath_") ->
    exists root files file,
      In (root, files) (listed env drive (tree_at env drive))
      /\ In file files
      /\ file_path = os_path_join env root file
      /\ AutoPathV10.set_path_based_on_file env drive file_path "_setthispath_" csv_file
         = ([], Ok (Some (Str root))).
Proof.
  intros env drive cap file_path csv_file Hposix Hdrive Hnames Hfiles Hscan.
  destruct (search_report env drive cap _ _ Hscan)
    as [root [files [file [before [Hlisted [Hin [_ [Hpath _]]]]]]]].
  exists root, files, file.
  split; [exact Hlisted|]. split; [exact Hin|]. split; [exact Hpath|].
  pose proof (listed_roots_ok env Hposix (tree_at env drive) drive Hdrive Hnames) as Hroots.
  pose proof (listed_files_ok env (tree_at env drive) drive Hfiles) as Hfile_names.
  rewrite Forall_forall in Hroots, Hfile_names.
  specialize (Hroots _ Hlisted). specialize (Hfile_names _ Hlisted).
  cbn [fst snd] in Hroots, Hfile_names.
  rewrite forallb_forall in Hfile_names. specialize (Hfile_names _ Hin).
  unfold AutoPathV10.set_path_based_on_file, os_path_dirname.
  change (String.eqb "_setthispath_" "_setpath_") with false.
  change (String.eqb "_setthispath_" "_setthispath_") with true.
  cbv iota. rewrite Hposix, Hpath. unfold os_path_join. rewrite Hposix.
  rewrite (posix_dirname_join env Hposix root file Hroots Hfile_names). reflexivity.
Qed.

(** The marker of [/mnt/work] resolves to [/mnt/work]. *)
Lemma local_marker_resolves_to_its_directory_witness :
  exists root files file,
    In (root, files)
       (listed (Examples.linux Examples.locked_sibling) "/mnt"
          (tree_at (Examples.linux Examples.locked_sibling) "/mnt"))
    /\ In file files
    /\ AutoPathV10.set_path_based_on_file (Examples.linux Examples.locked_sibling)
         "/mnt" "/mnt/work/_setthispath_" "_setthispath_" "paths.csv"
       = ([], Ok (Some (Str root))).
Proof.
  destruct (local_marker_resolves_to_its_directory
              (Examples.linux Examples.locked_sibling) "/mnt" 2
              "/mnt/work/_setthispath_" "paths.csv"
              eq_refl eq_refl eq_refl eq_refl eq_refl)
    as [root [files [file [Hlisted [Hin [_ Hconv]]]]]].
  exists root, files, file. repeat split; assumption.
Defined.

(** ** The enumerated volumes *)

Lemma filter_filter_length {A : Type} (p q : A -> bool) (l : list A) :
  (List.length (filter p (filter q l)) <= List.length (filter p l))%nat.
Proof.
  induction l as [|x l IH]; cbn [filter]; [lia|].
  destruct (q x); cbn [filter]; destruct (p x); cbn [List.length]; lia.
Qed.


Lemma drive_roots_nodup : NoDup (drive_roots 65 26).
Proof.
  unfold drive_roots.
  apply Finite.Injective_map_NoDup_in; [|apply seq_NoDup].
  intros x y Hx Hy H. apply in_seq in Hx. apply in_seq in Hy.
  inversion H as [Hcode].
  rewrite <- (nat_ascii_embedding x), <- (nat_ascii_embedding y) by lia.
  rewrite Hcode. reflexivity.
Qed.

Section Volumes.

Variable env : Env.


Lemma drives_nodup : NoDup (AutoPathV10.get_available_drives env).
Proof.
  unfold AutoPathV10.get_available_drives.
  destruct (String.eqb (platform_system env) "Windows") eqn:Hwindows.
  - apply String.eqb_eq in Hwindows. rewrite Hwindows. cbn [String.eqb orb].
    change (String.eqb "Windows" "Linux") with false.
    change (String.eqb "Windows" "Darwin") with false. cbn [orb].
    apply NoDup_filter, drive_roots_nodup.
  - destruct (String.eqb (platform_system env) "Linux").
    + cbn [orb app]. repeat constructor; cbn; intuition discriminate.
    + destruct (String.eqb (platform_system env) "Darwin").
      * cbn [orb app]. repeat constructor; cbn; intuition discriminate.
      * cbn [orb]. constructor.
Qed.

Lemma system_drives_bound :
  (List.length (filter (AutoPathV10.is_system_drive env)
                  (AutoPathV10.get_available_drives env)) <= 1)%nat.
Proof.
  unfold AutoPathV10.get_available_drives.
  destruct (String.eqb (platform_system env) "Windows") eqn:Hwindows.
  - assert (Hsystem : forall l,
               filter (AutoPathV10.is_system_drive env) l
               = filter (fun d => String.eqb (PyStr.lower d) "c:\") l).
    { intros l. apply filter_ext. intros d.
      unfold AutoPathV10.is_system_drive. rewrite Hwindows. reflexivity. }
    apply String.eqb_eq in Hwindows. rewrite Hwindows.
    change (String.eqb "Windows" "Linux") with false.
    change (String.eqb "Windows" "Darwin") with false. cbn [orb].
    rewrite Hsystem.
    eapply Nat.le_trans; [apply filter_filter_length|].
    vm_compute. lia.
  - assert (Hsystem : forall l,
               (String.eqb (platform_system env) "Linux"
                || String.eqb (platform_system env) "Darwin")%bool = true ->
               filter (AutoPathV10.is_system_drive env) l
               = filter (fun d => String.eqb d "/") l).
    { intros l Hposix. apply filter_ext. intros d.
      unfold AutoPathV10.is_system_drive. rewrite Hwindows, Hposix. reflexivity. }
    destruct (String.eqb (platform_system env) "Linux") eqn:Hlinux.
    + cbn [orb]. rewrite Hsystem by reflexivity. vm_compute. lia.
    + destruct (String.eqb (platform_system env) "Darwin") eqn:Hdarwin.
      * cbn [orb]. rewrite Hsystem by reflexivity. vm_compute. lia.
      * cbn [orb filter List.length]. lia.
Qed.


End Volumes.

(** property X7.  Whatever the platform and whichever drives exist, the enumeration
    names no volume twice and at most one of its volumes is the system
    drive. *)
Theorem enumeration_has_one_system_drive_at_most :
  forall env : Env,
    NoDup (AutoPathV10.get_available_drives env)
    /\ (List.length (filter (AutoPathV10.is_system_drive env)
                       (AutoPathV10.get_available_drives env)) <= 1)%nat.
Proof.
  intros env. split; [apply drives_nodup | apply system_drives_bound].
Qed.



(** ** The drives and the recent list of simple_path_manager.py *)

Lemma scan_mounts_directories (env : Env) (roots : list string) :
  forall drives,
    Forall (fun d => path_isdir env d = true) drives ->
    Forall (fun d => path_isdir env d = true)
           (SimplePathManager.scan_mounts env roots drives).
Proof.
  induction roots as [|root roots IH]; intros drives Hdrives;
    cbn [SimplePathManager.scan_mounts]; [exact Hdrives|].
  destruct (path_exists env root); [|apply IH, Hdrives].
  destruct (os_listdir env root) as [entries|e].
  - apply IH, Forall_app. split; [exact Hdrives|].
    apply Forall_forall. intros d Hd. apply filter_In in Hd. apply Hd.
  - destruct e; try exact Hdrives. apply IH, Hdrives.
Qed.

(** property X9.  Whatever the platform and whatever listing a mount point fails
    with, every drive [get_external_drives] of simple_path_manager.py
    returns is a directory. *)
Theorem external_drives_are_directories :
  forall env : Env,
    Forall (fun d => path_isdir env d = true)
           (SimplePathManager.get_external_drives env).
Proof.
  intros env. unfold SimplePathManager.get_external_drives.
  destruct (String.eqb (platform_system env) "Windows").
  - apply Forall_forall. intros d Hd. apply filter_In in Hd. apply Hd.
  - apply scan_mounts_directories. constructor.
Qed.

Lemma strings_of_strings (l : list string) :
  SimplePathManager.strings_of (map JString l) = Some l.
Proof.
  induction l as [|s l IH]; cbn [map SimplePathManager.strings_of]; [reflexivity|].
  rewrite IH. reflexivity.
Qed.

Lemma In_slice_to {A : Type} (x : A) (n : Z) (l : list A) :
  In x (SimplePathManager.slice_to n l) -> In x l.
Proof.
  unfold SimplePathManager.slice_to. destruct (0 <=? n)%Z; apply In_firstn.
Qed.

Lemma NoDup_firstn_of {A : Type} (n : nat) (l : list A) :
  NoDup l -> NoDup (firstn n l).
Proof.
  revert l. induction n as [|n IH]; intros [|a l] H; cbn [firstn]; try constructor.
  - inversion H; subst. intros Hin. apply In_firstn in Hin. contradiction.
  - inversion H; subst. apply IH. assumption.
Qed.

Lemma filter_all {A : Type} (P : A -> bool) (l : list A) :
  (forall x, In x l -> P x = true) -> filter P l = l.
Proof.
  induction l as [|a l IH]; intros H; cbn [filter]; [reflexivity|].
  rewrite (H a (or_introl eq_refl)). f_equal. apply IH.
  intros x Hx. apply H. right. exact Hx.
Qed.

Lemma map_filter_fixed {A : Type} (f : A -> A) (P : A -> bool) (l : list A) :
  (forall x, In x l -> f x = x) ->
  map f (filter (fun x => P (f x)) l) = filter P l.
Proof.
  induction l as [|a l IH]; intros H; cbn [filter]; [reflexivity|].
  rewrite (H a (or_introl eq_refl)).
  assert (Hrest : forall x, In x l -> f x = x) by (intros x Hx; apply H; right; exact Hx).
  destruct (P a); cbn [map]; rewrite (IH Hrest); [|reflexivity].
  rewrite (H a (or_introl eq_refl)). reflexivity.
Qed.

Section Recent.

Variable env : Env.

(** An entry that [load_recent] returns is an expanded path and a
    directory. *)
Lemma load_recent_entry (disk : Disk) (q : string) :
  In q (SimplePathManager.load_recent env disk) ->
  path_isdir env q = true /\ exists q0, q = SimplePathManager.expand env q0.
Proof.
  unfold SimplePathManager.load_recent.
  destruct (recent disk) as [| |[items|]]; try contradiction.
  destruct (SimplePathManager.strings_of items) as [data|]; [|contradiction].
  intros Hin. apply in_map_iff in Hin. destruct Hin as [q0 [<- Hq0]].
  apply filter_In in Hq0. split; [apply Hq0 | exists q0; reflexivity].
Qed.

Hypothesis expand_idempotent :
  forall q, SimplePathManager.expand env (SimplePathManager.expand env q)
            = SimplePathManager.expand env q.

Lemma recent_after_entry (path : string) (disk : Disk) (max_items : Z) (q : string) :
  In q (SimplePathManager.recent_after env path disk max_items) ->
  SimplePathManager.expand env q = q
  /\ (q = SimplePathManager.expand env path \/ path_isdir env q = true).
Proof.
  unfold SimplePathManager.recent_after. intros Hin. apply In_slice_to in Hin.
  destruct Hin as [<- | Hin].
  - split; [apply expand_idempotent | left; reflexivity].
  - apply filter_In in Hin. destruct Hin as [Hin _].
    destruct (load_recent_entry disk q Hin) as [Hdir [q0 ->]].
    split; [apply expand_idempotent | right; exact Hdir].
Qed.

(** What [load_recent] reads after [save_recent] wrote. *)
Lemma load_after_save (path : string) (disk : Disk) (max_items : Z) :
  recent_writable disk = true ->
  SimplePathManager.load_recent env
    (SimplePathManager.save_recent env path disk max_items)
  = filter (path_isdir env)
      (SimplePathManager.recent_after env path disk max_items).
Proof.
  intros Hwritable. unfold SimplePathManager.save_recent. rewrite Hwritable.
  cbv zeta. unfold SimplePathManager.load_recent at 1. cbn [recent].
  rewrite strings_of_strings.
  apply (map_filter_fixed (SimplePathManager.expand env) (path_isdir env)).
  intros q Hq. apply (recent_after_entry path disk max_items q Hq).
Qed.

Lemma recent_after_distinct (path : string) (disk : Disk) (max_items : Z) :
  NoDup (SimplePathManager.load_recent env disk) ->
  NoDup (SimplePathManager.recent_after env path disk max_items).
Proof.
  intros Hdistinct. unfold SimplePathManager.recent_after.
  assert (Hnew : NoDup (SimplePathManager.expand env path
                        :: filter (fun p => negb (String.eqb p (SimplePathManager.expand env path)))
                             (SimplePathManager.load_recent env disk))).
  { constructor; [|apply NoDup_filter, Hdistinct].
    intros Hin. apply filter_In in Hin. destruct Hin as [_ Hne].
    rewrite String.eqb_refl in Hne. discriminate Hne. }
  cbv zeta. unfold SimplePathManager.slice_to.
  destruct (0 <=? max_items)%Z; apply NoDup_firstn_of, Hnew.
Qed.

End Recent.

(** property X10.  [load_recent] never raises and returns directories only; it returns
    the empty list unless [recent.json] holds a list of strings. *)
Theorem recent_entries_are_directories :
  forall (env : Env) (disk : Disk),
    Forall (fun p => path_isdir env p = true) (SimplePathManager.load_recent env disk)
    /\ (SimplePathManager.load_recent env disk <> [] ->
        exists items data,
          recent disk = Loaded (JList items)
          /\ SimplePathManager.strings_of items = Some data
          /\ SimplePathManager.load_recent env disk
             = map (SimplePathManager.expand env)
                 (filter (fun p => path_isdir env (SimplePathManager.expand env p)) data)).
Proof.
  intros env disk. split.
  - apply Forall_forall. intros q Hq. apply (load_recent_entry env disk q Hq).
  - unfold SimplePathManager.load_recent.
    destruct (recent disk) as [| |[items|]]; try (intros H; contradiction H; reflexivity).
    destruct (SimplePathManager.strings_of items) as [data|] eqn:Hstrings;
      [|intros H; contradiction H; reflexivity].
    intros _. exists items, data. repeat split. exact Hstrings.
Qed.

(** property X11.  Where [expand] leaves an expanded path as it is and [recent.json]
    can be written, [load_recent] after [save_recent] returns the list
    that [save_recent] built without the entries that are no directory:
    the whole list when the saved path is a directory. *)
Theorem recent_list_is_read_back :
  forall (env : Env) (path : string) (disk : Disk) (max_items : Z),
    (forall q, SimplePathManager.expand env (SimplePathManager.expand env q)
               = SimplePathManager.expand env q) ->
    recent_writable disk = true ->
    SimplePathManager.load_recent env
      (SimplePathManager.save_recent env path disk max_items)
    = filter (path_isdir env) (SimplePathManager.recent_after env path disk max_items)
    /\ (path_isdir env (SimplePathManager.expand env path) = true ->
        SimplePathManager.load_recent env
          (SimplePathManager.save_recent env path disk max_items)
        = SimplePathManager.recent_after env path disk max_items).
Proof.
  intros env path disk max_items Hidem Hwritable.
  pose proof (load_after_save env Hidem path disk max_items Hwritable) as Hload.
  split; [exact Hload|].
  intros Hdir. rewrite Hload. apply filter_all. intros q Hq.
  destruct (recent_after_entry env Hidem path disk max_items q Hq) as [_ [-> | Hq']];
    assumption.
Qed.

(** On the disk with five recent entries, using [/data/in] and reading
    the list back gives the four entries that were stored. *)
Lemma recent_list_is_read_back_witness :
  SimplePathManager.load_recent (Examples.linux Examples.data_tree)
    (SimplePathManager.save_recent (Examples.linux Examples.data_tree)
       "/data/in" Examples.five_recent 5)
  = SimplePathManager.recent_after (Examples.linux Examples.data_tree)
      "/data/in" Examples.five_recent 5.
Proof.
  apply (recent_list_is_read_back (Examples.linux Examples.data_tree)
           "/data/in" Examples.five_recent 5).
  - intros q. reflexivity.
  - reflexivity.
  - reflexivity.
Defined.

(** property X12.  Saving keeps the recent list free of repetitions: where [expand]
    leaves an expanded path as it is, if the list read from the disk
    names no folder twice, neither does the list read after
    [save_recent], whether the file could be written or not. *)
Theorem recent_list_stays_distinct :
  forall (env : Env) (path : string) (disk : Disk) (max_items : Z),
    (forall q, SimplePathManager.expand env (SimplePathManager.expand env q)
               = SimplePathManager.expand env q) ->
    NoDup (SimplePathManager.load_recent env disk) ->
    NoDup (SimplePathManager.load_recent env
             (SimplePathManager.save_recent env path disk max_items)).
Proof.
  intros env path disk max_items Hidem Hdistinct.
  destruct (recent_writable disk) eqn:Hwritable.
  - rewrite (load_after_save env Hidem path disk max_items Hwritable).
    apply NoDup_filter, recent_after_distinct, Hdistinct.
  - unfold SimplePathManager.save_recent. rewrite Hwritable. exact Hdistinct.
Qed.

(** On a disk whose recent list holds [/data], [/data/in] and [/], using
    [/data/in] again moves it to the front: the list read back is
    [/data/in], [/data], [/], without repetition. *)
Lemma recent_list_stays_distinct_witness :
  SimplePathManager.load_recent (Examples.linux Examples.data_tree) Examples.three_recent
  = ["/data"; "/data/in"; "/"]
  /\ SimplePathManager.load_recent (Examples.linux Examples.data_tree)
       (SimplePathManager.save_recent (Examples.linux Examples.data_tree) "/data/in"
          Examples.three_recent 5)
     = ["/data/in"; "/data"; "/"]
  /\ NoDup (SimplePathManager.load_recent (Examples.linux Examples.data_tree)
              (SimplePathManager.save_recent (Examples.linux Examples.data_tree) "/data/in"
                 Examples.three_recent 5)).
Proof.
  split; [reflexivity|]. split; [reflexivity|].
  apply (recent_list_stays_distinct (Examples.linux Examples.data_tree) "/data/in"
           Examples.three_recent 5).
  - intros q. reflexivity.
  - repeat constructor; cbn; intuition discriminate.
Defined.

(** ** Where the folder browser can end *)

Lemma subfolder_is_directory (env : Env) (path name : string) :
  In name (SimplePathManager.subfolders env path) ->
  path_isdir env (os_path_join env path name) = true.
Proof.
  unfold SimplePathManager.subfolders.
  destruct (os_listdir env path) as [entries|e]; [|contradiction].
  intros Hin. apply filter_In in Hin. apply Hin.
Qed.

Lemma browsed_start_or_directory (env : Env) (start_path path : string) :
  browsed env start_path path ->
  path = SimplePathManager.expand env start_path \/ path_isdir env path = true.
Proof.
  intros [|parent name _ Hname]; [left; reflexivity|].
  right. apply subfolder_is_directory, Hname.
Qed.

(** One turn keeps the loop in the browsed folders, and leaves it with
    the folder it stands in. *)
Lemma navigate_turn_browsed (env : Env) (disk : Disk) (start_path path : string)
    (history : list string) (choice : string) :
  browsed env start_path path ->
  Forall (browsed env start_path) history ->
  match SimplePathManager.navigate_turn env disk path history choice with
  | SimplePathManager.Again path' history' =>
      browsed env start_path path' /\ Forall (browsed env start_path) history'
  | SimplePathManager.Leave disk' result =>
      (result = None /\ disk' = disk)
      \/ (result = Some path /\ disk' = SimplePathManager.save_recent env path disk 5)
  | _ => True
  end.
Proof.
  intros Hpath Hhistory. unfold SimplePathManager.navigate_turn.
  destruct (String.eqb choice "q"); [left; split; reflexivity|].
  destruct (String.eqb choice "b" && negb (List.length history =? 0)%nat)%bool eqn:Hback.
  - apply andb_true_iff in Hback. destruct Hback as [_ Hnonempty].
    destruct history as [|h history] using rev_ind; [discriminate Hnonempty|].
    rewrite last_last, removelast_last.
    apply Forall_app in Hhistory. destruct Hhistory as [Hrest Hlast].
    inversion Hlast; subst. split; assumption.
  - destruct (PyStr.isdigit choice); [|exact I].
    destruct (PyStr.int choice) as [idx|e]; [|exact I].
    destruct (idx =? 1)%Z; [right; split; reflexivity|].
    destruct ((0 <=? idx - 2)%Z
              && (idx - 2 <? Z.of_nat (List.length (SimplePathManager.subfolders env path)))%Z)%bool
      eqn:Hrange; [|exact I].
    apply andb_true_iff in Hrange. destruct Hrange as [Hlow Hhigh].
    apply Z.leb_le in Hlow. apply Z.ltb_lt in Hhigh.
    split.
    + apply browsed_sub; [exact Hpath|]. apply nth_In. lia.
    + apply Forall_app. split; [exact Hhistory|]. constructor; [exact Hpath | constructor].
Qed.

Lemma navigate_loop_browsed (env : Env) (disk : Disk) (start_path : string)
    (inputs : list string) :
  forall (path : string) (history : list string) (disk' : Disk) (result : option string),
    browsed env start_path path ->
    Forall (browsed env start_path) history ->
    SimplePathManager.navigate_loop env disk path history inputs = (disk', Ok result) ->
    match result with
    | Some chosen =>
        browsed env start_path chosen
        /\ disk' = SimplePathManager.save_recent env chosen disk 5
    | None => disk' = disk
    end.
Proof.
  induction inputs as [|line rest IH]; intros path history disk' result Hpath Hhistory;
    cbn [SimplePathManager.navigate_loop]; [discriminate|].
  pose proof (navigate_turn_browsed env disk start_path path history
                (PyStr.lower (PyStr.strip line)) Hpath Hhistory) as Hturn.
  destruct (SimplePathManager.navigate_turn env disk path history
              (PyStr.lower (PyStr.strip line))) as [path' history'| |disk'' r|e].
  - destruct Hturn as [Hpath' Hhistory']. apply IH; assumption.
  - apply IH; assumption.
  - intros H. inversion H; subst.
    destruct Hturn as [[-> ->] | [-> ->]]; [reflexivity|].
    split; [exact Hpath | reflexivity].
  - discriminate.
Qed.

(** property X13.  Whatever the operator types, a folder [navigate_folder] returns is
    one it browsed to: the expanded start or, below a browsed folder, an
    entry of its listing that is a directory; that folder and no other
    is put on the recent list.  When the browser returns [None] the
    recent list is left as it was. *)
Theorem browser_returns_a_browsed_folder :
  forall (env : Env) (disk disk' : Disk) (start_path : string)
         (inputs : list string) (result : option string),
    SimplePathManager.navigate_folder env disk start_path inputs = (disk', Ok result) ->
    match result with
    | Some chosen =>
        browsed env start_path chosen
        /\ (chosen = SimplePathManager.expand env start_path
            \/ path_isdir env chosen = true)
        /\ disk' = SimplePathManager.save_recent env chosen disk 5
    | None => disk' = disk
    end.
Proof.
  intros env disk disk' start_path inputs result Hrun.
  unfold SimplePathManager.navigate_folder in Hrun.
  pose proof (navigate_loop_browsed env disk start_path inputs
                (SimplePathManager.expand env start_path) [] disk' result
                (browsed_start env start_path) (Forall_nil _) Hrun) as H.
  destruct result as [chosen|]; [|exact H].
  destruct H as [Hbrowsed Hdisk].
  split; [exact Hbrowsed|].
  split; [apply (browsed_start_or_directory env start_path chosen Hbrowsed) | exact Hdisk].
Qed.

(** From [/data], the answers [2], [b], [3] and [1] end in [/data/out],
    a directory. *)
Lemma browser_returns_a_browsed_folder_witness :
  path_isdir (Examples.linux Examples.data_tree) "/data/out" = true.
Proof.
  destruct (browser_returns_a_browsed_folder (Examples.linux Examples.data_tree)
              Examples.five_recent
              (SimplePathManager.save_recent (Examples.linux Examples.data_tree)
                 "/data/out" Examples.five_recent 5)
              "/data" ["2"; "b"; " 3 "; "1"] (Some "/data/out") eq_refl)
    as [_ [[Hstart | Hdir] _]].
  - discriminate Hstart.
  - exact Hdir.
Defined.

(** ** autoSet_path.py: what a match is converted to *)

Lemma autoset_try_targets_in (env : Env) (root file : string) (targets : list string)
    (found : string * string) :
  AutoSetPath.try_targets env root file targets = Some found ->
  In (snd found) targets
  /\ PyStr.contains (snd found) file = true
  /\ fst found = os_path_join env root file.
Proof.
  induction targets as [|target others IH]; cbn [AutoSetPath.try_targets]; [discriminate|].
  destruct (PyStr.contains target file) eqn:Hcontains.
  - intros H. inversion H; subst found. cbn [fst snd].
    split; [left; reflexivity|]. split; [exact Hcontains | reflexivity].
  - intros H. destruct (IH H) as [Hin Hrest]. split; [right; exact Hin | exact Hrest].
Qed.

Lemma autoset_try_files_in (env : Env) (root : string) (files targets : list string)
    (found : string * string) :
  AutoSetPath.try_files env root files targets = Some found ->
  exists file,
    In file files /\ AutoSetPath.try_targets env root file targets = Some found.
Proof.
  induction files as [|f files IH]; cbn [AutoSetPath.try_files]; [discriminate|].
  destruct (AutoSetPath.try_targets env root f targets) as [found'|] eqn:Hf.
  - intros H. inversion H; subst found'. exists f. split; [left; reflexivity | exact Hf].
  - intros H. destruct (IH H) as [file [Hin Hfile]].
    exists file. split; [right; exact Hin | exact Hfile].
Qed.

(** A match of the scanner of autoSet_path.py, traced back to the tree. *)
Lemma autoset_search_report :
  forall (env : Env) (drive : string) (targets : list string) (cap : Z)
         (file_path target_file : string),
    snd (AutoSetPath.search_for_setpath_file env drive targets cap)
    = Some (file_path, target_file) ->
    exists root files file,
      In (root, files) (listed env drive (tree_at env drive))
      /\ In file files
      /\ In target_file targets
      /\ PyStr.contains target_file file = true
      /\ file_path = os_path_join env root file
      /\ (AutoSetPath.depth_of env drive root <= cap)%Z.
Proof.
  intros env drive targets cap file_path target_file.
  unfold AutoSetPath.search_for_setpath_file, AutoSetPath.walk_drive. cbn [snd].
  intros Hreturned.
  destruct (os_walk_returned env _ _ _ _ _ Hreturned)
    as [root [files [dirs [before [Hlisted [Hbody _]]]]]].
  unfold AutoSetPath.walk_body in Hbody.
  destruct (cap <? AutoSetPath.depth_of env drive root)%Z eqn:Hdeep; [discriminate|].
  apply Z.ltb_ge in Hdeep.
  destruct (AutoSetPath.try_files env root files targets) as [found|] eqn:Hfiles;
    [|discriminate].
  inversion Hbody; subst found.
  destruct (autoset_try_files_in env root files _ _ Hfiles) as [file [Hin Hfile]].
  destruct (autoset_try_targets_in env root file _ _ Hfile) as [Htarget [Hcontains Hpath]].
  exists root, files, file. cbn [fst snd] in *.
  repeat (split; [assumption|]). exact Hdeep.
Qed.

(** The conversion of the table target: the cell reference it extracts
    is empty, so no cell is read. *)
Lemma autoset_table_conversion (env : Env) (drive file_path csv_file : string) :
  AutoSetPath.set_path_based_on_file env drive file_path "_setfromcsv_b" csv_file
  = match read_csv env csv_file with
    | Ok _ | Raise FileNotFoundError | Raise ValueError | Raise IndexError =>
        ([CsvErrorMsg csv_file ""], Ok None)
    | Raise e => ([], Raise e)
    end.
Proof.
  unfold AutoSetPath.set_path_based_on_file.
  change (String.eqb "_setfromcsv_b" "_setpath_") with false.
  change (String.eqb "_setfromcsv_b" "_setthispath_") with false.
  change (PyStr.startswith "_setfromcsv_b" "_setfromcsv_b") with true.
  change (nth_error (PyStr.split_on "_b" "_setfromcsv_b") 1) with (Some "").
  cbv iota. change (PyStr.upper "") with "".
  unfold AutoSetPath.read_path_from_csv, AutoPathV10.read_path_from_csv.
  destruct (read_csv env csv_file) as [df|e]; cbn [bind].
  - change (AutoPathV10.cell_address "") with (@Raise (Z * Z) ValueError).
    reflexivity.
  - destruct e; reflexivity.
Qed.

Lemma autoset_targets (target_file : string) :
  In target_file AutoSetPath.target_files ->
  target_file = "_setpath_" \/ target_file = "_setthispath_"
  \/ target_file = "_setfromcsv_b".
Proof.
  intros [<- | [<- | [<- | []]]]; tauto.
Qed.

(** A path that one drive of [choose_path] settles on. *)
Lemma autoset_try_drive_some (env : Env) (csv_file drive : string) (p : value) :
  snd (AutoSetPath.try_drive env csv_file drive) = Ok (Some p) ->
  exists file_path target_file,
    snd (AutoSetPath.search_for_setpath_file env drive AutoSetPath.target_files 3)
    = Some (file_path, target_file)
    /\ (target_file = "_setpath_" /\ p = Str drive
        \/ target_file = "_setthispath_" /\ p = Str (os_path_dirname env file_path)).
Proof.
  unfold AutoSetPath.try_drive. cbv zeta.
  destruct (AutoSetPath.search_for_setpath_file env drive AutoSetPath.target_files 3)
    as [log1 [[file_path target_file]|]] eqn:Hsearch; [|discriminate].
  destruct (PyStr.truthy (Some file_path)); [|discriminate].
  assert (Hfound : snd (AutoSetPath.search_for_setpath_file env drive
                          AutoSetPath.target_files 3) = Some (file_path, target_file))
    by (rewrite Hsearch; reflexivity).
  destruct (autoset_search_report env drive _ 3 file_path target_file Hfound)
    as [_ [_ [_ [_ [_ [Htarget _]]]]]].
  intros Hchosen. exists file_path, target_file. split; [reflexivity|].
  destruct (autoset_targets target_file Htarget) as [-> | [-> | ->]].
  - left. split; [reflexivity|].
    change (AutoSetPath.set_path_based_on_file env drive file_path "_setpath_" csv_file)
      with (@nil output, Ok (Some (Str drive))) in Hchosen.
    cbv iota in Hchosen.
    destruct (truthy (Some (Str drive)));
      cbn [snd] in Hchosen; inversion Hchosen; reflexivity.
  - right. split; [reflexivity|].
    change (AutoSetPath.set_path_based_on_file env drive file_path "_setthispath_" csv_file)
      with (@nil output, Ok (Some (Str (os_path_dirname env file_path)))) in Hchosen.
    cbv iota in Hchosen.
    destruct (truthy (Some (Str (os_path_dirname env file_path))));
      cbn [snd] in Hchosen; inversion Hchosen; reflexivity.
  - exfalso. rewrite autoset_table_conversion in Hchosen.
    destruct (read_csv env csv_file) as [df|e]; [discriminate Hchosen|].
    destruct e; discriminate Hchosen.
Qed.

Lemma autoset_search_drives_some (env : Env) (csv_file : string) (p : value)
    (drives : list string) :
  snd (AutoSetPath.search_drives env csv_file drives) = Ok (Some p) ->
  exists drive,
    In drive drives /\ snd (AutoSetPath.try_drive env csv_file drive) = Ok (Some p).
Proof.
  induction drives as [|drive others IH]; cbn [AutoSetPath.search_drives]; [discriminate|].
  destruct (AutoSetPath.try_drive env csv_file drive) as [log r] eqn:Hdrive.
  destruct r as [[q|]|e].
  - cbn [snd]. intros H. exists drive. split; [left; reflexivity|].
    rewrite Hdrive. exact H.
  - destruct (AutoSetPath.search_drives env csv_file others) as [log' r'].
    cbn [snd] in *. intros H. destruct (IH H) as [d [Hin Hd]].
    exists d. split; [right; exact Hin | exact Hd].
  - discriminate.
Qed.

(** property X14.  In autoSet_path.py a file found for the target [_setfromcsv_b]
    never gives a path: the cell reference [set_path_based_on_file]
    takes from the target is the empty string, so the table lookup
    fails whatever the table holds, a line of explanation is printed
    and the answer is [None]; an exception leaves only when reading
    the table raises one that is not caught. *)
Theorem autoset_table_target_gives_no_path :
  forall (env : Env) (drive : string) (cap : Z) (file_path target_file csv_file : string),
    snd (AutoSetPath.search_for_setpath_file env drive AutoSetPath.target_files cap)
    = Some (file_path, target_file) ->
    target_file <> "_setpath_" ->
    target_file <> "_setthispath_" ->
    target_file = "_setfromcsv_b"
    /\ (forall p,
           snd (AutoSetPath.set_path_based_on_file env drive file_path target_file csv_file)
           <> Ok (Some p))
    /\ AutoSetPath.set_path_based_on_file env drive file_path target_file csv_file
       = match read_csv env csv_file with
         | Ok _ | Raise FileNotFoundError | Raise ValueError | Raise IndexError =>
             ([CsvErrorMsg csv_file ""], Ok None)
         | Raise e => ([], Raise e)
         end.
Proof.
  intros env drive cap file_path target_file csv_file Hfound Hdirect Hlocal.
  destruct (autoset_search_report env drive _ cap file_path target_file Hfound)
    as [_ [_ [_ [_ [_ [Htarget _]]]]]].
  destruct (autoset_targets target_file Htarget) as [-> | [-> | ->]];
    [contradiction Hdirect; reflexivity | contradiction Hlocal; reflexivity |].
  split; [reflexivity|].
  rewrite autoset_table_conversion.
  split; [|reflexivity].
  intros p. destruct (read_csv env csv_file) as [df|e]; [discriminate|].
  destruct e; discriminate.
Qed.

(** With the file [_setfromcsv_b5_] on [/media] and [/data/archive] in
    cell B5 of the table, autoSet_path.py reads no cell. *)
Lemma autoset_table_target_gives_no_path_witness :
  AutoSetPath.set_path_based_on_file
    (Examples.linux_with_table Examples.table_b5 Examples.archive_rows)
    "/media" "/media/_setfromcsv_b5_" "_setfromcsv_b" "paths.csv"
  = ([CsvErrorMsg "paths.csv" ""], Ok None).
Proof.
  destruct (autoset_table_target_gives_no_path
              (Examples.linux_with_table Examples.table_b5 Examples.archive_rows)
              "/media" 3 "/media/_setfromcsv_b5_" "_setfromcsv_b" "paths.csv" eq_refl)
    as [_ [_ Hconversion]]; [discriminate | discriminate |].
  exact Hconversion.
Defined.

(** property X15.  A path that [choose_path] of autoSet_path.py returns is an
    enumerated drive on which a file for [_setpath_] was found, or the
    directory part of the path of a file found for [_setthispath_] on
    an enumerated drive: never a cell of the table. *)
Theorem autoset_choose_path_returns_drive_or_directory :
  forall (env : Env) (csv_file : string) (p : value),
    snd (AutoSetPath.choose_path env csv_file) = Ok (Some p) ->
    exists drive file_path target_file,
      In drive (AutoSetPath.get_available_drives env)
      /\ snd (AutoSetPath.search_for_setpath_file env drive AutoSetPath.target_files 3)
         = Some (file_path, target_file)
      /\ (target_file = "_setpath_" /\ p = Str drive
          \/ target_file = "_setthispath_" /\ p = Str (os_path_dirname env file_path)).
Proof.
  intros env csv_file p Hchosen. unfold AutoSetPath.choose_path in Hchosen.
  destruct (autoset_search_drives_some env csv_file p _ Hchosen) as [drive [Hin Hdrive]].
  destruct (autoset_try_drive_some env csv_file drive p Hdrive)
    as [file_path [target_file [Hfound Hcases]]].
  exists drive, file_path, target_file. repeat split; assumption.
Qed.

(** On the Linux system with [/mnt/work/_setthispath_], the path
    returned is [/mnt/work]. *)
Lemma autoset_choose_path_returns_drive_or_directory_witness :
  exists drive file_path target_file,
    In drive (AutoSetPath.get_available_drives (Examples.linux Examples.locked_sibling))
    /\ snd (AutoSetPath.search_for_setpath_file (Examples.linux Examples.locked_sibling)
              drive AutoSetPath.target_files 3) = Some (file_path, target_file)
    /\ (target_file = "_setpath_" /\ Str "/mnt/work" = Str drive
        \/ target_file = "_setthispath_"
           /\ Str "/mnt/work"
              = Str (os_path_dirname (Examples.linux Examples.locked_sibling) file_path)).
Proof.
  apply (autoset_choose_path_returns_drive_or_directory
           (Examples.linux Examples.locked_sibling) "paths.csv" (Str "/mnt/work")).
  reflexivity.
Defined.

(** ** autoSet_path.py: how deep a marker is found *)

Lemma autoset_try_targets_none (env : Env) (root file : string) (targets : list string) :
  holds_target targets file = false ->
  AutoSetPath.try_targets env root file targets = None.
Proof.
  unfold holds_target.
  induction targets as [|target others IH]; cbn [existsb AutoSetPath.try_targets];
    [reflexivity|].
  destruct (PyStr.contains target file); [discriminate | exact IH].
Qed.

Lemma autoset_try_targets_some (env : Env) (root file : string) (targets : list string) :
  holds_target targets file = true ->
  exists found, AutoSetPath.try_targets env root file targets = Some found.
Proof.
  unfold holds_target.
  induction targets as [|target others IH]; cbn [existsb AutoSetPath.try_targets];
    [discriminate|].
  destruct (PyStr.contains target file); [|exact IH].
  intros _. exists (os_path_join env root file, target). reflexivity.
Qed.

Lemma autoset_try_files_none (env : Env) (root : string) (files targets : list string) :
  existsb (holds_target targets) files = false ->
  AutoSetPath.try_files env root files targets = None.
Proof.
  induction files as [|f files IH]; cbn [existsb AutoSetPath.try_files]; [reflexivity|].
  intros H. apply orb_false_iff in H. destruct H as [Hf Hfiles].
  rewrite (autoset_try_targets_none env root f targets Hf). exact (IH Hfiles).
Qed.

Lemma autoset_try_files_some (env : Env) (root : string) (files targets : list string) :
  existsb (holds_target targets) files = true ->
  exists found, AutoSetPath.try_files env root files targets = Some found.
Proof.
  induction files as [|f files IH]; cbn [existsb AutoSetPath.try_files]; [discriminate|].
  destruct (holds_target targets f) eqn:Hf.
  - intros _. destruct (autoset_try_targets_some env root f targets Hf) as [found ->].
    exists found. reflexivity.
  - cbn [orb]. intros H. rewrite (autoset_try_targets_none env root f targets Hf).
    exact (IH H).
Qed.

(** The walk of autoSet_path.py from a directory [k] levels below the
    drive, where the depth the loop computes at level [k] is
    [depth_at k]. *)
Section LevelReach.

Variable env : Env.
Variable drive : string.
Variable targets : list string.
Variable cap : Z.
Variable level : nat -> string -> Prop.
Variable depth_at : nat -> nat.

Hypothesis depth_monotone : forall k m, (depth_at k <= depth_at (k + m))%nat.
Hypothesis level_depth :
  forall k rel, level k rel -> PyStr.count (os_sep env) rel = depth_at k.
Hypothesis level_step :
  forall k rel name,
    name_ok env name = true ->
    level k rel ->
    exists rel', os_path_join env (drive ++ rel) name = drive ++ rel' /\ level (S k) rel'.

Lemma level_walk_out_of_reach (t : dir) :
  forall (k : nat) (rel : string),
    names_ok env t = true ->
    level k rel ->
    Forall (fun m => (cap < Z.of_nat (depth_at (k + m)))%Z)
           (depths_where (holds_target targets) t) ->
    returned (os_walk env (AutoSetPath.walk_body env drive targets cap)
                (drive ++ rel) t) = None.
Proof.
  induction t as [e | files subdirs IH] using dir_ind;
    intros k rel Hnames Hrel Hmarkers.
  - reflexivity.
  - rewrite os_walk_listing. unfold AutoSetPath.walk_body at 1.
    rewrite autoset_depth_of_append, (level_depth k rel Hrel).
    destruct (cap <? Z.of_nat (depth_at k))%Z eqn:Hdeep; [reflexivity|].
    apply Z.ltb_ge in Hdeep.
    cbn [depths_where] in Hmarkers. apply Forall_app in Hmarkers.
    destruct Hmarkers as [Hhere Hsubs].
    assert (Hfiles : existsb (holds_target targets) files = false).
    { destruct (existsb (holds_target targets) files); [|reflexivity].
      inversion Hhere; subst. rewrite Nat.add_0_r in *. lia. }
    rewrite (autoset_try_files_none env _ files targets Hfiles). cbv zeta. cbn [returned].
    cbn [names_ok] in Hnames. clear Hhere Hfiles Hdeep.
    induction subdirs as [|[name sub] rest IHrest]; [reflexivity|].
    rewrite walk_children_cons. cbv zeta.
    inversion IH as [|entry others Hsub Hrest]; subst.
    cbn [forallb fst snd] in Hnames.
    apply andb_true_iff in Hnames. destruct Hnames as [Hentry Hnames].
    apply andb_true_iff in Hentry. destruct Hentry as [Hname Hsubnames].
    cbn [flat_map snd] in Hsubs. rewrite map_app in Hsubs.
    apply Forall_app in Hsubs. destruct Hsubs as [Hfirst Hothers].
    destruct (level_step k rel name Hname Hrel) as [rel' [-> Hrel']].
    cbn [snd] in Hsub.
    rewrite (Hsub (S k) rel' Hsubnames Hrel').
    + cbn [returned]. apply IHrest; assumption.
    + apply (proj1 (Forall_map S (fun m => (cap < Z.of_nat (depth_at (k + m)))%Z)
                      (depths_where (holds_target targets) sub))) in Hfirst.
      revert Hfirst. apply Forall_impl. intros m Hm.
      replace (S k + m)%nat with (k + S m)%nat by lia. exact Hm.
Qed.

Lemma level_walk_in_reach (t : dir) :
  forall (k : nat) (rel : string),
    names_ok env t = true ->
    level k rel ->
    Exists (fun m => (Z.of_nat (depth_at (k + m)) <= cap)%Z)
           (depths_where (holds_target targets) t) ->
    exists found,
      returned (os_walk env (AutoSetPath.walk_body env drive targets cap)
                  (drive ++ rel) t) = Some found.
Proof.
  induction t as [e | files subdirs IH] using dir_ind;
    intros k rel Hnames Hrel Hmarkers.
  - inversion Hmarkers.
  - rewrite os_walk_listing. unfold AutoSetPath.walk_body at 1.
    rewrite autoset_depth_of_append, (level_depth k rel Hrel).
    assert (Hk : (Z.of_nat (depth_at k) <= cap)%Z).
    { apply Exists_exists in Hmarkers. destruct Hmarkers as [m [_ Hm]].
      pose proof (depth_monotone k m). lia. }
    replace (cap <? Z.of_nat (depth_at k))%Z with false
      by (symmetry; apply Z.ltb_ge; exact Hk).
    cbn [depths_where] in Hmarkers.
    destruct (existsb (holds_target targets) files) eqn:Hfiles.
    + destruct (autoset_try_files_some env (drive ++ rel) files targets Hfiles)
        as [found ->].
      exists found. reflexivity.
    + rewrite (autoset_try_files_none env _ files targets Hfiles). cbv zeta.
      cbn [returned].
      cbn [app] in Hmarkers. cbn [names_ok] in Hnames. clear Hfiles Hk.
      induction subdirs as [|[name sub] rest IHrest]; [inversion Hmarkers|].
      inversion IH as [|entry others Hsub Hrest]; subst. cbn [snd] in Hsub.
      cbn [forallb fst snd] in Hnames.
      apply andb_true_iff in Hnames. destruct Hnames as [Hentry Hnames].
      apply andb_true_iff in Hentry. destruct Hentry as [Hname Hsubnames].
      rewrite walk_children_cons. cbv zeta.
      destruct (level_step k rel name Hname Hrel) as [rel' [-> Hrel']].
      destruct (returned (os_walk env _ _ sub)) as [found|] eqn:Hfirst.
      * exists found. exact Hfirst.
      * cbn [returned]. apply IHrest; [exact Hrest | exact Hnames |].
        cbn [flat_map snd] in Hmarkers. rewrite map_app in Hmarkers.
        apply Exists_app in Hmarkers. destruct Hmarkers as [Hhere | Hthere];
          [|exact Hthere].
        exfalso.
        destruct (Hsub (S k) rel' Hsubnames Hrel') as [found Hfound].
        -- apply Exists_exists in Hhere. destruct Hhere as [m [Hin Hm]].
           apply in_map_iff in Hin. destruct Hin as [m' [<- Hin']].
           apply Exists_exists. exists m'. split; [exact Hin'|].
           replace (S k + m')%nat with (k + S m')%nat by lia. exact Hm.
        -- rewrite Hfound in Hfirst. discriminate Hfirst.
Qed.

(** The search from the drive finds a file exactly when one lies at a
    level whose depth is within the bound. *)
Lemma level_search_reach :
  level 0 "" ->
  names_ok env (tree_at env drive) = true ->
  ((exists found,
       snd (AutoSetPath.search_for_setpath_file env drive targets cap) = Some found)
   <-> Exists (fun m => (Z.of_nat (depth_at m) <= cap)%Z)
              (depths_where (holds_target targets) (tree_at env drive))).
Proof.
  intros Hzero Hnames.
  unfold AutoSetPath.search_for_setpath_file, AutoSetPath.walk_drive. cbn [snd].
  split.
  - intros [found Hfound].
    destruct (Exists_dec (fun m => (Z.of_nat (depth_at m) <= cap)%Z)
                (depths_where (holds_target targets) (tree_at env drive))
                (fun m => Z_le_dec (Z.of_nat (depth_at m)) cap)) as [Hyes | Hno];
      [exact Hyes|].
    exfalso.
    pose proof (level_walk_out_of_reach (tree_at env drive) 0 "" Hnames Hzero) as Hnone.
    rewrite append_empty_r in Hnone. rewrite Hnone in Hfound; [discriminate Hfound|].
    apply Forall_forall. intros m Hm. cbn [Nat.add].
    destruct (Z_le_dec (Z.of_nat (depth_at m)) cap) as [Hle|Hgt]; [|lia].
    exfalso. apply Hno. apply Exists_exists. exists m. split; assumption.
  - intros Hmarkers.
    pose proof (level_walk_in_reach (tree_at env drive) 0 "" Hnames Hzero Hmarkers)
      as Hfound.
    rewrite append_empty_r in Hfound. exact Hfound.
Qed.

End LevelReach.

(** Below a POSIX mount point such as [/mnt]: level [k] has depth [k]. *)
Section MountLevels.

Variable env : Env.
Variable drive : string.
Hypothesis posix : is_windows env = false.
Hypothesis drive_nonempty : drive <> "".
Hypothesis drive_open : OsPath.ends_with OsPath.posix_is_sep drive = false.

Lemma beneath_depth (k : nat) (rel : string) :
  beneath env k rel -> PyStr.count (os_sep env) rel = k.
Proof.
  destruct k as [|k]; cbn [beneath].
  - intros ->. reflexivity.
  - intros [_ [_ Hcount]]. exact Hcount.
Qed.

Lemma beneath_step (k : nat) (rel name : string) :
  name_ok env name = true ->
  beneath env k rel ->
  exists rel',
    os_path_join env (drive ++ rel) name = drive ++ rel' /\ beneath env (S k) rel'.
Proof.
  intros Hname Hrel.
  pose proof (name_ok_nonempty env name Hname) as Hnonempty.
  assert (Hsep : os_sep env = "/"%char) by (unfold os_sep; rewrite posix; reflexivity).
  assert (Hopen : (String.eqb (drive ++ rel) ""
                   || OsPath.ends_with OsPath.posix_is_sep (drive ++ rel))%bool = false).
  { apply orb_false_iff. split.
    - destruct drive; [contradiction drive_nonempty; reflexivity | reflexivity].
    - destruct k as [|k]; cbn [beneath] in Hrel.
      + subst rel. rewrite append_empty_r. exact drive_open.
      + destruct Hrel as [Hrel [Hend _]].
        rewrite (ends_with_append _ drive rel Hrel).
        unfold is_sep in Hend. rewrite posix in Hend. exact Hend. }
  exists (rel ++ "/" ++ name). split.
  - unfold os_path_join. rewrite posix.
    rewrite (posix_join_name env _ name posix Hname), Hopen.
    apply append_assoc.
  - cbn [beneath]. split; [|split].
    + destruct rel; discriminate.
    + rewrite (ends_with_append _ rel ("/" ++ name)) by discriminate.
      change ("/" ++ name) with (String "/" "" ++ name).
      rewrite (ends_with_append _ _ name Hnonempty).
      apply name_ok_ends_with, Hname.
    + change ("/" ++ name) with (String "/"%char name).
      rewrite count_append. cbn [PyStr.count].
      rewrite (name_ok_count env name Hname), (beneath_depth k rel Hrel), Hsep.
      cbn. lia.
Qed.

End MountLevels.

(** Below a Windows drive root [X:\]: level [k] has depth [k - 1]. *)
Section RootLevels.

Variable env : Env.
Variable letter : ascii.
Hypothesis windows : is_windows env = true.
Hypothesis letter_plain : OsPath.nt_is_sep letter = false.

Lemma below_count (k : nat) (rel : string) :
  below env k rel -> PyStr.count (os_sep env) rel = Nat.pred k.
Proof.
  destruct k as [|k]; cbn [below].
  - intros ->. reflexivity.
  - intros [_ [_ Hcount]]. exact Hcount.
Qed.

Lemma root_step (k : nat) (rel name : string) :
  name_ok env name = true ->
  below env k rel ->
  exists rel',
    os_path_join env (String letter ":\" ++ rel) name = String letter ":\" ++ rel'
    /\ below env (S k) rel'.
Proof.
  intros Hname Hrel.
  exists (if String.eqb rel "" then name else rel ++ String (os_sep env) name).
  split; [|apply below_step; assumption].
  unfold os_path_join, os_sep. rewrite windows.
  rewrite (nt_join_name env _ name windows Hname).
  cbn [append OsPath.nt_splitroot]. rewrite letter_plain.
  change (Ascii.eqb ":" OsPath.colon) with true.
  change (OsPath.nt_is_sep "\") with true. cbv iota.
  destruct k as [|k]; cbn [below] in Hrel.
  - subst rel. reflexivity.
  - destruct Hrel as [Hnonempty [Hend _]].
    assert (Hend' : OsPath.ends_with OsPath.nt_is_sep rel = false).
    { unfold is_sep in Hend. rewrite windows in Hend. exact Hend. }
    rewrite Hend'.
    destruct (String.eqb_spec rel "") as [Hempty|_]; [contradiction|].
    cbn [negb andb append]. rewrite append_assoc. reflexivity.
Qed.

End RootLevels.

(** The drives autoSet_path.py enumerates are drive roots [X:\] on
    Windows and mount points that end with no separator elsewhere. *)
Lemma autoset_drive_shape (env : Env) (drive : string) :
  In drive (AutoSetPath.get_available_drives env) ->
  (is_windows env = true
   /\ exists letter, drive = String letter ":\" /\ OsPath.nt_is_sep letter = false)
  \/ (is_windows env = false
      /\ drive <> "" /\ OsPath.ends_with OsPath.posix_is_sep drive = false).
Proof.
  unfold AutoSetPath.get_available_drives, is_windows. cbv zeta.
  destruct (String.eqb (platform_system env) "Windows").
  - intros Hin. left. split; [reflexivity|].
    apply filter_In in Hin. destruct Hin as [Hin _].
    unfold drive_roots in Hin. apply in_map_iff in Hin.
    destruct Hin as [code [<- Hcode]].
    exists (ascii_of_nat code). split; [reflexivity|].
    assert (Hall : forallb (fun code => negb (OsPath.nt_is_sep (ascii_of_nat code)))
                     (seq 65 26) = true) by reflexivity.
    apply negb_true_iff. exact (proj1 (forallb_forall _ _) Hall code Hcode).
  - intros Hin. right. split; [reflexivity|].
    destruct (String.eqb (platform_system env) "Linux").
    + destruct Hin as [<- | [<- | []]]; split; (discriminate || reflexivity).
    + destruct (String.eqb (platform_system env) "Darwin"); [|contradiction].
      destruct Hin as [<- | []]; split; (discriminate || reflexivity).
Qed.

(** property X16.  On a drive that autoSet_path.py enumerates, with a bound
    [max_depth] of 0 or more and directory names of the platform, the
    search finds a file that holds a target if and only if one lies in
    a listed directory within reach: [max_depth] levels below a mount
    point of Linux or macOS at most, but [max_depth + 1] levels below a
    drive root of Windows, where the path of a directory of the first
    level holds no separator after the root. *)
Theorem autoset_scan_reaches_a_level_further_on_windows :
  forall (env : Env) (drive : string) (targets : list string) (cap : Z),
    In drive (AutoSetPath.get_available_drives env) ->
    (0 <= cap)%Z ->
    names_ok env (tree_at env drive) = true ->
    ((exists found,
         snd (AutoSetPath.search_for_setpath_file env drive targets cap) = Some found)
     <-> Exists (fun m => (Z.of_nat m <= (if is_windows env then cap + 1 else cap))%Z)
                (depths_where (holds_target targets) (tree_at env drive))).
Proof.
  intros env drive targets cap Hdrive Hcap Hnames.
  destruct (autoset_drive_shape env drive Hdrive)
    as [[Hplatform [letter [-> Hletter]]] | [Hplatform [Hnonempty Hopen]]];
    rewrite Hplatform.
  - rewrite (level_search_reach env (String letter ":\") targets cap
               (below env) Nat.pred
               (fun k m => Nat.pred_le_mono k (k + m) (Nat.le_add_r k m))
               (below_count env)
               (root_step env letter Hplatform Hletter)
               eq_refl Hnames).
    split; apply Exists_impl; intros m Hm; destruct m; cbn [Nat.pred] in *; lia.
  - rewrite (level_search_reach env drive targets cap
               (beneath env) (fun k => k)
               (fun k m => Nat.le_add_r k m)
               (beneath_depth env)
               (beneath_step env drive Hplatform Hnonempty Hopen)
               eq_refl Hnames).
    reflexivity.
Qed.

(** On the chain [/mnt/a/b/c/d], scanned from [/mnt] with the bound 3,
    the marker four levels down is found if and only if a marker lies
    three levels down at most: it is not found. *)
Lemma autoset_scan_reaches_a_level_further_on_windows_witness :
  (exists found,
      snd (AutoSetPath.search_for_setpath_file (Examples.linux Examples.chain) "/mnt"
             AutoSetPath.target_files 3) = Some found)
  <-> Exists (fun m => (Z.of_nat m <= 3)%Z)
             (depths_where (holds_target AutoSetPath.target_files)
                (tree_at (Examples.linux Examples.chain) "/mnt")).
Proof.
  apply (autoset_scan_reaches_a_level_further_on_windows
           (Examples.linux Examples.chain) "/mnt" AutoSetPath.target_files 3).
  - right. left. reflexivity.
  - lia.
  - reflexivity.
Defined.

(** ** autoPath_v1.py and autoPath_v1.0.py *)

Lemma search_drives_last (env : Env) (csv_file : string) (drives : list string)
    (d : string) :
  AutoPathV10.search_drives env csv_file (drives ++ [d])
  = let '(log, r) := AutoPathV10.search_drives env csv_file drives in
    match r with
    | Ok None =>
        let '(log', r') := AutoPathV10.try_drive env csv_file (SearchingMsg d) d in
        ((log ++ log')%list, r')
    | _ => (log, r)
    end.
Proof.
  induction drives as [|x drives IH]; cbn [app AutoPathV10.search_drives].
  - destruct (AutoPathV10.try_drive env csv_file (SearchingMsg d) d) as [log [[p|]|e]];
      try reflexivity.
    rewrite app_nil_r. reflexivity.
  - destruct (AutoPathV10.try_drive env csv_file (SearchingMsg x) x) as [log [[p|]|e]];
      try reflexivity.
    rewrite IH.
    destruct (AutoPathV10.search_drives env csv_file drives) as [log1 [[p|]|e]];
      try reflexivity.
    destruct (AutoPathV10.try_drive env csv_file (SearchingMsg d) d) as [log2 r2].
    rewrite app_assoc. reflexivity.
Qed.

(** Where the enumeration ends with the system drive, taking the drives
    in order and taking the system drive last are the same search. *)
Lemma system_drive_last_agree (env : Env) (csv_file : string) (others : list string)
    (sys : string) :
  AutoPathV10.get_available_drives env = (others ++ [sys])%list ->
  non_system_drives env = others ->
  system_drive env = Some sys ->
  sys <> "" ->
  snd (AutoPathV1.choose_path env csv_file) = snd (AutoPathV10.choose_path env csv_file)
  /\ scanned (fst (AutoPathV1.choose_path env csv_file))
     = scanned (fst (AutoPathV10.choose_path env csv_file)).
Proof.
  intros Hdrives Hothers Hsystem Hsys.
  unfold AutoPathV1.choose_path.
  rewrite choose_path_phases, Hdrives, Hothers, Hsystem, search_drives_last.
  replace (PyStr.truthy (Some sys)) with true
    by (destruct sys; [contradiction Hsys; reflexivity | reflexivity]).
  destruct (AutoPathV10.search_drives env csv_file others) as [log [[p|]|e]];
    try (split; reflexivity).
  pose proof (try_drive_cases env csv_file (SearchingMsg sys) sys) as Hplain.
  pose proof (try_drive_cases env csv_file (SearchingSystemMsg sys) sys) as Hsystem'.
  pose proof (try_drive_scanned env csv_file (SearchingMsg sys) sys) as Hscanned.
  pose proof (try_drive_scanned env csv_file (SearchingSystemMsg sys) sys) as Hscanned'.
  destruct (AutoPathV10.try_drive env csv_file (SearchingMsg sys) sys) as [log1 r1].
  destruct (AutoPathV10.try_drive env csv_file (SearchingSystemMsg sys) sys) as [log2 r2].
  cbn [fst snd] in *. split.
  - rewrite Hplain, Hsystem'. reflexivity.
  - rewrite !scanned_app, Hscanned, Hscanned'. reflexivity.
Qed.

(** property X17.  Off Windows the two versions of the resolver agree: the
    enumeration ends with [/], the one system drive, so searching the
    drives in the order of the enumeration, as autoPath_v1.py does,
    and searching the system drive last, as autoPath_v1.0.py does, scan
    the same drives in the same order and give the same answer. *)
Theorem versions_agree_off_windows :
  forall (env : Env) (csv_file : string),
    is_windows env = false ->
    snd (AutoPathV1.choose_path env csv_file) = snd (AutoPathV10.choose_path env csv_file)
    /\ scanned (fst (AutoPathV1.choose_path env csv_file))
       = scanned (fst (AutoPathV10.choose_path env csv_file)).
Proof.
  intros env csv_file Hplatform. unfold is_windows in Hplatform.
  destruct (String.eqb (platform_system env) "Linux") eqn:Hlinux.
  - apply (system_drive_last_agree env csv_file ["/media"; "/mnt"] "/");
      try discriminate;
      unfold non_system_drives, system_drive, AutoPathV10.get_available_drives;
      cbv zeta; rewrite Hplatform, Hlinux; cbn [orb app AutoPathV10.separate];
      unfold AutoPathV10.is_system_drive; rewrite ?Hplatform, ?Hlinux; reflexivity.
  - destruct (String.eqb (platform_system env) "Darwin") eqn:Hdarwin.
    + apply (system_drive_last_agree env csv_file ["/Volumes"] "/");
        try discriminate;
        unfold non_system_drives, system_drive, AutoPathV10.get_available_drives;
        cbv zeta; rewrite Hplatform, Hlinux, Hdarwin; cbn [orb app AutoPathV10.separate];
        unfold AutoPathV10.is_system_drive; rewrite ?Hplatform, ?Hlinux, ?Hdarwin;
        reflexivity.
    + assert (Hdrives : AutoPathV10.get_available_drives env = [])
        by (unfold AutoPathV10.get_available_drives; cbv zeta;
            rewrite Hplatform, Hlinux, Hdarwin; reflexivity).
      unfold AutoPathV1.choose_path, AutoPathV10.choose_path.
      rewrite Hdrives. split; reflexivity.
Qed.

(** On the Linux system where [/mnt/secret] cannot be listed, both
    versions answer [/mnt/work]. *)
Lemma versions_agree_off_windows_witness :
  snd (AutoPathV1.choose_path (Examples.linux Examples.locked_sibling) "paths.csv")
  = Ok (Some (Str "/mnt/work")).
Proof.
  rewrite (proj1 (versions_agree_off_windows (Examples.linux Examples.locked_sibling)
                    "paths.csv" eq_refl)).
  reflexivity.
Defined.

(** ** The search of files by extension *)

Lemma still_wanted_positive (limit : Z) (n : nat) : (1 <= still_wanted limit n)%nat.
Proof. unfold still_wanted. lia. Qed.

Lemma still_wanted_after (limit : Z) (n k : nat) :
  (k < still_wanted limit n)%nat ->
  still_wanted limit (n + k) = (still_wanted limit n - k)%nat.
Proof. unfold still_wanted. lia. Qed.

Lemma still_wanted_one (limit : Z) (n : nat) :
  (limit <=? Z.of_nat (n + 1))%Z = (still_wanted limit n <=? 1)%nat.
Proof.
  unfold still_wanted.
  destruct (Z.leb_spec limit (Z.of_nat (n + 1))), (Nat.leb_spec (Z.to_nat (Z.max 1 (limit - Z.of_nat n))) 1);
    try reflexivity; lia.
Qed.

Lemma taken_nil (limit : Z) (results : list string) :
  taken limit results [] = (results, false).
Proof.
  unfold taken. rewrite firstn_nil, app_nil_r. cbn [List.length].
  pose proof (still_wanted_positive limit (List.length results)) as Hpos.
  destruct (Nat.leb_spec (still_wanted limit (List.length results)) 0); [lia | reflexivity].
Qed.

(** Taking from two lists of candidates one after the other. *)
Lemma taken_app (limit : Z) (results a b : list string) :
  taken limit results (a ++ b)
  = let '(results', done) := taken limit results a in
    if done then (results', true) else taken limit results' b.
Proof.
  unfold taken.
  destruct (Nat.leb_spec (still_wanted limit (List.length results)) (List.length a))
    as [Henough | Hmore].
  - rewrite firstn_app.
    replace (still_wanted limit (List.length results) - List.length a)%nat with 0%nat by lia.
    rewrite firstn_O, app_nil_r. f_equal.
    apply Nat.leb_le. rewrite length_app. lia.
  - rewrite firstn_app, (firstn_all2 a) by lia.
    rewrite !length_app, still_wanted_after by exact Hmore.
    rewrite app_assoc. f_equal.
    destruct (Nat.leb_spec (still_wanted limit (List.length results))
                (List.length a + List.length b)),
             (Nat.leb_spec (still_wanted limit (List.length results) - List.length a)
                (List.length b)); try reflexivity; lia.
Qed.

Section FileSearch.

Variable env : Env.
Variable extension : string.
Variable limit : Z.

Lemma collect_taken (folder : string) (names : list string) :
  forall results,
    SimplePathManager.collect env extension limit folder names results
    = taken limit results
        (map (os_path_join env folder)
           (filter (SimplePathManager.has_extension extension) names)).
Proof.
  induction names as [|name rest IH]; intros results;
    cbn [SimplePathManager.collect filter map].
  - rewrite taken_nil. reflexivity.
  - destruct (SimplePathManager.has_extension extension name); [|apply IH].
    cbn [map]. cbv zeta.
    change (os_path_join env folder name
            :: map (os_path_join env folder)
                 (filter (SimplePathManager.has_extension extension) rest))
      with ([os_path_join env folder name]
            ++ map (os_path_join env folder)
                 (filter (SimplePathManager.has_extension extension) rest))%list.
    rewrite taken_app. unfold taken at 1. cbn [List.length].
    rewrite length_app, still_wanted_one. cbn [List.length].
    pose proof (still_wanted_positive limit (List.length results)) as Hpos.
    destruct (still_wanted limit (List.length results)) as [|n]; [lia|].
    cbn [firstn]. rewrite firstn_nil.
    destruct (Nat.leb_spec (S n) 1); [reflexivity | apply IH].
Qed.

Lemma collect_walk_listing (top : string) (files : list string)
    (subdirs : list (string * dir)) (results : list string) :
  SimplePathManager.collect_walk env extension limit top (Listing files subdirs) results
  = let '(results', done) :=
      SimplePathManager.collect env extension limit top files results in
    if done then (results', true)
    else collect_children env extension limit top subdirs results'.
Proof. reflexivity. Qed.

Lemma collect_walk_taken (t : dir) :
  forall top results,
    SimplePathManager.collect_walk env extension limit top t results
    = taken limit results (files_with env extension (listed env top t)).
Proof.
  induction t as [e | files subdirs IH] using dir_ind; intros top results.
  - cbn [SimplePathManager.collect_walk listed files_with flat_map].
    rewrite taken_nil. reflexivity.
  - rewrite collect_walk_listing, collect_taken.
    cbn [listed]. unfold files_with. cbn [flat_map fst snd]. rewrite taken_app.
    destruct (taken limit results
                (map (os_path_join env top)
                   (filter (SimplePathManager.has_extension extension) files)))
      as [results' done].
    destruct done; [reflexivity|].
    clear results. revert results'.
    induction subdirs as [|[name sub] rest IHrest]; intros results;
      cbn [collect_children flat_map].
    + rewrite taken_nil. reflexivity.
    + inversion IH as [|entry others Hsub Hrest]; subst. cbn [snd] in Hsub.
      cbn [fst snd]. rewrite flat_map_app, taken_app, Hsub. unfold files_with.
      destruct (taken limit results
                  (flat_map
                     (fun d => map (os_path_join env (fst d))
                                 (filter (SimplePathManager.has_extension extension) (snd d)))
                     (listed env (os_path_join env top name) sub)))
        as [results' done].
      destruct done; [reflexivity|]. apply IHrest, Hrest.
Qed.

End FileSearch.

(** property X18.  [search_files_in_folder] never raises and returns the first paths,
    in the order of the listing or of the walk, of the files whose name
    in lower case ends with the extension in lower case, a dot put
    before the extension if it starts with none: as many as [limit]
    says but one at least, since the limit is tested only after a path
    was added; in a folder that cannot be listed, none. *)
Theorem file_search_returns_first_matches :
  forall (env : Env) (folder extension : string) (recursive : bool) (limit : Z),
    SimplePathManager.search_files_in_folder env folder extension recursive limit
    = firstn (Z.to_nat (Z.max 1 limit))
        (if recursive
         then files_with env (SimplePathManager.dotted extension)
                (listed env folder (tree_at env folder))
         else match os_listdir env folder with
              | Ok names =>
                  map (os_path_join env folder)
                    (filter (SimplePathManager.has_extension
                               (SimplePathManager.dotted extension)) names)
              | Raise _ => []
              end)
    /\ (List.length
          (SimplePathManager.search_files_in_folder env folder extension recursive limit)
        <= Z.to_nat (Z.max 1 limit))%nat.
Proof.
  intros env folder extension recursive limit.
  assert (Hresults :
            SimplePathManager.search_files_in_folder env folder extension recursive limit
            = firstn (Z.to_nat (Z.max 1 limit))
                (if recursive
                 then files_with env (SimplePathManager.dotted extension)
                        (listed env folder (tree_at env folder))
                 else match os_listdir env folder with
                      | Ok names =>
                          map (os_path_join env folder)
                            (filter (SimplePathManager.has_extension
                                       (SimplePathManager.dotted extension)) names)
                      | Raise _ => []
                      end)).
  { unfold SimplePathManager.search_files_in_folder. cbv zeta.
    destruct recursive; cbn [negb].
    - rewrite collect_walk_taken. unfold taken. cbn [fst app List.length].
      unfold still_wanted. rewrite Z.sub_0_r. reflexivity.
    - destruct (os_listdir env folder) as [names|e]; [|rewrite firstn_nil; reflexivity].
      rewrite collect_taken. unfold taken. cbn [fst app List.length].
      unfold still_wanted. rewrite Z.sub_0_r. reflexivity. }
  split; [exact Hresults|].
  rewrite Hresults. apply firstn_le_length.
Qed.

(** ** The menu of path_setter.py *)

Lemma numbered_option (options : list string) :
  forall (start idx : nat) (option : string),
    In (PathSetter.OptionMsg idx option) (PathSetter.numbered start options)
    <-> (start <= idx)%nat /\ nth_error options (idx - start) = Some option.
Proof.
  induction options as [|o options IH]; intros start idx option;
    cbn [PathSetter.numbered In].
  - split; [contradiction|]. intros [_ H]. destruct (idx - start)%nat; discriminate H.
  - rewrite IH. split.
    + intros [H | [Hle Hnth]].
      * inversion H; subst. rewrite Nat.sub_diag. split; [lia | reflexivity].
      * split; [lia|]. replace (idx - start)%nat with (S (idx - S start)) by lia.
        exact Hnth.
    + intros [Hle Hnth]. destruct (Nat.eq_dec idx start) as [->|Hne].
      * rewrite Nat.sub_diag in Hnth. inversion Hnth. left. reflexivity.
      * right. split; [lia|].
        replace (idx - start)%nat with (S (idx - S start)) in Hnth by lia.
        exact Hnth.
Qed.

(** property X19.  When the drives could be enumerated, the answer that is the
    numeral of [n] makes [choose_path] of path_setter.py return the
    option it printed with the number [n], and [None] when it printed
    none with that number: [0] does not reach the last option.  The
    internal paths are always among the options. *)
Theorem menu_returns_the_option_printed_with_the_number :
  forall (env : Env) (home : string) (drives : list string) (n : nat)
         (rest : list string),
    PathSetter.get_external_drives env = Ok drives ->
    let run := PathSetter.choose_path env home (SimplePathManager.menu_answer n :: rest) in
    (forall option, snd run = Ok (Some option) <-> In (PathSetter.OptionMsg n option) (fst run))
    /\ (snd run = Ok None <->
        forall option, ~ In (PathSetter.OptionMsg n option) (fst run))
    /\ (forall idx option,
           In (PathSetter.OptionMsg idx option) (fst run)
           <-> (1 <= idx)%nat
               /\ nth_error (drives ++ PathSetter.get_internal_paths home) (idx - 1)
                  = Some option).
Proof.
  intros env home drives n rest Hdrives run. subst run.
  unfold PathSetter.choose_path. rewrite Hdrives.
  destruct (menu_answer_int n) as [_ Hint]. rewrite Hint. cbv zeta.
  set (options := (drives ++ PathSetter.get_internal_paths home)%list).
  assert (Hmenu : forall idx option (tail : list PathSetter.menu_line),
             (forall o, ~ In (PathSetter.OptionMsg idx o) tail) ->
             In (PathSetter.OptionMsg idx option) ((PathSetter.ChooseMsg :: PathSetter.numbered 1 options) ++ tail)
             <-> (1 <= idx)%nat /\ nth_error options (idx - 1) = Some option).
  { intros idx option tail Htail. rewrite in_app_iff. cbn [In].
    rewrite numbered_option. split.
    - intros [[H | H] | H]; [discriminate H | exact H | contradiction (Htail option H)].
    - intros H. left. right. exact H. }
  destruct ((0 <=? Z.of_nat n - 1)%Z
            && (Z.of_nat n - 1 <? Z.of_nat (List.length options))%Z)%bool eqn:Hrange;
    cbn [fst snd].
  - apply andb_true_iff in Hrange. destruct Hrange as [Hlow Hhigh].
    apply Z.leb_le in Hlow. apply Z.ltb_lt in Hhigh.
    replace (Z.to_nat (Z.of_nat n - 1)) with (n - 1)%nat by lia.
    assert (Hnth : nth_error options (n - 1) = Some (nth (n - 1) options ""))
      by (apply nth_error_nth'; lia).
    assert (Hplain : forall idx option,
               In (PathSetter.OptionMsg idx option) (PathSetter.ChooseMsg :: PathSetter.numbered 1 options)
               <-> (1 <= idx)%nat /\ nth_error options (idx - 1) = Some option).
    { intros idx option.
      rewrite <- (app_nil_r (PathSetter.ChooseMsg :: PathSetter.numbered 1 options)).
      apply Hmenu. intros o []. }
    split; [|split].
    + intros option. rewrite Hplain, Hnth. split.
      * intros H. inversion H; subst. split; [lia | reflexivity].
      * intros [_ H]. inversion H; subst. reflexivity.
    + split; [discriminate|]. intros Hnone. exfalso.
      apply (Hnone (nth (n - 1) options "")). apply Hplain. split; [lia | exact Hnth].
    + exact Hplain.
  - assert (Htail : forall idx o, ~ In (PathSetter.OptionMsg idx o) [PathSetter.InvalidChoiceMsg])
      by (intros idx o [H | []]; discriminate H).
    assert (Hout : forall option, ~ ((1 <= n)%nat /\ nth_error options (n - 1) = Some option)).
    { intros option [Hle Hnth].
      assert (Hlt : (n - 1 < List.length options)%nat)
        by (apply nth_error_Some; rewrite Hnth; discriminate).
      apply andb_false_iff in Hrange. destruct Hrange as [Hlow | Hhigh].
      - apply Z.leb_gt in Hlow. lia.
      - apply Z.ltb_ge in Hhigh. lia. }
    split; [|split].
    + intros option. rewrite (Hmenu n option _ (Htail n)). split; [discriminate|].
      intros H. contradiction (Hout option H).
    + split; [|reflexivity]. intros _ option.
      rewrite (Hmenu n option _ (Htail n)). apply Hout.
    + intros idx option. apply Hmenu, Htail.
Qed.

(** On the Linux system with [secret] and [work] under [/mnt], the
    answer [3] returns the home directory, the third option. *)
Lemma menu_returns_the_option_printed_with_the_number_witness :
  In (PathSetter.OptionMsg 3 "/home/user")
     (fst (PathSetter.choose_path (Examples.linux Examples.locked_sibling)
             "/home/user" ["3"])).
Proof.
  destruct (menu_returns_the_option_printed_with_the_number
              (Examples.linux Examples.locked_sibling) "/home/user"
              ["/mnt/secret"; "/mnt/work"] 3 [] eq_refl) as [Hreturned _].
  apply Hreturned. reflexivity.
Defined.
